(** * ApexBets: feature engineering and prediction pipeline

    A shallow embedding of [scripts/ml_models/feature_engineering.py],
    [scripts/ml_models/prediction_models.py] and
    [scripts/ml_models/prediction_generator.py].

    Conventions of the embedding:
    - Python floats, numpy floats and SQL numerics are rationals ([Q]);
      rounding is not modelled.  Integer scores are [Z].
    - A Python dict is a [gmap] with string keys; a missing key raises
      [KeyError] on subscript access.
    - A function that can raise returns a [result]; a method that also
      mutates [self] (or the database) is a state-and-exception
      computation [M S A].  [try ... except Exception] is [try_except].
    - scikit-learn and [numpy.std] are not part of the repository: fitted
      scalers and estimators are records of functions, and the fitting
      procedures are the fields of a [Sklearn] record passed as a
      parameter.
    - The relational store is a record holding the [games] and
      [predictions] tables as lists of rows and a flag telling whether a
      connection can be opened. *)

From Stdlib Require Import QArith Qabs ZArith Lia Lqa.
From stdpp Require Import gmap strings list sorting.

Open Scope Q_scope.

(** ** Exceptions and the two monads *)

Inductive exn : Type :=
| KeyError (key : string)
| IndexError
| TypeError
| ZeroDivisionError
| OperationalError      (* psycopg2: the connection cannot be opened *)
| DatabaseError         (* psycopg2 / pandas: the statement is rejected *)
| NotFittedError        (* sklearn: transform or predict before fit *)
| ValueError.

Inductive result (A : Type) : Type :=
| Ok (a : A)
| Raise (e : exn).
Arguments Ok {A} a.
Arguments Raise {A} e.

Definition rbind {A B} (r : result A) (k : A → result B) : result B :=
  match r with
  | Ok a => k a
  | Raise e => Raise e
  end.

Notation "'let!' x ':=' r 'in' k" := (rbind r (fun x => k))
  (at level 10, x name, r at level 100, k at level 200,
   format "'[v' 'let!'  x  ':='  r  'in' '/' k ']'").

(** [try: body except Exception: handler] for code without side effects. *)
Definition try_except_pure {A} (body : result A) (handler : exn → result A) : result A :=
  match body with
  | Ok a => Ok a
  | Raise e => handler e
  end.

(** State and exceptions: the state a computation leaves behind survives
    a raise, as object mutation does in Python. *)
Definition M (S A : Type) : Type := S → result A * S.

Definition ret {S A} (a : A) : M S A := fun s => (Ok a, s).
Definition raise {S A} (e : exn) : M S A := fun s => (Raise e, s).
Definition bind {S A B} (m : M S A) (k : A → M S B) : M S B := fun s =>
  match m s with
  | (Ok a, s') => k a s'
  | (Raise e, s') => (Raise e, s')
  end.
Definition get {S} : M S S := fun s => (Ok s, s).
Definition put {S} (s : S) : M S unit := fun _ => (Ok tt, s).
Definition lift {S A} (r : result A) : M S A := fun s => (r, s).
Definition try_except {S A} (body : M S A) (handler : exn → M S A) : M S A := fun s =>
  match body s with
  | (Ok a, s') => (Ok a, s')
  | (Raise e, s') => handler e s'
  end.
(** Run a computation on a component of the state (a method call on an
    attribute of [self]). *)
Definition zoom {S T A} (proj : S → T) (upd : T → S → S) (m : M T A) : M S A := fun s =>
  match m (proj s) with
  | (r, t') => (r, upd t' s)
  end.

Notation "'let*' x ':=' m 'in' k" := (bind m (fun x => k))
  (at level 10, x name, m at level 100, k at level 200,
   format "'[v' 'let*'  x  ':='  m  'in' '/' k ']'").
Notation "m ';;' k" := (bind m (fun _ => k))
  (at level 100, k at level 200, right associativity, only parsing).

(** A sequence of calls, one per element of [l]. *)
Fixpoint for_each {S A B} (f : A → M S B) (l : list A) : M S (list B) :=
  match l with
  | [] => ret []
  | a :: rest =>
      let* b := f a in
      let* bs := for_each f rest in
      ret (b :: bs)
  end.

Definition run {S A} (m : M S A) (s : S) : result A := (m s).1.
Definition exec {S A} (m : M S A) (s : S) : S := (m s).2.

(** ** Python and numpy arithmetic *)

Definition Qltb (x y : Q) : bool := negb (Qle_bool y x).

(** Built-in [min(a, b)] and [max(a, b)]: the first argument wins ties. *)
Definition py_min (a b : Q) : Q := if Qltb b a then b else a.
Definition py_max (a b : Q) : Q := if Qltb a b then b else a.

(** [n / m] on Python ints (true division). *)
Definition py_truediv (n m : Z) : result Q :=
  if bool_decide (m = 0%Z) then Raise ZeroDivisionError
  else Ok (inject_Z n / inject_Z m).

Definition sumZ (l : list Z) : Z := foldr Z.add 0%Z l.

(** [np.mean] of a list of integers.  On the empty list numpy yields nan;
    the source never calls it there. *)
Definition np_mean (l : list Z) : Q := inject_Z (sumZ l) / inject_Z (Z.of_nat (length l)).

(** Subscript access [d[k]] on a dict and [l[i]] on a sequence. *)
Definition getitem {V} (d : gmap string V) (k : string) : result V :=
  match d !! k with
  | Some v => Ok v
  | None => Raise (KeyError k)
  end.

Definition getindex {A} (l : list A) (i : nat) : result A :=
  match l !! i with
  | Some a => Ok a
  | None => Raise IndexError
  end.

(** ** The relational store *)

Record Game : Type := {
  g_id : string;
  home_team_id : string;
  away_team_id : string;
  home_score : option Z;          (* NULL until the game is played *)
  away_score : option Z;
  game_date : Z;                  (* day number *)
  status : string
}.

Record Prediction : Type := {
  p_game_id : string;
  p_model_name : string;
  prediction_type : string;
  predicted_value : Q;
  confidence : Q;
  actual_value : option Q;
  is_correct : option bool;
  created_at : Z
}.

Record Database : Type := {
  online : bool;
  games : list Game;
  predictions : list Prediction
}.

(** [DatabaseManager.get_connection]: logs and re-raises on failure. *)
Definition get_connection (db : Database) : result unit :=
  if online db then Ok tt else Raise OperationalError.

(** [ORDER BY game_date DESC].  SQL leaves the order of rows with equal
    dates open; the merge sort fixes one. *)
Definition date_desc (a b : Game) : Prop := (game_date b ≤ game_date a)%Z.

#[global] Instance date_desc_dec : RelDecision date_desc.
Proof. intros a b. unfold date_desc. apply _. Defined.

Definition order_by_game_date_desc (l : list Game) : list Game := merge_sort date_desc l.

(** [ORDER BY game_date], ascending. *)
Definition date_asc (a b : Game) : Prop := (game_date a ≤ game_date b)%Z.

#[global] Instance date_asc_dec : RelDecision date_asc.
Proof. intros a b. unfold date_asc. apply _. Defined.

Definition order_by_game_date (l : list Game) : list Game := merge_sort date_asc l.

(** [LIMIT n]: PostgreSQL rejects a negative row count. *)
Definition sql_limit {A} (n : Z) (l : list A) : result (list A) :=
  if bool_decide (n < 0)%Z then Raise DatabaseError else Ok (take (Z.to_nat n) l).

(** [x IS NULL] *)
Definition is_null {A} (x : option A) : bool :=
  match x with None => true | Some _ => false end.

(** [status = 'completed' AND home_score IS NOT NULL AND away_score IS NOT NULL] *)
Definition completed_with_scores (g : Game) : bool :=
  bool_decide (status g = "completed") && negb (is_null (home_score g))
  && negb (is_null (away_score g)).

(** ** feature_engineering.py *)

Module FeatureEngineer.

(** A row of the data frame read by [get_team_stats]; the scores are not
    NULL there. *)
Record Row : Type := {
  row_id : string;
  row_home_team_id : string;
  row_away_team_id : string;
  row_home_score : Z;
  row_away_score : Z;
  row_game_date : Z;
  venue : string
}.

(** A row of the data frame read by [get_head_to_head_stats]. *)
Record H2HRow : Type := {
  h2h_home_team_id : string;
  h2h_away_team_id : string;
  h2h_home_score : Z;
  h2h_away_score : Z;
  h2h_game_date : Z
}.

(** The WHERE clause of the query in [get_team_stats]. *)
Definition team_games_where (team_id : string) (g : Game) : bool :=
  (bool_decide (home_team_id g = team_id) || bool_decide (away_team_id g = team_id))
  && completed_with_scores g.

(** Its SELECT list, with the CASE that computes [venue]. *)
Definition team_games_select (team_id : string) (g : Game) : option Row :=
  hs ← home_score g;
  aws ← away_score g;
  Some {| row_id := g_id g;
          row_home_team_id := home_team_id g;
          row_away_team_id := away_team_id g;
          row_home_score := hs;
          row_away_score := aws;
          row_game_date := game_date g;
          venue := if bool_decide (home_team_id g = team_id) then "home" else "away" |}.

(** The games the query of [get_team_stats] selects: WHERE, ORDER BY,
    LIMIT. *)
Definition team_games_selected (db : Database) (team_id : string) (games_back : Z)
  : result (list Game) :=
  sql_limit games_back
    (order_by_game_date_desc (filter (λ g, team_games_where team_id g) (games db))).

(** [pd.read_sql(query, conn, params=[team_id, team_id, team_id, games_back])]
    under [with self.db.get_connection() as conn]. *)
Definition team_games_query (db : Database) (team_id : string) (games_back : Z)
  : result (list Row) :=
  let! _ := get_connection db in
  let! selected := team_games_selected db team_id games_back in
  Ok (omap (team_games_select team_id) selected).

Definition h2h_where (team1_id team2_id : string) (g : Game) : bool :=
  (bool_decide (home_team_id g = team1_id) && bool_decide (away_team_id g = team2_id)
   || bool_decide (home_team_id g = team2_id) && bool_decide (away_team_id g = team1_id))
  && completed_with_scores g.

Definition h2h_select (g : Game) : option H2HRow :=
  hs ← home_score g;
  aws ← away_score g;
  Some {| h2h_home_team_id := home_team_id g;
          h2h_away_team_id := away_team_id g;
          h2h_home_score := hs;
          h2h_away_score := aws;
          h2h_game_date := game_date g |}.

Definition h2h_query (db : Database) (team1_id team2_id : string) (games_back : Z)
  : result (list H2HRow) :=
  let! _ := get_connection db in
  let! selected := sql_limit games_back
    (order_by_game_date_desc (filter (λ g, h2h_where team1_id team2_id g) (games db))) in
  Ok (omap h2h_select selected).

Definition _get_default_stats : gmap string Q :=
  <["scoring_consistency" := 0.5]>
  (<["recent_form" := 0.5]>
  (<["away_win_pct" := 0.5]>
  (<["home_win_pct" := 0.5]>
  (<["win_percentage" := 0.5]>
  (<["avg_point_differential" := 0.0]>
  (<["avg_points_allowed" := 110.0]>
  (<["avg_points_scored" := 110.0]> ∅))))))).

(** The first loop of [get_team_stats]: the two score lists. *)
Definition scores_loop (df : list Row) : list Z * list Z :=
  foldl (λ '(team_scores, opponent_scores) row,
           if bool_decide (venue row = "home")
           then (team_scores ++ [row_home_score row], opponent_scores ++ [row_away_score row])
           else (team_scores ++ [row_away_score row], opponent_scores ++ [row_home_score row]))
        ([], []) df.

(** [sum(1 for i, score in enumerate(team_scores) if score > opponent_scores[i])],
    with the enumeration at index [i]. *)
Fixpoint count_wins (i : nat) (team_scores opponent_scores : list Z) : result Z :=
  match team_scores with
  | [] => Ok 0%Z
  | score :: rest =>
      let! opp := getindex opponent_scores i in
      let! n := count_wins (S i) rest opponent_scores in
      Ok ((if bool_decide (score > opp)%Z then 1 else 0) + n)%Z
  end.

(** The counting loop shared by [_calculate_win_pct] (where [venue_of] is
    the constant argument) and the recent-form loop (where it reads the
    row). *)
Definition wins_loop (venue_of : Row → string) (df : list Row) : Z :=
  foldl (λ wins row,
           if bool_decide (venue_of row = "home")
              && bool_decide (row_home_score row > row_away_score row)%Z
           then (wins + 1)%Z
           else if bool_decide (venue_of row = "away")
                   && bool_decide (row_away_score row > row_home_score row)%Z
           then (wins + 1)%Z
           else wins)
        0%Z df.

Definition _calculate_win_pct (games_df : list Row) (venue : string) : result Q :=
  match games_df with
  | [] => Ok 0.5
  | _ => py_truediv (wins_loop (λ _, venue) games_df) (Z.of_nat (length games_df))
  end.

Definition is_nil {A} (l : list A) : bool :=
  match l with [] => true | _ => false end.

Section WithNumpy.

(** [np.std]: the population standard deviation, a floating-point square
    root; left abstract. *)
Context (np_std : list Z → Q).

(** The body of the [try] in [get_team_stats]. *)
Definition get_team_stats_try (db : Database) (team_id : string) (games_back : Z)
  : result (gmap string Q) :=
  let! df := team_games_query db team_id games_back in
  if is_nil df then Ok _get_default_stats
  else
    let stats : gmap string Q := ∅ in
    let '(team_scores, opponent_scores) := scores_loop df in
    let stats := <["avg_points_scored" := np_mean team_scores]> stats in
    let stats := <["avg_points_allowed" := np_mean opponent_scores]> stats in
    let! scored := getitem stats "avg_points_scored" in
    let! allowed := getitem stats "avg_points_allowed" in
    let stats := <["avg_point_differential" := scored - allowed]> stats in
    let! wins := count_wins 0 team_scores opponent_scores in
    let! win_percentage :=
      (if is_nil team_scores then Ok 0
       else py_truediv wins (Z.of_nat (length team_scores))) in
    let stats := <["win_percentage" := win_percentage]> stats in
    let home_games := filter (λ row, venue row = "home") df in
    let away_games := filter (λ row, venue row = "away") df in
    let! home_win_pct :=
      (if negb (is_nil home_games) then _calculate_win_pct home_games "home" else Ok 0.5) in
    let stats := <["home_win_pct" := home_win_pct]> stats in
    let! away_win_pct :=
      (if negb (is_nil away_games) then _calculate_win_pct away_games "away" else Ok 0.5) in
    let stats := <["away_win_pct" := away_win_pct]> stats in
    let recent_games := take 5 df in
    let! recent_form :=
      (if negb (is_nil recent_games)
       then py_truediv (wins_loop venue recent_games) (Z.of_nat (length recent_games))
       else Ok 0.5) in
    let stats := <["recent_form" := recent_form]> stats in
    let stats :=
      <["scoring_consistency" :=
          if is_nil team_scores then 0.5 else 1 / (np_std team_scores + 1)]> stats in
    Ok stats.

Definition get_team_stats (db : Database) (team_id : string) (games_back : Z)
  : result (gmap string Q) :=
  try_except_pure (get_team_stats_try db team_id games_back)
                  (λ e, Ok _get_default_stats).

Definition h2h_default : gmap string Q :=
  <["avg_margin" := 0.0]> (<["avg_total_points" := 220.0]> (<["h2h_win_pct" := 0.5]> ∅)).

(** The loop of [get_head_to_head_stats]: wins of the first team, the
    totals and the signed margins. *)
Definition h2h_loop (team1_id : string) (df : list H2HRow) : Z * list Z * list Z :=
  foldl (λ '(team1_wins, total_points, margins) row,
           let '(team1_wins, margins) :=
             if bool_decide (h2h_home_team_id row = team1_id)
             then ((if bool_decide (h2h_home_score row > h2h_away_score row)%Z
                    then team1_wins + 1 else team1_wins)%Z,
                   margins ++ [(h2h_home_score row - h2h_away_score row)%Z])
             else ((if bool_decide (h2h_away_score row > h2h_home_score row)%Z
                    then team1_wins + 1 else team1_wins)%Z,
                   margins ++ [(h2h_away_score row - h2h_home_score row)%Z]) in
           (team1_wins, total_points ++ [(h2h_home_score row + h2h_away_score row)%Z], margins))
        (0%Z, [], []) df.

Definition get_head_to_head_stats_try (db : Database) (team1_id team2_id : string)
    (games_back : Z) : result (gmap string Q) :=
  let! df := h2h_query db team1_id team2_id games_back in
  if is_nil df then Ok h2h_default
  else
    let '(team1_wins, total_points, margins) := h2h_loop team1_id df in
    let! h2h_win_pct := py_truediv team1_wins (Z.of_nat (length df)) in
    Ok (<["avg_margin" := np_mean margins]>
        (<["avg_total_points" := np_mean total_points]>
        (<["h2h_win_pct" := h2h_win_pct]> ∅))).

Definition get_head_to_head_stats (db : Database) (team1_id team2_id : string)
    (games_back : Z) : result (gmap string Q) :=
  try_except_pure (get_head_to_head_stats_try db team1_id team2_id games_back)
                  (λ e, Ok h2h_default).

(** [get_team_stats] and [get_head_to_head_stats] are called with their
    default windows, 10 and 5. *)
Definition create_game_features (db : Database) (home_team_id away_team_id : string)
  : result (gmap string Q) :=
  let! home_stats := get_team_stats db home_team_id 10 in
  let! away_stats := get_team_stats db away_team_id 10 in
  let! h2h_stats := get_head_to_head_stats db home_team_id away_team_id 5 in
  let features : gmap string Q := ∅ in
  let! v := getitem home_stats "avg_points_scored" in
  let features := <["home_avg_scored" := v]> features in
  let! v := getitem home_stats "avg_points_allowed" in
  let features := <["home_avg_allowed" := v]> features in
  let! v := getitem away_stats "avg_points_scored" in
  let features := <["away_avg_scored" := v]> features in
  let! v := getitem away_stats "avg_points_allowed" in
  let features := <["away_avg_allowed" := v]> features in
  let! v := getitem home_stats "avg_point_differential" in
  let features := <["home_point_diff" := v]> features in
  let! v := getitem away_stats "avg_point_differential" in
  let features := <["away_point_diff" := v]> features in
  let! v := getitem features "home_point_diff" in
  let! w := getitem features "away_point_diff" in
  let features := <["point_diff_advantage" := v - w]> features in
  let! v := getitem home_stats "win_percentage" in
  let features := <["home_win_pct" := v]> features in
  let! v := getitem away_stats "win_percentage" in
  let features := <["away_win_pct" := v]> features in
  let! v := getitem features "home_win_pct" in
  let! w := getitem features "away_win_pct" in
  let features := <["win_pct_advantage" := v - w]> features in
  let! v := getitem home_stats "home_win_pct" in
  let! w := getitem away_stats "away_win_pct" in
  let features := <["home_court_advantage" := v - w]> features in
  let! v := getitem home_stats "recent_form" in
  let features := <["home_recent_form" := v]> features in
  let! v := getitem away_stats "recent_form" in
  let features := <["away_recent_form" := v]> features in
  let! v := getitem features "home_recent_form" in
  let! w := getitem features "away_recent_form" in
  let features := <["form_advantage" := v - w]> features in
  let! v := getitem h2h_stats "h2h_win_pct" in
  let features := <["h2h_win_pct" := v]> features in
  let! v := getitem h2h_stats "avg_total_points" in
  let features := <["h2h_avg_total" := v]> features in
  let! v := getitem h2h_stats "avg_margin" in
  let features := <["h2h_avg_margin" := v]> features in
  let! v := getitem home_stats "scoring_consistency" in
  let features := <["home_consistency" := v]> features in
  let! v := getitem away_stats "scoring_consistency" in
  let features := <["away_consistency" := v]> features in
  let! v := getitem home_stats "avg_points_scored" in
  let! w := getitem away_stats "avg_points_allowed" in
  let features := <["projected_home_score" := (v + w) / 2]> features in
  let! v := getitem away_stats "avg_points_scored" in
  let! w := getitem home_stats "avg_points_allowed" in
  let features := <["projected_away_score" := (v + w) / 2]> features in
  let! v := getitem features "projected_home_score" in
  let! w := getitem features "projected_away_score" in
  let features := <["projected_total" := v + w]> features in
  let! v := getitem features "projected_home_score" in
  let! w := getitem features "projected_away_score" in
  let features := <["projected_spread" := v - w]> features in
  Ok features.

End WithNumpy.

End FeatureEngineer.

(** ** prediction_models.py *)

(** A pandas data frame with numeric cells: the column labels and one
    dict per row; a label missing from a row is a NaN cell. *)
Record DataFrame : Type := {
  columns : list string;
  rows : list (gmap string Q)
}.

(** [df.empty]: some axis has length zero. *)
Definition df_empty (df : DataFrame) : bool :=
  FeatureEngineer.is_nil (columns df) || FeatureEngineer.is_nil (rows df).

(** [pd.DataFrame()] *)
Definition DataFrame_new : DataFrame := {| columns := []; rows := [] |}.

(** [pd.DataFrame([d])] *)
Definition DataFrame_of_dict (d : gmap string Q) : DataFrame :=
  {| columns := (map_to_list d).*1; rows := [d] |}.

(** [df[cols].fillna(0)] *)
Definition select_fillna (df : DataFrame) (cols : list string) : DataFrame :=
  {| columns := cols;
     rows := (λ r : gmap string Q,
                list_to_map ((λ c, (c, default 0 (r !! c))) <$> cols)) <$> rows df |}.

(** [df[col]] as a sequence of cells. *)
Definition column (df : DataFrame) (col : string) : list (option Q) :=
  (λ r : gmap string Q, r !! col) <$> rows df.

Definition Matrix : Type := list (list Q).

Definition to_numpy (df : DataFrame) : Matrix :=
  (λ r : gmap string Q, (λ c, default 0 (r !! c)) <$> columns df) <$> rows df.

(** Fitted (or unfitted) scikit-learn objects, by what the source calls
    on them. *)
Record StandardScaler : Type := { transform : Matrix → result Matrix }.
Record Classifier : Type := { predict_proba : Matrix → result Matrix }.
Record Regressor : Type := { predict_values : Matrix → result (list Q) }.

Definition StandardScaler_new : StandardScaler :=
  {| transform := λ _, Raise NotFittedError |}.

(** The scikit-learn procedures used by the three [train] methods. *)
Record Sklearn : Type := {
  train_test_split :
    Matrix → list (option Q) → result (Matrix * Matrix * list (option Q) * list (option Q));
  scaler_fit : Matrix → result StandardScaler;
  RandomForestClassifier : Classifier;
  classifier_fit : Classifier → Matrix → list (option Q) → result Classifier;
  classifier_score : Classifier → Matrix → list (option Q) → result Q;
  cross_val_score : Classifier → Matrix → list (option Q) → result (list Q);
  GradientBoostingRegressor : Regressor;
  RandomForestRegressor : Regressor;
  regressor_fit : Regressor → Matrix → list (option Q) → result Regressor;
  mean_absolute_error : list (option Q) → list Q → result Q
}.

Module GameOutcomePredictor.

Record t : Type := {
  model : option Classifier;
  scaler : StandardScaler;
  feature_columns : option (list string);
  is_trained : bool
}.

Definition __init__ : t :=
  {| model := None; scaler := StandardScaler_new; feature_columns := None;
     is_trained := false |}.

Definition set_model (v : option Classifier) (self : t) : t :=
  {| model := v; scaler := scaler self; feature_columns := feature_columns self;
     is_trained := is_trained self |}.
Definition set_scaler (v : StandardScaler) (self : t) : t :=
  {| model := model self; scaler := v; feature_columns := feature_columns self;
     is_trained := is_trained self |}.
Definition set_feature_columns (v : option (list string)) (self : t) : t :=
  {| model := model self; scaler := scaler self; feature_columns := v;
     is_trained := is_trained self |}.
Definition set_is_trained (v : bool) (self : t) : t :=
  {| model := model self; scaler := scaler self; feature_columns := feature_columns self;
     is_trained := v |}.

Definition feature_cols : list string :=
  ["home_avg_scored"; "home_avg_allowed"; "away_avg_scored"; "away_avg_allowed";
   "home_point_diff"; "away_point_diff"; "point_diff_advantage";
   "home_win_pct"; "away_win_pct"; "win_pct_advantage";
   "home_court_advantage"; "home_recent_form"; "away_recent_form"; "form_advantage";
   "h2h_win_pct"; "home_consistency"; "away_consistency"].

Definition prepare_features (df : DataFrame) : M t DataFrame :=
  let available_cols := filter (λ col, col ∈ columns df) feature_cols in
  let* self := get in
  put (set_feature_columns (Some available_cols) self) ;;
  ret (select_fillna df available_cols).

Definition fallback : gmap string Q :=
  <["confidence" := 0.0]> (<["home_win_probability" := 0.5]> ∅).

Section WithSklearn.
Context (sk : Sklearn).

Definition train (training_data : DataFrame) : M t bool :=
  try_except
    (if df_empty training_data || negb (bool_decide ("home_win" ∈ columns training_data))
     then ret false
     else
       let* X := prepare_features training_data in
       let y := column training_data "home_win" in
       if df_empty X then ret false
       else
         let* split := lift (train_test_split sk (to_numpy X) y) in
         let '(X_train, X_test, y_train, y_test) := split in
         let* fitted_scaler := lift (scaler_fit sk X_train) in
         let* self := get in
         put (set_scaler fitted_scaler self) ;;
         let* X_train_scaled := lift (transform fitted_scaler X_train) in
         let* X_test_scaled := lift (transform fitted_scaler X_test) in
         let* self := get in
         put (set_model (Some (RandomForestClassifier sk)) self) ;;
         let* fitted := lift (classifier_fit sk (RandomForestClassifier sk) X_train_scaled y_train) in
         let* self := get in
         put (set_model (Some fitted) self) ;;
         let* train_accuracy := lift (classifier_score sk fitted X_train_scaled y_train) in
         let* test_accuracy := lift (classifier_score sk fitted X_test_scaled y_test) in
         let* cv_scores := lift (cross_val_score sk fitted X_train_scaled y_train) in
         let* self := get in
         put (set_is_trained true self) ;;
         ret true)
    (λ e, ret false).

End WithSklearn.

Definition predict (features : DataFrame) : M t (gmap string Q) :=
  let* self := get in
  match model self with
  | Some the_model =>
      if negb (is_trained self) then ret fallback
      else
        try_except
          (let* X := prepare_features features in
           let* self := get in
           let* X_scaled := lift (transform (scaler self) (to_numpy X)) in
           let* probabilities := lift (predict_proba the_model X_scaled) in
           let* first := lift (getindex probabilities 0) in
           let* home_win_prob :=
             (if bool_decide (1 < length first)%nat then lift (getindex first 1)
              else ret 0.5) in
           let confidence := Qabs (home_win_prob - 0.5) * 2 in
           ret (<["confidence" := confidence]>
                (<["away_win_probability" := 1 - home_win_prob]>
                (<["home_win_probability" := home_win_prob]> ∅))))
          (λ e, ret fallback)
  | None => ret fallback
  end.

End GameOutcomePredictor.

Module SpreadPredictor.

Record t : Type := {
  model : option Regressor;
  scaler : StandardScaler;
  feature_columns : option (list string);
  is_trained : bool
}.

Definition __init__ : t :=
  {| model := None; scaler := StandardScaler_new; feature_columns := None;
     is_trained := false |}.

Definition set_model (v : option Regressor) (self : t) : t :=
  {| model := v; scaler := scaler self; feature_columns := feature_columns self;
     is_trained := is_trained self |}.
Definition set_scaler (v : StandardScaler) (self : t) : t :=
  {| model := model self; scaler := v; feature_columns := feature_columns self;
     is_trained := is_trained self |}.
Definition set_feature_columns (v : option (list string)) (self : t) : t :=
  {| model := model self; scaler := scaler self; feature_columns := v;
     is_trained := is_trained self |}.
Definition set_is_trained (v : bool) (self : t) : t :=
  {| model := model self; scaler := scaler self; feature_columns := feature_columns self;
     is_trained := v |}.

Definition feature_cols : list string :=
  ["home_avg_scored"; "home_avg_allowed"; "away_avg_scored"; "away_avg_allowed";
   "point_diff_advantage"; "win_pct_advantage"; "home_court_advantage";
   "form_advantage"; "h2h_avg_margin"; "projected_spread"].

Definition prepare_features (df : DataFrame) : M t DataFrame :=
  let available_cols := filter (λ col, col ∈ columns df) feature_cols in
  let* self := get in
  put (set_feature_columns (Some available_cols) self) ;;
  ret (select_fillna df available_cols).

Definition fallback : gmap string Q :=
  <["confidence" := 0.0]> (<["predicted_spread" := 0.0]> ∅).

Section WithSklearn.
Context (sk : Sklearn).

Definition train (training_data : DataFrame) : M t bool :=
  try_except
    (if df_empty training_data || negb (bool_decide ("point_spread" ∈ columns training_data))
     then ret false
     else
       let* X := prepare_features training_data in
       let y := column training_data "point_spread" in
       if df_empty X then ret false
       else
         let* split := lift (train_test_split sk (to_numpy X) y) in
         let '(X_train, X_test, y_train, y_test) := split in
         let* fitted_scaler := lift (scaler_fit sk X_train) in
         let* self := get in
         put (set_scaler fitted_scaler self) ;;
         let* X_train_scaled := lift (transform fitted_scaler X_train) in
         let* X_test_scaled := lift (transform fitted_scaler X_test) in
         let* self := get in
         put (set_model (Some (GradientBoostingRegressor sk)) self) ;;
         let* fitted := lift (regressor_fit sk (GradientBoostingRegressor sk) X_train_scaled y_train) in
         let* self := get in
         put (set_model (Some fitted) self) ;;
         let* train_predictions := lift (predict_values fitted X_train_scaled) in
         let* test_predictions := lift (predict_values fitted X_test_scaled) in
         let* train_mae := lift (mean_absolute_error sk y_train train_predictions) in
         let* test_mae := lift (mean_absolute_error sk y_test test_predictions) in
         let* self := get in
         put (set_is_trained true self) ;;
         ret true)
    (λ e, ret false).

End WithSklearn.

Definition predict (features : DataFrame) : M t (gmap string Q) :=
  let* self := get in
  match model self with
  | Some the_model =>
      if negb (is_trained self) then ret fallback
      else
        try_except
          (let* X := prepare_features features in
           let* self := get in
           let* X_scaled := lift (transform (scaler self) (to_numpy X)) in
           let* predicted := lift (predict_values the_model X_scaled) in
           let* predicted_spread := lift (getindex predicted 0) in
           let confidence := py_min 0.8 (Qabs predicted_spread / 20.0) in
           ret (<["confidence" := confidence]>
                (<["predicted_spread" := predicted_spread]> ∅)))
          (λ e, ret fallback)
  | None => ret fallback
  end.

End SpreadPredictor.

Module TotalPointsPredictor.

Record t : Type := {
  model : option Regressor;
  scaler : StandardScaler;
  feature_columns : option (list string);
  is_trained : bool
}.

Definition __init__ : t :=
  {| model := None; scaler := StandardScaler_new; feature_columns := None;
     is_trained := false |}.

Definition set_model (v : option Regressor) (self : t) : t :=
  {| model := v; scaler := scaler self; feature_columns := feature_columns self;
     is_trained := is_trained self |}.
Definition set_scaler (v : StandardScaler) (self : t) : t :=
  {| model := model self; scaler := v; feature_columns := feature_columns self;
     is_trained := is_trained self |}.
Definition set_feature_columns (v : option (list string)) (self : t) : t :=
  {| model := model self; scaler := scaler self; feature_columns := v;
     is_trained := is_trained self |}.
Definition set_is_trained (v : bool) (self : t) : t :=
  {| model := model self; scaler := scaler self; feature_columns := feature_columns self;
     is_trained := v |}.

Definition feature_cols : list string :=
  ["home_avg_scored"; "home_avg_allowed"; "away_avg_scored"; "away_avg_allowed";
   "projected_home_score"; "projected_away_score"; "projected_total";
   "h2h_avg_total"; "home_consistency"; "away_consistency"].

Definition prepare_features (df : DataFrame) : M t DataFrame :=
  let available_cols := filter (λ col, col ∈ columns df) feature_cols in
  let* self := get in
  put (set_feature_columns (Some available_cols) self) ;;
  ret (select_fillna df available_cols).

Definition fallback : gmap string Q :=
  <["confidence" := 0.0]> (<["predicted_total" := 220.0]> ∅).

Section WithSklearn.
Context (sk : Sklearn).

Definition train (training_data : DataFrame) : M t bool :=
  try_except
    (if df_empty training_data || negb (bool_decide ("total_points" ∈ columns training_data))
     then ret false
     else
       let* X := prepare_features training_data in
       let y := column training_data "total_points" in
       if df_empty X then ret false
       else
         let* split := lift (train_test_split sk (to_numpy X) y) in
         let '(X_train, X_test, y_train, y_test) := split in
         let* fitted_scaler := lift (scaler_fit sk X_train) in
         let* self := get in
         put (set_scaler fitted_scaler self) ;;
         let* X_train_scaled := lift (transform fitted_scaler X_train) in
         let* X_test_scaled := lift (transform fitted_scaler X_test) in
         let* self := get in
         put (set_model (Some (RandomForestRegressor sk)) self) ;;
         let* fitted := lift (regressor_fit sk (RandomForestRegressor sk) X_train_scaled y_train) in
         let* self := get in
         put (set_model (Some fitted) self) ;;
         let* train_predictions := lift (predict_values fitted X_train_scaled) in
         let* test_predictions := lift (predict_values fitted X_test_scaled) in
         let* train_mae := lift (mean_absolute_error sk y_train train_predictions) in
         let* test_mae := lift (mean_absolute_error sk y_test test_predictions) in
         let* self := get in
         put (set_is_trained true self) ;;
         ret true)
    (λ e, ret false).

End WithSklearn.

Definition predict (features : DataFrame) : M t (gmap string Q) :=
  let* self := get in
  match model self with
  | Some the_model =>
      if negb (is_trained self) then ret fallback
      else
        try_except
          (let* X := prepare_features features in
           let* self := get in
           let* X_scaled := lift (transform (scaler self) (to_numpy X)) in
           let* predicted := lift (predict_values the_model X_scaled) in
           let* predicted_total := lift (getindex predicted 0) in
           let confidence := py_min 0.8 (1.0 - Qabs (predicted_total - 220) / 100.0) in
           ret (<["confidence" := py_max 0.1 confidence]>
                (<["predicted_total" := predicted_total]> ∅)))
          (λ e, ret fallback)
  | None => ret fallback
  end.

End TotalPointsPredictor.

(** A value of the dict returned by [predict_game]. *)
Inductive pyval : Type :=
| PFloat (x : Q)
| PStr (s : string)
| PDict (d : gmap string Q).

(** [prepare_training_data] of [FeatureEngineer]; it stands after the data
    frame it returns.  [teams] holds the ids of the [teams] table, which
    the query joins twice. *)
Module FeatureEngineerTraining.

(** A row of [games_df]. *)
Record BaseRow : Type := {
  base_id : string;
  base_home_team_id : string;
  base_away_team_id : string;
  base_home_score : Z;
  base_away_score : Z;
  base_game_date : Z
}.

(** The JOINs and the WHERE clause, with the optional date bounds
    ([if start_date:] and [if end_date:]). *)
Definition base_games_where (teams : gset string) (start_date end_date : option Z)
    (g : Game) : bool :=
  bool_decide (home_team_id g ∈ teams) && bool_decide (away_team_id g ∈ teams)
  && completed_with_scores g
  && match start_date with
     | Some d => bool_decide (game_date g >= d)%Z
     | None => true
     end
  && match end_date with
     | Some d => bool_decide (game_date g ≤ d)%Z
     | None => true
     end.

Definition base_games_select (g : Game) : option BaseRow :=
  hs ← home_score g;
  aws ← away_score g;
  Some {| base_id := g_id g;
          base_home_team_id := home_team_id g;
          base_away_team_id := away_team_id g;
          base_home_score := hs;
          base_away_score := aws;
          base_game_date := game_date g |}.

Definition base_games_query (teams : gset string) (db : Database)
    (start_date end_date : option Z) : result (list BaseRow) :=
  let! _ := get_connection db in
  Ok (omap base_games_select
        (order_by_game_date
           (filter (λ g, base_games_where teams start_date end_date g) (games db)))).

(** [pd.DataFrame(records)] for a list of dicts of one shape.  The frame
    keeps every key as a column label; its cells are numbers, so a text
    cell (the [game_id] column) is left out of the row. *)
Definition numeric_cells (record : gmap string pyval) : gmap string Q :=
  omap (λ v, match v with PFloat x => Some x | _ => None end) record.

Definition DataFrame_of_records (records : list (gmap string pyval)) : DataFrame :=
  {| columns := elements (⋃ (dom <$> records) : gset string);
     rows := numeric_cells <$> records |}.

Section WithNumpy.
Context (np_std : list Z → Q).

(** One iteration of the loop: the features of the matchup and the
    target variables of the game. *)
Definition training_record (db : Database) (game : BaseRow)
  : result (gmap string pyval) :=
  let! features :=
    FeatureEngineer.create_game_features np_std db
      (base_home_team_id game) (base_away_team_id game) in
  let features : gmap string pyval := PFloat <$> features in
  let features := <["home_score" := PFloat (inject_Z (base_home_score game))]> features in
  let features := <["away_score" := PFloat (inject_Z (base_away_score game))]> features in
  let features :=
    <["total_points" :=
        PFloat (inject_Z (base_home_score game + base_away_score game))]> features in
  let features :=
    <["home_win" :=
        PFloat (if bool_decide (base_home_score game > base_away_score game)%Z
                then 1 else 0)]> features in
  let features :=
    <["point_spread" :=
        PFloat (inject_Z (base_home_score game - base_away_score game))]> features in
  let features := <["game_id" := PStr (base_id game)]> features in
  let features := <["game_date" := PFloat (inject_Z (base_game_date game))]> features in
  Ok features.

Fixpoint training_records (db : Database) (games_df : list BaseRow)
  : result (list (gmap string pyval)) :=
  match games_df with
  | [] => Ok []
  | game :: rest =>
      let! features := training_record db game in
      let! training_data := training_records db rest in
      Ok (features :: training_data)
  end.

Definition prepare_training_data_try (teams : gset string) (db : Database)
    (start_date end_date : option Z) : result DataFrame :=
  let! games_df := base_games_query teams db start_date end_date in
  if FeatureEngineer.is_nil games_df then Ok DataFrame_new
  else
    let! training_data := training_records db games_df in
    Ok (DataFrame_of_records training_data).

Definition prepare_training_data (teams : gset string) (db : Database)
    (start_date end_date : option Z) : result DataFrame :=
  try_except_pure (prepare_training_data_try teams db start_date end_date)
                  (λ e, Ok DataFrame_new).

End WithNumpy.

End FeatureEngineerTraining.

Module MLModelManager.

Record t : Type := {
  outcome_model : GameOutcomePredictor.t;
  spread_model : SpreadPredictor.t;
  total_model : TotalPointsPredictor.t
}.

Definition __init__ : t :=
  {| outcome_model := GameOutcomePredictor.__init__;
     spread_model := SpreadPredictor.__init__;
     total_model := TotalPointsPredictor.__init__ |}.

Definition set_outcome_model (v : GameOutcomePredictor.t) (self : t) : t :=
  {| outcome_model := v; spread_model := spread_model self; total_model := total_model self |}.
Definition set_spread_model (v : SpreadPredictor.t) (self : t) : t :=
  {| outcome_model := outcome_model self; spread_model := v; total_model := total_model self |}.
Definition set_total_model (v : TotalPointsPredictor.t) (self : t) : t :=
  {| outcome_model := outcome_model self; spread_model := spread_model self; total_model := v |}.

Definition neutral_bundle : gmap string pyval :=
  <["confidence_scores" :=
      PDict (<["total" := 0.0]> (<["spread" := 0.0]> (<["outcome" := 0.0]> ∅)))]>
  (<["predicted_total" := PFloat 220.0]>
  (<["predicted_spread" := PFloat 0.0]>
  (<["away_win_probability" := PFloat 0.5]>
  (<["home_win_probability" := PFloat 0.5]> ∅)))).

Section WithNumpy.
Context (np_std : list Z → Q).

(** The body of the [try] in [predict_game]; [now] is
    [datetime.now().isoformat()]. *)
Definition predict_game_try (db : Database) (home_team_id away_team_id : string)
    (now : string) : M t (gmap string pyval) :=
  let* features_dict :=
    lift (FeatureEngineer.create_game_features np_std db home_team_id away_team_id) in
  let features_df := DataFrame_of_dict features_dict in
  let* outcome_pred :=
    zoom outcome_model set_outcome_model (GameOutcomePredictor.predict features_df) in
  let* spread_pred :=
    zoom spread_model set_spread_model (SpreadPredictor.predict features_df) in
  let* total_pred :=
    zoom total_model set_total_model (TotalPointsPredictor.predict features_df) in
  let* home_win_probability := lift (getitem outcome_pred "home_win_probability") in
  let* away_win_probability := lift (getitem outcome_pred "away_win_probability") in
  let* predicted_spread := lift (getitem spread_pred "predicted_spread") in
  let* predicted_total := lift (getitem total_pred "predicted_total") in
  let* outcome_confidence := lift (getitem outcome_pred "confidence") in
  let* spread_confidence := lift (getitem spread_pred "confidence") in
  let* total_confidence := lift (getitem total_pred "confidence") in
  let predictions : gmap string pyval :=
    <["prediction_time" := PStr now]>
    (<["model_name" := PStr "Project Apex ML"]>
    (<["confidence_scores" :=
        PDict (<["total" := total_confidence]>
               (<["spread" := spread_confidence]>
               (<["outcome" := outcome_confidence]> ∅)))]>
    (<["predicted_total" := PFloat predicted_total]>
    (<["predicted_spread" := PFloat predicted_spread]>
    (<["away_win_probability" := PFloat away_win_probability]>
    (<["home_win_probability" := PFloat home_win_probability]> ∅)))))) in
  ret predictions.

Definition predict_game (db : Database) (home_team_id away_team_id : string)
    (now : string) : M t (gmap string pyval) :=
  try_except (predict_game_try db home_team_id away_team_id now)
             (λ e, ret neutral_bundle).

End WithNumpy.

(** What [joblib.dump] writes: one of the three predictor objects. *)
Inductive Pickled : Type :=
| POutcome (m : GameOutcomePredictor.t)
| PSpread (m : SpreadPredictor.t)
| PTotal (m : TotalPointsPredictor.t).

(** The file system as the manager uses it: the saved artifacts by path,
    and the exception a write or a read raises, if any. *)
Record Disk : Type := {
  files : gmap string Pickled;
  write_error : option exn;
  read_error : option exn
}.

Definition models_dir : string := "ml_models/saved_models".

Fixpoint ends_with_sep (path : string) : bool :=
  match path with
  | EmptyString => false
  | String c EmptyString => bool_decide (String c EmptyString = "/")
  | String _ rest => ends_with_sep rest
  end.

(** [os.path.join(a, b)] on POSIX paths. *)
Definition os_path_join (a b : string) : string :=
  if String.prefix "/" b then b
  else if bool_decide (a = "") || ends_with_sep a then a +:+ b
  else a +:+ "/" +:+ b.

Definition model_path (model_name : string) : string :=
  os_path_join models_dir (model_name +:+ ".joblib").

Definition save_model (model : Pickled) (model_name : string) : M Disk unit :=
  try_except
    (let model_path := model_path model_name in
     let* disk := get in
     match write_error disk with
     | Some e => raise e
     | None =>
         put {| files := <[model_path := model]> (files disk);
                write_error := write_error disk;
                read_error := read_error disk |}
     end)
    (λ e, ret tt).


Section Training.
Context (np_std : list Z → Q) (sk : Sklearn).

(** [train_all_models]; the state is the manager with the disk it saves
    to. *)
Definition train_all_models (teams : gset string) (db : Database)
    (start_date end_date : option Z) : M (t * Disk) bool :=
  let* training_data :=
    lift (FeatureEngineerTraining.prepare_training_data np_std teams db
            start_date end_date) in
  if df_empty training_data then ret false
  else
    let* outcome_success :=
      zoom (λ s, outcome_model s.1) (λ m s, (set_outcome_model m s.1, s.2))
        (GameOutcomePredictor.train sk training_data) in
    let* spread_success :=
      zoom (λ s, spread_model s.1) (λ m s, (set_spread_model m s.1, s.2))
        (SpreadPredictor.train sk training_data) in
    let* total_success :=
      zoom (λ s, total_model s.1) (λ m s, (set_total_model m s.1, s.2))
        (TotalPointsPredictor.train sk training_data) in
    (if outcome_success : bool
     then let* s := get in
          zoom snd (λ d s, (s.1, d))
            (save_model (POutcome (outcome_model s.1)) "game_outcome_model")
     else ret tt) ;;
    (if spread_success : bool
     then let* s := get in
          zoom snd (λ d s, (s.1, d))
            (save_model (PSpread (spread_model s.1)) "spread_model")
     else ret tt) ;;
    (if total_success : bool
     then let* s := get in
          zoom snd (λ d s, (s.1, d))
            (save_model (PTotal (total_model s.1)) "total_points_model")
     else ret tt) ;;
    let success_count :=
      (Nat.b2n outcome_success + Nat.b2n spread_success + Nat.b2n total_success)%nat in
    ret (bool_decide (0 < success_count)%nat).

End Training.

End MLModelManager.

(** ** prediction_generator.py *)

Module PredictionGenerator.

(** The unique key of the [predictions] table named by
    [ON CONFLICT (game_id, model_name, prediction_type)]. *)
Definition key (p : Prediction) : string * string * string :=
  (p_game_id p, p_model_name p, prediction_type p).

(** [INSERT INTO predictions (...) VALUES (...) ON CONFLICT (...) DO UPDATE
    SET predicted_value = EXCLUDED.predicted_value,
        confidence = EXCLUDED.confidence, created_at = NOW()].
    The columns the statement does not name take their defaults on
    insertion ([actual_value] and [is_correct] NULL) and are kept on
    conflict. *)
Fixpoint upsert (new : Prediction) (table : list Prediction) : list Prediction :=
  match table with
  | [] => [new]
  | row :: rest =>
      if bool_decide (key row = key new)
      then {| p_game_id := p_game_id row;
              p_model_name := p_model_name row;
              prediction_type := prediction_type row;
              predicted_value := predicted_value new;
              confidence := confidence new;
              actual_value := actual_value row;
              is_correct := is_correct row;
              created_at := created_at new |} :: rest
      else row :: upsert new rest
  end.

(** [cur.execute] of a statement that rewrites the [predictions] table. *)
Definition execute (stmt : list Prediction → list Prediction) : M Database unit :=
  let* db := get in
  put {| online := online db; games := games db; predictions := stmt (predictions db) |}.

(** [with self.db.get_connection() as conn: ... conn.commit()]: the writes
    of the block are kept when it ends normally and rolled back when it
    raises. *)
Definition transaction {A} (body : M Database A) : M Database A := λ db,
  match get_connection db with
  | Ok _ =>
      match body db with
      | (Ok a, db') => (Ok a, db')
      | (Raise e, _) => (Raise e, db)
      end
  | Raise e => (Raise e, db)
  end.

(** Query parameters: the driver sends a Python str as text and a float as
    a number; a value of another kind in these positions is taken to be
    rejected. *)
Definition as_text (v : pyval) : result string :=
  match v with PStr s => Ok s | _ => Raise TypeError end.
Definition as_number (v : pyval) : result Q :=
  match v with PFloat x => Ok x | _ => Raise TypeError end.
(** [v[k]] on a value of the bundle. *)
Definition subscript (v : pyval) (k : string) : result Q :=
  match v with PDict d => getitem d k | _ => Raise TypeError end.

Definition insert_row (game_id model_name kind : string) (value conf : Q) (now : Z)
  : Prediction :=
  {| p_game_id := game_id; p_model_name := model_name; prediction_type := kind;
     predicted_value := value; confidence := conf;
     actual_value := None; is_correct := None; created_at := now |}.

(** One of the three [cur.execute] calls of [store_predictions]; the
    parameter tuple is evaluated first. *)
Definition store_one (game_id : string) (predictions : gmap string pyval)
    (kind value_key conf_key : string) (now : Z) : M Database unit :=
  let* model_name := lift (let! v := getitem predictions "model_name" in as_text v) in
  let* value := lift (let! v := getitem predictions value_key in as_number v) in
  let* conf := lift (let! v := getitem predictions "confidence_scores" in subscript v conf_key) in
  execute (upsert (insert_row game_id model_name kind value conf now)).

(** [now] is the reading of the server clock [NOW()]. *)
Definition store_predictions (game_id : string) (predictions : gmap string pyval) (now : Z)
  : M Database unit :=
  try_except
    (transaction
       (store_one game_id predictions "winner" "home_win_probability" "outcome" now ;;
        store_one game_id predictions "spread" "predicted_spread" "spread" now ;;
        store_one game_id predictions "total" "predicted_total" "total" now))
    (λ e, ret tt).

(** The row of [games] joined to a prediction of game [game_id] by the
    FROM and WHERE clauses shared by the three UPDATE statements. *)
Definition joined_game (games : list Game) (game_id : string) : option Game :=
  List.find (λ g, bool_decide (game_id = g_id g) && completed_with_scores g) games.

(** [UPDATE predictions p SET actual_value = ..., is_correct = ... FROM games g
    WHERE p.game_id = g.id AND p.prediction_type = kind AND ...
    AND p.actual_value IS NULL], row by row. *)
Definition update_row (kind : string) (actual : Z → Z → Q) (correct : Q → Z → Z → bool)
    (games : list Game) (p : Prediction) : Prediction :=
  if bool_decide (prediction_type p = kind) && is_null (actual_value p) then
    match joined_game games (p_game_id p) with
    | Some g =>
        match home_score g, away_score g with
        | Some hs, Some aws =>
            {| p_game_id := p_game_id p;
               p_model_name := p_model_name p;
               prediction_type := prediction_type p;
               predicted_value := predicted_value p;
               confidence := confidence p;
               actual_value := Some (actual hs aws);
               is_correct := Some (correct (predicted_value p) hs aws);
               created_at := created_at p |}
        | _, _ => p
        end
    | None => p
    end
  else p.

Definition winner_actual (hs aws : Z) : Q :=
  if bool_decide (hs > aws)%Z then 1 else 0.
Definition winner_correct (predicted : Q) (hs aws : Z) : bool :=
  if Qltb 0.5 predicted && bool_decide (hs > aws)%Z then true
  else if Qle_bool predicted 0.5 && bool_decide (hs ≤ aws)%Z then true
  else false.

Definition spread_actual (hs aws : Z) : Q := inject_Z (hs - aws).
Definition spread_correct (predicted : Q) (hs aws : Z) : bool :=
  Qle_bool (Qabs (predicted - inject_Z (hs - aws))) 3.

Definition total_actual (hs aws : Z) : Q := inject_Z (hs + aws).
Definition total_correct (predicted : Q) (hs aws : Z) : bool :=
  Qle_bool (Qabs (predicted - inject_Z (hs + aws))) 5.

Definition update_statement (kind : string) (actual : Z → Z → Q)
    (correct : Q → Z → Z → bool) : M Database unit :=
  let* db := get in
  execute (λ table, update_row kind actual correct (games db) <$> table).

Definition update_prediction_accuracy : M Database unit :=
  try_except
    (transaction
       (update_statement "winner" winner_actual winner_correct ;;
        update_statement "spread" spread_actual spread_correct ;;
        update_statement "total" total_actual total_correct))
    (λ e, ret tt).

(** The generator object: its model manager and the store. *)
Record t : Type := {
  model_manager : MLModelManager.t;
  db : Database
}.

(** [PredictionGenerator()] creates a new [MLModelManager()]. *)
Definition __init__ (store : Database) : t :=
  {| model_manager := MLModelManager.__init__; db := store |}.

Definition set_model_manager (v : MLModelManager.t) (self : t) : t :=
  {| model_manager := v; db := db self |}.
Definition set_db (v : Database) (self : t) : t :=
  {| model_manager := model_manager self; db := v |}.

(** The JOINs and the WHERE clause of the query for upcoming games. *)
Definition upcoming_where (teams : gset string) (start_date end_date : Z) (g : Game)
  : bool :=
  bool_decide (home_team_id g ∈ teams) && bool_decide (away_team_id g ∈ teams)
  && bool_decide (status g = "scheduled")
  && bool_decide (start_date ≤ game_date g)%Z && bool_decide (game_date g ≤ end_date)%Z.

Definition upcoming_query (teams : gset string) (store : Database)
    (start_date end_date : Z) : result (list Game) :=
  let! _ := get_connection store in
  Ok (order_by_game_date
        (filter (λ g, upcoming_where teams start_date end_date g) (games store))).

Section Generate.
Context (np_std : list Z → Q).

(** The body of the loop for one game.  [now_of] and [clock_of] read the
    process clock and the server clock while that game is handled. *)
Definition generate_one (now_of : Game → string) (clock_of : Game → Z) (game : Game)
  : M t unit :=
  try_except
    (let* self := get in
     let* predictions :=
       zoom model_manager set_model_manager
         (MLModelManager.predict_game np_std (db self)
            (home_team_id game) (away_team_id game) (now_of game)) in
     zoom db set_db (store_predictions (g_id game) predictions (clock_of game)))
    (λ e, ret tt).

(** [today] is [datetime.now().date()]. *)
Definition generate_predictions_for_upcoming_games (teams : gset string) (today : Z)
    (now_of : Game → string) (clock_of : Game → Z) (days_ahead : Z) : M t unit :=
  try_except
    (let start_date := today in
     let end_date := (start_date + days_ahead)%Z in
     let* self := get in
     let* games_df := lift (upcoming_query teams (db self) start_date end_date) in
     if FeatureEngineer.is_nil games_df then ret tt
     else
       let* _ := for_each (generate_one now_of clock_of) games_df in
       ret tt)
    (λ e, ret tt).

End Generate.

End PredictionGenerator.

(** ** Documented key sets and sample data *)

(** The fields of a TeamStats mapping. *)
Definition stats_keys : gset string :=
  {[ "avg_points_scored"; "avg_points_allowed"; "avg_point_differential";
     "win_percentage"; "home_win_pct"; "away_win_pct"; "recent_form";
     "scoring_consistency" ]}.

(** The fields of a HeadToHeadStats mapping. *)
Definition h2h_keys : gset string :=
  {[ "h2h_win_pct"; "avg_total_points"; "avg_margin" ]}.

(** The score of the team and of its opponent in a row of the data frame
    of [get_team_stats], by venue. *)
Definition row_team_score (row : FeatureEngineer.Row) : Z :=
  if bool_decide (FeatureEngineer.venue row = "home")
  then FeatureEngineer.row_home_score row else FeatureEngineer.row_away_score row.
Definition row_opponent_score (row : FeatureEngineer.Row) : Z :=
  if bool_decide (FeatureEngineer.venue row = "home")
  then FeatureEngineer.row_away_score row else FeatureEngineer.row_home_score row.

(** The team's score exceeds the opponent's score in game [g]. *)
Definition team_won (team_id : string) (g : Game) : bool :=
  match home_score g, away_score g with
  | Some hs, Some aws =>
      if bool_decide (home_team_id g = team_id)
      then bool_decide (hs > aws)%Z
      else bool_decide (aws > hs)%Z
  | _, _ => false
  end.

Definition count_won (team_id : string) (selected : list Game) : Z :=
  Z.of_nat (length (filter (λ g, team_won team_id g) selected)).

Definition sample_game (i h a : string) (hs aws : option Z) (d : Z) (st : string) : Game :=
  {| g_id := i; home_team_id := h; away_team_id := a; home_score := hs;
     away_score := aws; game_date := d; status := st |}.

(** Three games: BOS beat NYK at home, lost at NYK, and hosts LAL later. *)
Definition sample_games : list Game :=
  [ sample_game "g1" "BOS" "NYK" (Some 100%Z) (Some 90%Z) 1 "completed";
    sample_game "g2" "NYK" "BOS" (Some 105%Z) (Some 95%Z) 2 "completed";
    sample_game "g3" "BOS" "LAL" None None 3 "scheduled" ].

Definition sample_db : Database :=
  {| online := true; games := sample_games; predictions := [] |}.

(** A stand-in for [np.std] where a concrete function is needed. *)
Definition sample_std (l : list Z) : Q := 0.

(** What scikit-learn promises of [predict_proba]: every entry is a
    probability. *)
Definition probabilities_valid (m : Classifier) : Prop :=
  ∀ X P row p, predict_proba m X = Ok P → row ∈ P → p ∈ row → 0 <= p <= 1.

(** A fitted scaler that leaves the features as they are, a classifier
    that gives the home team 70%, and regressors for a 5-point home win
    and 210 points in total. *)
Definition sample_scaler : StandardScaler := {| transform := λ X, Ok X |}.
Definition sample_classifier : Classifier :=
  {| predict_proba := λ X, Ok [[0.3; 0.7]] |}.
Definition sample_spread_regressor : Regressor := {| predict_values := λ X, Ok [5.0] |}.
Definition sample_total_regressor : Regressor := {| predict_values := λ X, Ok [210.0] |}.

Definition sample_outcome_model : GameOutcomePredictor.t :=
  {| GameOutcomePredictor.model := Some sample_classifier;
     GameOutcomePredictor.scaler := sample_scaler;
     GameOutcomePredictor.feature_columns := Some GameOutcomePredictor.feature_cols;
     GameOutcomePredictor.is_trained := true |}.
Definition sample_spread_model : SpreadPredictor.t :=
  {| SpreadPredictor.model := Some sample_spread_regressor;
     SpreadPredictor.scaler := sample_scaler;
     SpreadPredictor.feature_columns := Some SpreadPredictor.feature_cols;
     SpreadPredictor.is_trained := true |}.
Definition sample_total_model : TotalPointsPredictor.t :=
  {| TotalPointsPredictor.model := Some sample_total_regressor;
     TotalPointsPredictor.scaler := sample_scaler;
     TotalPointsPredictor.feature_columns := Some TotalPointsPredictor.feature_cols;
     TotalPointsPredictor.is_trained := true |}.

(** A scikit-learn whose every procedure fails; enough where training
    stops before reaching it. *)
Definition sample_sklearn : Sklearn :=
  {| train_test_split := λ _ _, Raise ValueError;
     scaler_fit := λ _, Raise ValueError;
     RandomForestClassifier := {| predict_proba := λ _, Raise NotFittedError |};
     classifier_fit := λ _ _ _, Raise ValueError;
     classifier_score := λ _ _ _, Raise ValueError;
     cross_val_score := λ _ _ _, Raise ValueError;
     GradientBoostingRegressor := {| predict_values := λ _, Raise NotFittedError |};
     RandomForestRegressor := {| predict_values := λ _, Raise NotFittedError |};
     regressor_fit := λ _ _ _, Raise ValueError;
     mean_absolute_error := λ _ _, Raise ValueError |}.

(** One row of features, all at their defaults. *)
Definition sample_features : DataFrame :=
  DataFrame_of_dict (<["home_avg_scored" := 110.0]> (<["away_avg_scored" := 110.0]> ∅)).

(** A manager whose outcome model was never trained while the spread and
    total models are. *)
Definition sample_manager_outcome_unready : MLModelManager.t :=
  {| MLModelManager.outcome_model := GameOutcomePredictor.__init__;
     MLModelManager.spread_model := sample_spread_model;
     MLModelManager.total_model := sample_total_model |}.

(** A manager whose spread model was never trained while the outcome and
    total models are. *)
Definition sample_manager_spread_unready : MLModelManager.t :=
  {| MLModelManager.outcome_model := sample_outcome_model;
     MLModelManager.spread_model := SpreadPredictor.__init__;
     MLModelManager.total_model := sample_total_model |}.

(** The value under key [k] of the dict a call returned. *)
Definition returned {V} (r : result (gmap string V)) (k : string) : option V :=
  match r with
  | Ok d => d !! k
  | Raise _ => None
  end.

(** The three UPDATE statements of [update_prediction_accuracy] applied
    to one row, in order. *)
Definition reconcile (games : list Game) (p : Prediction) : Prediction :=
  PredictionGenerator.update_row "total" PredictionGenerator.total_actual
    PredictionGenerator.total_correct games
    (PredictionGenerator.update_row "spread" PredictionGenerator.spread_actual
       PredictionGenerator.spread_correct games
       (PredictionGenerator.update_row "winner" PredictionGenerator.winner_actual
          PredictionGenerator.winner_correct games p)).

(** A bundle that holds what [store_predictions] reads: the model name,
    the three predicted values and the three confidences. *)
Definition bundle_holds (b : gmap string pyval) (model_name : string)
    (winner spread total c_outcome c_spread c_total : Q) : Prop :=
  b !! "model_name" = Some (PStr model_name)
  ∧ b !! "home_win_probability" = Some (PFloat winner)
  ∧ b !! "predicted_spread" = Some (PFloat spread)
  ∧ b !! "predicted_total" = Some (PFloat total)
  ∧ ∃ scores, b !! "confidence_scores" = Some (PDict scores)
              ∧ scores !! "outcome" = Some c_outcome
              ∧ scores !! "spread" = Some c_spread
              ∧ scores !! "total" = Some c_total.

(** The rows of a table stored under a key. *)
Definition rows_with_key (k : string * string * string) (table : list Prediction)
  : list Prediction :=
  filter (λ r, PredictionGenerator.key r = k) table.

(** The spec's scenario: a completed game won 100 to 90 by the home team,
    with a spread prediction of 7, one of 2 (by another model), a winner
    prediction and a total prediction, none reconciled yet. *)
Definition sample_prediction (m kind : string) (v : Q) : Prediction :=
  {| p_game_id := "g1"; p_model_name := m; prediction_type := kind;
     predicted_value := v; confidence := 0.5;
     actual_value := None; is_correct := None; created_at := 0 |}.

Definition sample_predictions_db : Database :=
  {| online := true;
     games := sample_games;
     predictions :=
       [ sample_prediction "Project Apex ML" "spread" 7;
         sample_prediction "baseline" "spread" 2;
         sample_prediction "Project Apex ML" "winner" 0.7;
         sample_prediction "Project Apex ML" "total" 200 ] |}.

Definition sample_game_g1 : Game :=
  sample_game "g1" "BOS" "NYK" (Some 100%Z) (Some 90%Z) 1 "completed".

(** Two bundles of the same model with different values. *)
Definition sample_bundle (v : Q) : gmap string pyval :=
  <["prediction_time" := PStr "2024-01-01T00:00:00"]>
  (<["model_name" := PStr "Project Apex ML"]>
  (<["confidence_scores" :=
      PDict (<["total" := v / 1000]> (<["spread" := v / 100]> (<["outcome" := v / 10]> ∅)))]>
  (<["predicted_total" := PFloat (200 + v)]>
  (<["predicted_spread" := PFloat v]>
  (<["away_win_probability" := PFloat (1 - v / 10)]>
  (<["home_win_probability" := PFloat (v / 10)]> ∅)))))).


(** ** Definitions for the further properties *)

(** The margin of a head-to-head row as the team [team1_id] sees it, and
    whether that team won the game. *)
Definition h2h_margin (team1_id : string) (row : FeatureEngineer.H2HRow) : Z :=
  if bool_decide (FeatureEngineer.h2h_home_team_id row = team1_id)
  then (FeatureEngineer.h2h_home_score row - FeatureEngineer.h2h_away_score row)%Z
  else (FeatureEngineer.h2h_away_score row - FeatureEngineer.h2h_home_score row)%Z.

Definition h2h_total (row : FeatureEngineer.H2HRow) : Z :=
  (FeatureEngineer.h2h_home_score row + FeatureEngineer.h2h_away_score row)%Z.

Definition h2h_won (team1_id : string) (row : FeatureEngineer.H2HRow) : Z :=
  if bool_decide (h2h_margin team1_id row > 0)%Z then 1 else 0.

(** A row of the head-to-head frame is a game between the two teams. *)
Definition h2h_pair (team1_id team2_id : string) (row : FeatureEngineer.H2HRow) : Prop :=
  FeatureEngineer.h2h_home_team_id row = team1_id
  ∧ FeatureEngineer.h2h_away_team_id row = team2_id
  ∨ FeatureEngineer.h2h_home_team_id row = team2_id
    ∧ FeatureEngineer.h2h_away_team_id row = team1_id.

(** The value of a statistic, and the feature vector as a function of the
    three statistics dicts. *)
Definition stat (d : gmap string Q) (k : string) : Q := default 0 (d !! k).

Definition features_of (home_stats away_stats h2h_stats : gmap string Q)
  : gmap string Q :=
  let projected_home :=
    (stat home_stats "avg_points_scored" + stat away_stats "avg_points_allowed") / 2 in
  let projected_away :=
    (stat away_stats "avg_points_scored" + stat home_stats "avg_points_allowed") / 2 in
  <["projected_spread" := projected_home - projected_away]>
  (<["projected_total" := projected_home + projected_away]>
  (<["projected_away_score" := projected_away]>
  (<["projected_home_score" := projected_home]>
  (<["away_consistency" := stat away_stats "scoring_consistency"]>
  (<["home_consistency" := stat home_stats "scoring_consistency"]>
  (<["h2h_avg_margin" := stat h2h_stats "avg_margin"]>
  (<["h2h_avg_total" := stat h2h_stats "avg_total_points"]>
  (<["h2h_win_pct" := stat h2h_stats "h2h_win_pct"]>
  (<["form_advantage" := stat home_stats "recent_form" - stat away_stats "recent_form"]>
  (<["away_recent_form" := stat away_stats "recent_form"]>
  (<["home_recent_form" := stat home_stats "recent_form"]>
  (<["home_court_advantage" :=
       stat home_stats "home_win_pct" - stat away_stats "away_win_pct"]>
  (<["win_pct_advantage" :=
       stat home_stats "win_percentage" - stat away_stats "win_percentage"]>
  (<["away_win_pct" := stat away_stats "win_percentage"]>
  (<["home_win_pct" := stat home_stats "win_percentage"]>
  (<["point_diff_advantage" :=
       stat home_stats "avg_point_differential"
       - stat away_stats "avg_point_differential"]>
  (<["away_point_diff" := stat away_stats "avg_point_differential"]>
  (<["home_point_diff" := stat home_stats "avg_point_differential"]>
  (<["away_avg_allowed" := stat away_stats "avg_points_allowed"]>
  (<["away_avg_scored" := stat away_stats "avg_points_scored"]>
  (<["home_avg_allowed" := stat home_stats "avg_points_allowed"]>
  (<["home_avg_scored" := stat home_stats "avg_points_scored"]> ∅)))))))))))))))))))))).

(** The names of the features. *)
Definition feature_keys : gset string :=
  {[ "home_avg_scored"; "home_avg_allowed"; "away_avg_scored"; "away_avg_allowed";
     "home_point_diff"; "away_point_diff"; "point_diff_advantage";
     "home_win_pct"; "away_win_pct"; "win_pct_advantage"; "home_court_advantage";
     "home_recent_form"; "away_recent_form"; "form_advantage";
     "h2h_win_pct"; "h2h_avg_total"; "h2h_avg_margin";
     "home_consistency"; "away_consistency";
     "projected_home_score"; "projected_away_score"; "projected_total";
     "projected_spread" ]}.

(** The feature vector of a matchup without usable history. *)
Definition default_features : list (string * Q) :=
  [ ("home_avg_scored", 110); ("home_avg_allowed", 110);
    ("away_avg_scored", 110); ("away_avg_allowed", 110);
    ("home_point_diff", 0); ("away_point_diff", 0); ("point_diff_advantage", 0);
    ("home_win_pct", 0.5); ("away_win_pct", 0.5); ("win_pct_advantage", 0);
    ("home_court_advantage", 0);
    ("home_recent_form", 0.5); ("away_recent_form", 0.5); ("form_advantage", 0);
    ("h2h_win_pct", 0.5); ("h2h_avg_total", 220); ("h2h_avg_margin", 0);
    ("home_consistency", 0.5); ("away_consistency", 0.5);
    ("projected_home_score", 110); ("projected_away_score", 110);
    ("projected_total", 220); ("projected_spread", 0) ].

(** Every listed key holds a value equal, as a rational, to the listed
    one. *)
Definition holds_values (d : gmap string Q) (l : list (string * Q)) : Prop :=
  Forall (λ kv, ∃ x, d !! kv.1 = Some x ∧ x == kv.2) l.

(** The sample store without its scheduled game. *)
Definition sample_db_completed : Database :=
  {| online := true;
     games :=
       [ sample_game "g1" "BOS" "NYK" (Some 100%Z) (Some 90%Z) 1 "completed";
         sample_game "g2" "NYK" "BOS" (Some 105%Z) (Some 95%Z) 2 "completed" ];
     predictions := [] |}.

(** The target variables and provenance added to the features of a game
    by [prepare_training_data]. *)
Definition add_labels (game : FeatureEngineerTraining.BaseRow)
    (features : gmap string pyval) : gmap string pyval :=
  <["game_date" := PFloat (inject_Z (FeatureEngineerTraining.base_game_date game))]>
  (<["game_id" := PStr (FeatureEngineerTraining.base_id game)]>
  (<["point_spread" :=
       PFloat (inject_Z (FeatureEngineerTraining.base_home_score game
                         - FeatureEngineerTraining.base_away_score game))]>
  (<["home_win" :=
       PFloat (if bool_decide (FeatureEngineerTraining.base_home_score game
                               > FeatureEngineerTraining.base_away_score game)%Z
               then 1 else 0)]>
  (<["total_points" :=
       PFloat (inject_Z (FeatureEngineerTraining.base_home_score game
                         + FeatureEngineerTraining.base_away_score game))]>
  (<["away_score" := PFloat (inject_Z (FeatureEngineerTraining.base_away_score game))]>
  (<["home_score" := PFloat (inject_Z (FeatureEngineerTraining.base_home_score game))]>
     features)))))).

Definition label_keys : gset string :=
  {[ "home_score"; "away_score"; "total_points"; "home_win"; "point_spread";
     "game_id"; "game_date" ]}.

(** The ids of the teams of the sample store. *)
Definition sample_teams : gset string := {[ "BOS"; "NYK"; "LAL" ]}.

(** BOS hosts NYK twice, on day 1 and on day 5, with opposite results. *)
Definition sample_db_rematch : Database :=
  {| online := true;
     games :=
       [ sample_game "g1" "BOS" "NYK" (Some 100%Z) (Some 90%Z) 1 "completed";
         sample_game "g4" "BOS" "NYK" (Some 80%Z) (Some 120%Z) 5 "completed" ];
     predictions := [] |}.


(** [X] is the frame [df] cut down to the columns of [cols] it has, with
    every missing cell filled with 0. *)
Definition selects (df : DataFrame) (cols : list string) (X : DataFrame) : Prop :=
  (∀ c, c ∈ columns X ↔ c ∈ cols ∧ c ∈ columns df)
  ∧ length (rows X) = length (rows df)
  ∧ ∀ i row, rows X !! i = Some row →
      ∃ orig, rows df !! i = Some orig
        ∧ ∀ c, (c ∈ columns X → row !! c = Some (default 0 (orig !! c)))
               ∧ (c ∉ columns X → row !! c = None).

(** A scikit-learn that splits off an empty test set and scales by the
    identity, while fitting any estimator fails. *)
Definition sample_sklearn_fit_fails : Sklearn :=
  {| train_test_split := λ X y, Ok (X, [], y, []);
     scaler_fit := λ _, Ok sample_scaler;
     RandomForestClassifier := {| predict_proba := λ _, Raise NotFittedError |};
     classifier_fit := λ _ _ _, Raise ValueError;
     classifier_score := λ _ _ _, Raise ValueError;
     cross_val_score := λ _ _ _, Raise ValueError;
     GradientBoostingRegressor := {| predict_values := λ _, Raise NotFittedError |};
     RandomForestRegressor := {| predict_values := λ _, Raise NotFittedError |};
     regressor_fit := λ _ _ _, Raise ValueError;
     mean_absolute_error := λ _ _, Raise ValueError |}.

(** A corpus of one game with one feature and the outcome label. *)
Definition sample_corpus : DataFrame :=
  {| columns := ["home_avg_scored"; "home_win"];
     rows := [ <["home_win" := 1]> (<["home_avg_scored" := 110.0]> ∅) ] |}.

(** The disk after [save_model] when the model was trained, the disk as
    it was otherwise. *)
Definition saved (success : bool) (model : MLModelManager.Pickled) (model_name : string)
    (disk : MLModelManager.Disk) : MLModelManager.Disk :=
  if success then exec (MLModelManager.save_model model model_name) disk else disk.

(** An empty disk that can be written and read. *)
Definition sample_disk : MLModelManager.Disk :=
  {| MLModelManager.files := ∅;
     MLModelManager.write_error := None;
     MLModelManager.read_error := None |}.

(** What [train_all_models] leaves on a disk that can be written, from
    state [s] to state [s']: every file is one that was there before or
    holds the trained model now in memory, under its own name; and a
    model that became trained is on the disk. *)
Definition saves_trained_models (s s' : MLModelManager.t * MLModelManager.Disk) : Prop :=
  (∀ path m,
     MLModelManager.files s'.2 !! path = Some m →
     MLModelManager.files s.2 !! path = Some m
     ∨ (path = MLModelManager.model_path "game_outcome_model"
        ∧ m = MLModelManager.POutcome (MLModelManager.outcome_model s'.1)
        ∧ GameOutcomePredictor.is_trained (MLModelManager.outcome_model s'.1) = true)
     ∨ (path = MLModelManager.model_path "spread_model"
        ∧ m = MLModelManager.PSpread (MLModelManager.spread_model s'.1)
        ∧ SpreadPredictor.is_trained (MLModelManager.spread_model s'.1) = true)
     ∨ (path = MLModelManager.model_path "total_points_model"
        ∧ m = MLModelManager.PTotal (MLModelManager.total_model s'.1)
        ∧ TotalPointsPredictor.is_trained (MLModelManager.total_model s'.1) = true))
  ∧ (GameOutcomePredictor.is_trained (MLModelManager.outcome_model s.1) = false →
     GameOutcomePredictor.is_trained (MLModelManager.outcome_model s'.1) = true →
     MLModelManager.files s'.2 !! MLModelManager.model_path "game_outcome_model"
     = Some (MLModelManager.POutcome (MLModelManager.outcome_model s'.1)))
  ∧ (SpreadPredictor.is_trained (MLModelManager.spread_model s.1) = false →
     SpreadPredictor.is_trained (MLModelManager.spread_model s'.1) = true →
     MLModelManager.files s'.2 !! MLModelManager.model_path "spread_model"
     = Some (MLModelManager.PSpread (MLModelManager.spread_model s'.1)))
  ∧ (TotalPointsPredictor.is_trained (MLModelManager.total_model s.1) = false →
     TotalPointsPredictor.is_trained (MLModelManager.total_model s'.1) = true →
     MLModelManager.files s'.2 !! MLModelManager.model_path "total_points_model"
     = Some (MLModelManager.PTotal (MLModelManager.total_model s'.1))).

(** The complete bundle of [predict_game], as a dict literal. *)
Definition full_bundle (now : string) (p v tot co cs ct : Q) : gmap string pyval :=
  list_to_map
    [ ("home_win_probability", PFloat p);
      ("away_win_probability", PFloat (1 - p));
      ("predicted_spread", PFloat v);
      ("predicted_total", PFloat tot);
      ("confidence_scores",
       PDict (list_to_map [("outcome", co); ("spread", cs); ("total", ct)]));
      ("model_name", PStr "Project Apex ML");
      ("prediction_time", PStr now) ].


(** A scikit-learn whose procedures succeed: an empty test set, the
    identity scaler, and the sample estimators as the fitted ones. *)
Definition sample_sklearn_fits : Sklearn :=
  {| train_test_split := λ X y, Ok (X, [], y, []);
     scaler_fit := λ _, Ok sample_scaler;
     RandomForestClassifier := {| predict_proba := λ _, Raise NotFittedError |};
     classifier_fit := λ _ _ _, Ok sample_classifier;
     classifier_score := λ _ _ _, Ok 1;
     cross_val_score := λ _ _ _, Ok [1];
     GradientBoostingRegressor := {| predict_values := λ _, Raise NotFittedError |};
     RandomForestRegressor := {| predict_values := λ _, Raise NotFittedError |};
     regressor_fit := λ _ _ _, Ok sample_spread_regressor;
     mean_absolute_error := λ _ _, Ok 0 |}.

(** Whether a saved artifact is a trained model. *)
Definition pickled_trained (p : MLModelManager.Pickled) : bool :=
  match p with
  | MLModelManager.POutcome m => GameOutcomePredictor.is_trained m
  | MLModelManager.PSpread m => SpreadPredictor.is_trained m
  | MLModelManager.PTotal m => TotalPointsPredictor.is_trained m
  end.

(** The row an upsert leaves in place of [row] when their keys conflict. *)
Definition refreshed (row new : Prediction) : Prediction :=
  {| p_game_id := p_game_id row;
     p_model_name := p_model_name row;
     prediction_type := prediction_type row;
     predicted_value := predicted_value new;
     confidence := confidence new;
     actual_value := actual_value row;
     is_correct := is_correct row;
     created_at := created_at new |}.

(** The table after the three upserts of one [store_predictions] call. *)
Definition stored (game_id model_name : string) (winner spread total c_o c_s c_t : Q)
    (now : Z) (table : list Prediction) : list Prediction :=
  PredictionGenerator.upsert
    (PredictionGenerator.insert_row game_id model_name "total" total c_t now)
    (PredictionGenerator.upsert
       (PredictionGenerator.insert_row game_id model_name "spread" spread c_s now)
       (PredictionGenerator.upsert
          (PredictionGenerator.insert_row game_id model_name "winner" winner c_o now)
          table)).

(** Every row of [old] is still at its position in [new], with its key and
    its reconciliation, and unchanged unless its game is [touched]. *)
Definition keeps_rows (touched : string → Prop) (old new : list Prediction) : Prop :=
  ∀ i r, old !! i = Some r →
    ∃ r', new !! i = Some r'
      ∧ PredictionGenerator.key r' = PredictionGenerator.key r
      ∧ actual_value r' = actual_value r
      ∧ is_correct r' = is_correct r
      ∧ (¬ touched (p_game_id r) → r' = r).

(** Every row of [new] that is not a row of [old] is a prediction of the
    model [model_name] for a [touched] game. *)
Definition adds_only (touched : string → Prop) (model_name : string)
    (old new : list Prediction) : Prop :=
  ∀ r', r' ∈ new →
    r' ∈ old ∨ (touched (p_game_id r') ∧ p_model_name r' = model_name).

(** The sample store after its winner prediction of 70% for the home team,
    who won, has been reconciled. *)
Definition sample_reconciled_db : Database :=
  exec PredictionGenerator.update_prediction_accuracy sample_predictions_db.

(** The two managers hold the same estimators and scalers and agree on
    which models are trained. *)
Definition same_fit (m m' : MLModelManager.t) : Prop :=
  GameOutcomePredictor.model (MLModelManager.outcome_model m')
  = GameOutcomePredictor.model (MLModelManager.outcome_model m)
  ∧ GameOutcomePredictor.scaler (MLModelManager.outcome_model m')
    = GameOutcomePredictor.scaler (MLModelManager.outcome_model m)
  ∧ GameOutcomePredictor.is_trained (MLModelManager.outcome_model m')
    = GameOutcomePredictor.is_trained (MLModelManager.outcome_model m)
  ∧ SpreadPredictor.model (MLModelManager.spread_model m')
    = SpreadPredictor.model (MLModelManager.spread_model m)
  ∧ SpreadPredictor.scaler (MLModelManager.spread_model m')
    = SpreadPredictor.scaler (MLModelManager.spread_model m)
  ∧ SpreadPredictor.is_trained (MLModelManager.spread_model m')
    = SpreadPredictor.is_trained (MLModelManager.spread_model m)
  ∧ TotalPointsPredictor.model (MLModelManager.total_model m')
    = TotalPointsPredictor.model (MLModelManager.total_model m)
  ∧ TotalPointsPredictor.scaler (MLModelManager.total_model m')
    = TotalPointsPredictor.scaler (MLModelManager.total_model m)
  ∧ TotalPointsPredictor.is_trained (MLModelManager.total_model m')
    = TotalPointsPredictor.is_trained (MLModelManager.total_model m).

(** The ids of the games the generator predicts: scheduled, between
    known teams, dated from [today] to [days_ahead] days later. *)
Definition upcoming (teams : gset string) (store : Database) (today days_ahead : Z)
    (game_id : string) : Prop :=
  ∃ g, g ∈ games store
       ∧ PredictionGenerator.upcoming_where teams today (today + days_ahead) g = true
       ∧ game_id = g_id g.

(** A manager whose three models are trained. *)
Definition sample_manager_trained : MLModelManager.t :=
  {| MLModelManager.outcome_model := sample_outcome_model;
     MLModelManager.spread_model := sample_spread_model;
     MLModelManager.total_model := sample_total_model |}.

(** * Properties *)

(** ** The exception monads *)

Lemma rbind_Ok {A B} (r : result A) (k : A → result B) (b : B) :
  rbind r k = Ok b → ∃ a, r = Ok a ∧ k a = Ok b.
Proof. destruct r as [a|e]; simpl; [eauto | discriminate]. Qed.

Lemma try_except_pure_total {A} (body : result A) (d : A) :
  ∃ a, try_except_pure body (λ _, Ok d) = Ok a ∧ (∀ e, body = Raise e → a = d).
Proof.
  destruct body as [a|e]; simpl.
  - exists a. split; [done | discriminate].
  - exists d. done.
Qed.

Lemma try_except_ret_total {S A} (body : M S A) (d : A) (s : S) :
  ∃ a s', try_except body (λ _, ret d) s = (Ok a, s')
          ∧ s' = (body s).2
          ∧ (∀ e, (body s).1 = Raise e → a = d).
Proof.
  unfold try_except, ret. destruct (body s) as [[a|e] s']; simpl.
  - exists a, s'. repeat split. discriminate.
  - exists d, s'. done.
Qed.

Ltac inv_rbind H :=
  let a := fresh "v" in
  let Ha := fresh "Hv" in
  apply rbind_Ok in H; destruct H as (a & Ha & H).

(** ** Rationals *)

Lemma Qltb_lt (x y : Q) : Qltb x y = true ↔ x < y.
Proof.
  unfold Qltb. rewrite negb_true_iff, <- not_true_iff_false, Qle_bool_iff.
  split; [apply Qnot_le_lt | apply Qlt_not_le].
Qed.

Lemma Qltb_ge (x y : Q) : Qltb x y = false ↔ y <= x.
Proof.
  unfold Qltb. rewrite negb_false_iff, Qle_bool_iff. done.
Qed.

Lemma py_min_spec (a b : Q) : py_min a b <= a ∧ py_min a b <= b.
Proof.
  unfold py_min. destruct (Qltb b a) eqn:E.
  - apply Qltb_lt in E. split; [apply Qlt_le_weak; assumption | apply Qle_refl].
  - apply Qltb_ge in E. split; [apply Qle_refl | assumption].
Qed.

Lemma py_min_glb (a b c : Q) : c <= a → c <= b → c <= py_min a b.
Proof. unfold py_min. destruct (Qltb b a); intros; assumption. Qed.

Lemma py_max_spec (a b : Q) : a <= py_max a b ∧ b <= py_max a b.
Proof.
  unfold py_max. destruct (Qltb a b) eqn:E.
  - apply Qltb_lt in E. split; [apply Qlt_le_weak; assumption | apply Qle_refl].
  - apply Qltb_ge in E. split; [apply Qle_refl | assumption].
Qed.

Lemma py_max_lub (a b c : Q) : a <= c → b <= c → py_max a b <= c.
Proof. unfold py_max. destruct (Qltb a b); intros; assumption. Qed.

(** ** The queries of feature_engineering.py *)

Section FeatureEngineerFacts.
Import FeatureEngineer.
Context (np_std : list Z → Q).

Lemma sql_limit_nil {A} (n : Z) (l : list A) (l' : list A) :
  sql_limit n l = Ok l' → l = [] → l' = [].
Proof.
  unfold sql_limit. intros H ->. case_bool_decide; [discriminate|].
  rewrite take_nil in H. congruence.
Qed.

Lemma team_games_query_none (db : Database) (team_id : string) (games_back : Z) df :
  Forall (λ g, team_games_where team_id g = false) (games db) →
  team_games_query db team_id games_back = Ok df → df = [].
Proof.
  intros Hnone H. unfold team_games_query in H.
  inv_rbind H. inv_rbind H. injection H as <-.
  unfold team_games_selected in Hv0.
  apply sql_limit_nil in Hv0; [subst; reflexivity|].
  replace (filter _ (games db)) with (@nil Game); [reflexivity|].
  symmetry. revert Hnone. generalize (games db). intros l Hnone.
  induction Hnone as [|g l Hg _ IH]; [done|].
  rewrite filter_cons_False; [exact IH|]. rewrite Hg. simpl. tauto.
Qed.

Lemma get_team_stats_none (db : Database) (team_id : string) (games_back : Z) :
  Forall (λ g, team_games_where team_id g = false) (games db) →
  get_team_stats np_std db team_id games_back = Ok _get_default_stats.
Proof.
  intros Hnone. unfold get_team_stats, get_team_stats_try.
  destruct (team_games_query db team_id games_back) as [df|e] eqn:E; [|done].
  apply team_games_query_none in E as ->; done.
Qed.

Lemma get_team_stats_try_dom (db : Database) (team_id : string) (games_back : Z) stats :
  get_team_stats_try np_std db team_id games_back = Ok stats → dom stats = stats_keys.
Proof.
  intros H. unfold get_team_stats_try in H. inv_rbind H.
  destruct (is_nil v).
  - injection H as <-. unfold _get_default_stats, stats_keys.
    rewrite !dom_insert_L. set_solver.
  - destruct (scores_loop v) as [team_scores opponent_scores].
    repeat inv_rbind H. injection H as <-. unfold stats_keys.
    rewrite !dom_insert_L. set_solver.
Qed.

Lemma get_head_to_head_stats_try_dom (db : Database) (team1_id team2_id : string)
    (games_back : Z) stats :
  get_head_to_head_stats_try db team1_id team2_id games_back = Ok stats →
  dom stats = h2h_keys.
Proof.
  intros H. unfold get_head_to_head_stats_try in H. inv_rbind H.
  destruct (is_nil v).
  - injection H as <-. unfold h2h_default, h2h_keys.
    rewrite !dom_insert_L. set_solver.
  - destruct (h2h_loop team1_id v) as [[team1_wins total_points] margins].
    inv_rbind H. injection H as <-. unfold h2h_keys.
    rewrite !dom_insert_L. set_solver.
Qed.

Lemma get_team_stats_dom (db : Database) (team_id : string) (games_back : Z) :
  ∃ stats, get_team_stats np_std db team_id games_back = Ok stats
           ∧ dom stats = stats_keys.
Proof.
  unfold get_team_stats.
  destruct (get_team_stats_try np_std db team_id games_back) as [stats|e] eqn:E; simpl.
  - exists stats. split; [done|]. by eapply get_team_stats_try_dom.
  - exists _get_default_stats. split; [done|].
    unfold _get_default_stats, stats_keys. rewrite !dom_insert_L. set_solver.
Qed.

Lemma get_head_to_head_stats_dom (db : Database) (team1_id team2_id : string)
    (games_back : Z) :
  ∃ stats, get_head_to_head_stats db team1_id team2_id games_back = Ok stats
           ∧ dom stats = h2h_keys.
Proof.
  unfold get_head_to_head_stats.
  destruct (get_head_to_head_stats_try db team1_id team2_id games_back)
    as [stats|e] eqn:E; simpl.
  - exists stats. split; [done|]. by eapply get_head_to_head_stats_try_dom.
  - exists h2h_default. split; [done|].
    unfold h2h_default, h2h_keys. rewrite !dom_insert_L. set_solver.
Qed.

(** *** The loops of [get_team_stats] *)

Lemma scores_loop_map (df : list Row) :
  scores_loop df = (row_team_score <$> df, row_opponent_score <$> df).
Proof.
  unfold scores_loop.
  enough (G : ∀ ts os,
    foldl (λ '(team_scores, opponent_scores) row,
             if bool_decide (venue row = "home")
             then (team_scores ++ [row_home_score row], opponent_scores ++ [row_away_score row])
             else (team_scores ++ [row_away_score row], opponent_scores ++ [row_home_score row]))
          (ts, os) df
    = (ts ++ (row_team_score <$> df), os ++ (row_opponent_score <$> df)))
    by apply (G [] []).
  induction df as [|row df IH]; intros ts os; simpl.
  - by rewrite !app_nil_r.
  - unfold row_team_score at 1, row_opponent_score at 1.
    case_bool_decide; rewrite IH, <- !app_assoc; done.
Qed.

Lemma count_wins_rows (pre : list Z) (df : list Row) :
  count_wins (length pre) (row_team_score <$> df) (pre ++ (row_opponent_score <$> df))
  = Ok (Z.of_nat (length (filter (λ row, (row_team_score row > row_opponent_score row)%Z) df))).
Proof.
  revert pre. induction df as [|row df IH]; intros pre; csimpl; [done|].
  unfold getindex. rewrite lookup_app_r, Nat.sub_diag by lia. csimpl.
  specialize (IH (pre ++ [row_opponent_score row])).
  rewrite length_app, <- app_assoc in IH. simpl in IH.
  rewrite Nat.add_1_r in IH. rewrite IH. simpl. f_equal.
  rewrite filter_cons. case_bool_decide; case_decide; simpl; try lia; done.
Qed.

Lemma py_truediv_Ok (n m : Z) :
  m ≠ 0%Z → py_truediv n m = Ok (inject_Z n / inject_Z m).
Proof. intros Hm. unfold py_truediv. by rewrite bool_decide_eq_false_2. Qed.

Lemma _calculate_win_pct_total (games_df : list Row) (venue : string) :
  ∃ pct, _calculate_win_pct games_df venue = Ok pct.
Proof.
  destruct games_df as [|row rest]; simpl; [eauto|].
  rewrite py_truediv_Ok by lia. eauto.
Qed.

(** On a non-empty data frame the body of [get_team_stats] raises nothing
    and yields the eight statistics. *)
Lemma get_team_stats_try_rows (db : Database) (team_id : string) (games_back : Z)
    (df : list Row) :
  team_games_query db team_id games_back = Ok df → df ≠ [] →
  ∃ home_pct away_pct form,
    get_team_stats_try np_std db team_id games_back
    = Ok (<["scoring_consistency" := 1 / (np_std (row_team_score <$> df) + 1)]>
         (<["recent_form" := form]>
         (<["away_win_pct" := away_pct]>
         (<["home_win_pct" := home_pct]>
         (<["win_percentage" :=
              inject_Z (Z.of_nat (length (filter
                 (λ row, (row_team_score row > row_opponent_score row)%Z) df)))
              / inject_Z (Z.of_nat (length df))]>
         (<["avg_point_differential" :=
              np_mean (row_team_score <$> df) - np_mean (row_opponent_score <$> df)]>
         (<["avg_points_allowed" := np_mean (row_opponent_score <$> df)]>
         (<["avg_points_scored" := np_mean (row_team_score <$> df)]> ∅)))))))).
Proof.
  intros Hq Hne. unfold get_team_stats_try. rewrite Hq. simpl.
  destruct df as [|row rest] eqn:Edf; [done|]. rewrite <- Edf in *.
  assert (Hnil : is_nil df = false) by (by rewrite Edf).
  rewrite Hnil, scores_loop_map.
  assert (Hts : is_nil (row_team_score <$> df) = false) by (by rewrite Edf).
  rewrite Hts.
  unfold getitem at 1. rewrite lookup_insert_ne, lookup_insert_eq by done. simpl.
  unfold getitem at 1. rewrite lookup_insert_eq. simpl.
  pose proof (count_wins_rows [] df) as Hc. simpl in Hc. rewrite Hc. simpl.
  rewrite py_truediv_Ok by (rewrite Edf; simpl; lia). simpl.
  rewrite length_fmap.
  destruct (_calculate_win_pct_total (filter (λ row, venue row = "home") df) "home")
    as [hp Hhp].
  destruct (_calculate_win_pct_total (filter (λ row, venue row = "away") df) "away")
    as [ap Hap].
  assert (Hrec : is_nil (take 5 df) = false) by (by rewrite Edf).
  rewrite Hrec. simpl.
  rewrite (py_truediv_Ok _ (Z.of_nat (length (take 5 df)))) by (rewrite Edf; simpl; lia).
  exists (if negb (is_nil (filter (λ row, venue row = "home") df)) then hp else 0.5),
         (if negb (is_nil (filter (λ row, venue row = "away") df)) then ap else 0.5).
  eexists.
  rewrite Hhp, Hap.
  destruct (is_nil (filter (λ row, venue row = "home") df));
    destruct (is_nil (filter (λ row, venue row = "away") df)); simpl; reflexivity.
Qed.

(** *** The selection made by the query *)

#[local] Instance date_desc_total : Total date_desc.
Proof. intros a b. unfold date_desc. lia. Qed.

#[local] Instance date_desc_trans : Transitive date_desc.
Proof. intros a b c. unfold date_desc. lia. Qed.

Lemma StronglySorted_app_rel {A} (R : relation A) (l1 l2 : list A) :
  StronglySorted R (l1 ++ l2) → ∀ x y, x ∈ l1 → y ∈ l2 → R x y.
Proof.
  induction l1 as [|a l1 IH]; intros Hs x y Hx Hy.
  - by apply elem_of_nil in Hx.
  - simpl in Hs. apply StronglySorted_inv in Hs as [Hs Ha].
    apply elem_of_cons in Hx as [->|Hx].
    + rewrite Forall_forall in Ha. apply Ha, elem_of_app. by right.
    + by apply IH.
Qed.

Lemma StronglySorted_take {A} (R : relation A) (n : nat) (l : list A) :
  StronglySorted R l → StronglySorted R (take n l).
Proof.
  intros Hs. revert n. induction Hs as [|a l Hs IH Ha]; intros [|n]; simpl;
    try constructor; [apply IH|].
  eapply Forall_impl; [|by intros ? H; exact H].
  apply Forall_take. exact Ha.
Qed.

Lemma team_games_selected_spec (db : Database) (team_id : string) (games_back : Z) :
  (0 ≤ games_back)%Z →
  let qualifying := filter (λ g, team_games_where team_id g) (games db) in
  ∃ selected rest,
    team_games_selected db team_id games_back = Ok selected
    ∧ selected ++ rest ≡ₚ qualifying
    ∧ length selected = Nat.min (Z.to_nat games_back) (length qualifying)
    ∧ StronglySorted date_desc selected
    ∧ (∀ g g', g ∈ selected → g' ∈ rest → (game_date g' ≤ game_date g)%Z).
Proof.
  intros Hn qualifying.
  exists (take (Z.to_nat games_back) (order_by_game_date_desc qualifying)),
         (drop (Z.to_nat games_back) (order_by_game_date_desc qualifying)).
  pose proof (StronglySorted_merge_sort date_desc qualifying) as Hsorted.
  fold (order_by_game_date_desc qualifying) in Hsorted.
  split; [|split; [|split; [|split]]].
  - unfold team_games_selected, sql_limit. by rewrite bool_decide_eq_false_2 by lia.
  - rewrite take_drop. apply merge_sort_Permutation.
  - rewrite length_take. unfold order_by_game_date_desc.
    by rewrite (Permutation_length (merge_sort_Permutation date_desc qualifying)).
  - by apply StronglySorted_take.
  - intros g g' Hg Hg'.
    rewrite <- (take_drop (Z.to_nat games_back)) in Hsorted.
    exact (StronglySorted_app_rel _ _ _ Hsorted g g' Hg Hg').
Qed.

Lemma team_games_selected_qualify (db : Database) (team_id : string) (games_back : Z)
    (selected : list Game) :
  team_games_selected db team_id games_back = Ok selected →
  Forall (λ g, team_games_where team_id g = true) selected.
Proof.
  unfold team_games_selected, sql_limit. case_bool_decide; [discriminate|].
  intros [= <-]. apply Forall_take. unfold order_by_game_date_desc.
  rewrite merge_sort_Permutation. apply Forall_forall. intros g Hg.
  apply list_elem_of_filter in Hg as [Hg _]. by apply Is_true_true.
Qed.

Lemma team_games_select_row (team_id : string) (g : Game) :
  team_games_where team_id g = true →
  ∃ row, team_games_select team_id g = Some row
         ∧ ((row_team_score row > row_opponent_score row)%Z ↔ team_won team_id g).
Proof.
  intros Hg. unfold team_games_where, completed_with_scores in Hg.
  unfold team_games_select, team_won.
  destruct (home_score g) as [hs|]; [|by rewrite !andb_false_r in Hg].
  destruct (away_score g) as [aws|]; [|by rewrite !andb_false_r in Hg].
  eexists. split; [reflexivity|].
  unfold row_team_score, row_opponent_score. simpl.
  destruct (bool_decide (home_team_id g = team_id)); simpl;
    rewrite bool_decide_spec; done.
Qed.

Lemma team_games_select_rows (team_id : string) (selected : list Game) :
  Forall (λ g, team_games_where team_id g = true) selected →
  let df := omap (team_games_select team_id) selected in
  length df = length selected
  ∧ length (filter (λ row, (row_team_score row > row_opponent_score row)%Z) df)
    = length (filter (λ g, team_won team_id g) selected).
Proof.
  induction 1 as [|g l Hg _ IH]; csimpl; [done|].
  destruct IH as [IHl IHw].
  destruct (team_games_select_row team_id g Hg) as (row & -> & Hrow).
  csimpl. split; [by rewrite IHl|].
  rewrite !filter_cons.
  destruct (decide (row_team_score row > row_opponent_score row)%Z) as [Hw|Hw];
    destruct (decide (team_won team_id g)) as [Hw'|Hw']; simpl;
    rewrite ?IHw; try done; exfalso; tauto.
Qed.

Lemma team_games_query_online (db : Database) (team_id : string) (games_back : Z)
    (selected : list Game) :
  online db = true →
  team_games_selected db team_id games_back = Ok selected →
  team_games_query db team_id games_back = Ok (omap (team_games_select team_id) selected).
Proof.
  intros Hon Hsel. unfold team_games_query, get_connection. by rewrite Hon, Hsel.
Qed.

(** What [get_team_stats] stores under [win_percentage] when the query
    selects at least one game. *)
Lemma get_team_stats_selected (db : Database) (team_id : string) (games_back : Z)
    (selected : list Game) :
  online db = true →
  team_games_selected db team_id games_back = Ok selected →
  selected ≠ [] →
  ∃ stats,
    get_team_stats np_std db team_id games_back = Ok stats
    ∧ stats !! "win_percentage"
      = Some (inject_Z (count_won team_id selected) / inject_Z (Z.of_nat (length selected))).
Proof.
  intros Hon Hsel Hne.
  pose proof (team_games_selected_qualify _ _ _ _ Hsel) as Hq.
  destruct (team_games_select_rows team_id selected Hq) as [Hlen Hwins].
  pose proof (team_games_query_online _ _ _ _ Hon Hsel) as Hdf.
  destruct (get_team_stats_try_rows db team_id games_back _ Hdf)
    as (hp & ap & rf & Hstats).
  { intros Hnil. apply (f_equal length) in Hnil. rewrite Hlen in Hnil.
    destruct selected; [done | discriminate]. }
  eexists. split.
  - unfold get_team_stats. rewrite Hstats. reflexivity.
  - rewrite !lookup_insert_ne by done. rewrite lookup_insert_eq.
    unfold count_won. by rewrite Hwins, Hlen.
Qed.

End FeatureEngineerFacts.

(** ** Team statistics *)

(** C4: for a team with no qualifying completed game in the store,
    [get_team_stats] returns exactly the default profile: averages 110.0,
    differential 0.0, all fractions and the consistency 0.5. *)
Theorem get_team_stats_default_profile (np_std : list Z → Q) (db : Database)
    (team_id : string) (games_back : Z) :
  Forall (λ g, FeatureEngineer.team_games_where team_id g = false) (games db) →
  FeatureEngineer.get_team_stats np_std db team_id games_back
  = Ok (list_to_map
          [ ("scoring_consistency", 0.5); ("recent_form", 0.5); ("away_win_pct", 0.5);
            ("home_win_pct", 0.5); ("win_percentage", 0.5);
            ("avg_point_differential", 0.0); ("avg_points_allowed", 110.0);
            ("avg_points_scored", 110.0) ]).
Proof. intros Hnone. by rewrite get_team_stats_none. Qed.

(** LAL has one game in the sample store, scheduled and without scores. *)
Lemma get_team_stats_default_profile_witness :
  Forall (λ g, FeatureEngineer.team_games_where "LAL" g = false) (games sample_db)
  ∧ FeatureEngineer.get_team_stats sample_std sample_db "LAL" 10
    = Ok (list_to_map
            [ ("scoring_consistency", 0.5); ("recent_form", 0.5); ("away_win_pct", 0.5);
              ("home_win_pct", 0.5); ("win_percentage", 0.5);
              ("avg_point_differential", 0.0); ("avg_points_allowed", 110.0);
              ("avg_points_scored", 110.0) ]).
Proof.
  assert (H : Forall (λ g, FeatureEngineer.team_games_where "LAL" g = false)
                     (games sample_db))
    by (repeat constructor).
  split; [exact H|].
  exact (get_team_stats_default_profile sample_std sample_db "LAL" 10 H).
Defined.

(** C8 (amended): when the store can be read and the window is at least 1,
    [get_team_stats] selects the [min N (number of qualifying games)] most
    recent qualifying games of the team, in descending date order, and
    [win_percentage] is the number of selected games the team won divided
    by the number of selected games; that number is [N] only when the team
    has at least [N] qualifying games. *)
Theorem get_team_stats_win_percentage (np_std : list Z → Q) (db : Database)
    (team_id : string) (N : Z) :
  online db = true → (1 ≤ N)%Z →
  filter (λ g, FeatureEngineer.team_games_where team_id g) (games db) ≠ [] →
  let qualifying := filter (λ g, FeatureEngineer.team_games_where team_id g) (games db) in
  ∃ selected rest stats w,
    FeatureEngineer.team_games_selected db team_id N = Ok selected
    ∧ selected ++ rest ≡ₚ qualifying
    ∧ length selected = Nat.min (Z.to_nat N) (length qualifying)
    ∧ StronglySorted date_desc selected
    ∧ (∀ g g', g ∈ selected → g' ∈ rest → (game_date g' ≤ game_date g)%Z)
    ∧ FeatureEngineer.get_team_stats np_std db team_id N = Ok stats
    ∧ stats !! "win_percentage" = Some w
    ∧ w == inject_Z (count_won team_id selected) / inject_Z (Z.of_nat (length selected))
    ∧ ((N ≤ Z.of_nat (length qualifying))%Z →
       w == inject_Z (count_won team_id selected) / inject_Z N).
Proof.
  intros Hon HN Hne qualifying.
  destruct (team_games_selected_spec db team_id N) as
    (selected & rest & Hsel & Hperm & Hlen & Hsorted & Hrecent); [lia|].
  fold qualifying in Hperm, Hlen.
  assert (Hsne : selected ≠ []).
  { intros ->. simpl in Hlen. fold qualifying in Hne.
    destruct qualifying; [done|]. simpl in Hlen. lia. }
  destruct (get_team_stats_selected np_std db team_id N selected Hon Hsel Hsne)
    as (stats & Hstats & Hw).
  exists selected, rest, stats.
  eexists.
  split; [exact Hsel|]. split; [exact Hperm|]. split; [exact Hlen|].
  split; [exact Hsorted|]. split; [exact Hrecent|]. split; [exact Hstats|].
  split; [exact Hw|]. split; [reflexivity|].
  intros Hfull. replace (Z.of_nat (length selected)) with N by lia. reflexivity.
Qed.

(** BOS in the sample store, with a window of one game. *)
Lemma get_team_stats_win_percentage_witness :
  ∃ selected rest stats w,
    FeatureEngineer.team_games_selected sample_db "BOS" 1 = Ok selected
    ∧ selected ++ rest
      ≡ₚ filter (λ g, FeatureEngineer.team_games_where "BOS" g) (games sample_db)
    ∧ length selected
      = Nat.min (Z.to_nat 1)
          (length (filter (λ g, FeatureEngineer.team_games_where "BOS" g) (games sample_db)))
    ∧ StronglySorted date_desc selected
    ∧ (∀ g g', g ∈ selected → g' ∈ rest → (game_date g' ≤ game_date g)%Z)
    ∧ FeatureEngineer.get_team_stats sample_std sample_db "BOS" 1 = Ok stats
    ∧ stats !! "win_percentage" = Some w
    ∧ w == inject_Z (count_won "BOS" selected) / inject_Z (Z.of_nat (length selected))
    ∧ ((1 ≤ Z.of_nat (length (filter (λ g, FeatureEngineer.team_games_where "BOS" g)
                                (games sample_db))))%Z →
       w == inject_Z (count_won "BOS" selected) / inject_Z 1).
Proof.
  apply (get_team_stats_win_percentage sample_std sample_db "BOS" 1).
  - reflexivity.
  - lia.
  - discriminate.
Defined.

(** C8 as stated fails: with two qualifying games and the default window
    of 10, BOS won one of the two selected games and [win_percentage] is
    1/2, not 1/10. *)
Lemma win_percentage_divides_by_selected :
  ∃ selected stats w,
    FeatureEngineer.team_games_selected sample_db "BOS" 10 = Ok selected
    ∧ FeatureEngineer.get_team_stats sample_std sample_db "BOS" 10 = Ok stats
    ∧ stats !! "win_percentage" = Some w
    ∧ w == 1 # 2
    ∧ ¬ (w == inject_Z (count_won "BOS" selected) / inject_Z 10).
Proof.
  eexists _, _, (1 # 2).
  split; [reflexivity|]. split; [reflexivity|]. split; [reflexivity|].
  split; [reflexivity|]. vm_compute. discriminate.
Qed.

(** C10: [get_team_stats] and [get_head_to_head_stats] never raise.  Each
    call returns a mapping with all the documented fields; whenever the
    computation inside raises, whatever the exception, the documented
    defaults are returned; a store that cannot be reached is one such
    case. *)
Theorem stats_operations_total (np_std : list Z → Q) (db : Database)
    (team1_id team2_id : string) (games_back h2h_back : Z) :
  (∃ stats,
     FeatureEngineer.get_team_stats np_std db team1_id games_back = Ok stats
     ∧ dom stats = stats_keys
     ∧ (∀ e, FeatureEngineer.get_team_stats_try np_std db team1_id games_back = Raise e →
             stats = FeatureEngineer._get_default_stats))
  ∧ (∃ stats,
       FeatureEngineer.get_head_to_head_stats db team1_id team2_id h2h_back = Ok stats
       ∧ dom stats = h2h_keys
       ∧ (∀ e, FeatureEngineer.get_head_to_head_stats_try db team1_id team2_id h2h_back
               = Raise e →
               stats = FeatureEngineer.h2h_default))
  ∧ (online db = false →
     FeatureEngineer.get_team_stats_try np_std db team1_id games_back
     = Raise OperationalError
     ∧ FeatureEngineer.get_team_stats np_std db team1_id games_back
       = Ok FeatureEngineer._get_default_stats
     ∧ FeatureEngineer.get_head_to_head_stats_try db team1_id team2_id h2h_back
       = Raise OperationalError
     ∧ FeatureEngineer.get_head_to_head_stats db team1_id team2_id h2h_back
       = Ok FeatureEngineer.h2h_default).
Proof.
  split; [|split].
  - destruct (get_team_stats_dom np_std db team1_id games_back) as (stats & Hs & Hd).
    exists stats. split; [done|]. split; [done|].
    intros e He. unfold FeatureEngineer.get_team_stats in Hs. rewrite He in Hs.
    simpl in Hs. congruence.
  - destruct (get_head_to_head_stats_dom db team1_id team2_id h2h_back)
      as (stats & Hs & Hd).
    exists stats. split; [done|]. split; [done|].
    intros e He. unfold FeatureEngineer.get_head_to_head_stats in Hs. rewrite He in Hs.
    simpl in Hs. congruence.
  - intros Hoff.
    unfold FeatureEngineer.get_team_stats, FeatureEngineer.get_team_stats_try,
      FeatureEngineer.team_games_query, FeatureEngineer.get_head_to_head_stats,
      FeatureEngineer.get_head_to_head_stats_try, FeatureEngineer.h2h_query,
      get_connection.
    rewrite Hoff. simpl. done.
Qed.

(** ** The predictor models *)

Lemma for_each_const {S A B} (f : A → M S B) (b : B) (s : S) (l : list A) :
  (∀ a, f a s = (Ok b, s)) → for_each f l s = (Ok (replicate (length l) b), s).
Proof.
  intros Hf. induction l as [|a l IH]; simpl; [done|].
  unfold bind. rewrite Hf, IH. done.
Qed.

Lemma outcome_train_empty (sk : Sklearn) (corpus : DataFrame) (self : GameOutcomePredictor.t) :
  df_empty corpus = true → GameOutcomePredictor.train sk corpus self = (Ok false, self).
Proof. intros He. unfold GameOutcomePredictor.train, try_except. by rewrite He. Qed.

Lemma spread_train_empty (sk : Sklearn) (corpus : DataFrame) (self : SpreadPredictor.t) :
  df_empty corpus = true → SpreadPredictor.train sk corpus self = (Ok false, self).
Proof. intros He. unfold SpreadPredictor.train, try_except. by rewrite He. Qed.

Lemma total_train_empty (sk : Sklearn) (corpus : DataFrame) (self : TotalPointsPredictor.t) :
  df_empty corpus = true → TotalPointsPredictor.train sk corpus self = (Ok false, self).
Proof. intros He. unfold TotalPointsPredictor.train, try_except. by rewrite He. Qed.

Lemma outcome_predict_untrained (features : DataFrame) (self : GameOutcomePredictor.t) :
  GameOutcomePredictor.is_trained self = false →
  GameOutcomePredictor.predict features self = (Ok GameOutcomePredictor.fallback, self).
Proof.
  intros Hu. unfold GameOutcomePredictor.predict, bind, get.
  destruct (GameOutcomePredictor.model self); by rewrite ?Hu.
Qed.

Lemma spread_predict_untrained (features : DataFrame) (self : SpreadPredictor.t) :
  SpreadPredictor.is_trained self = false →
  SpreadPredictor.predict features self = (Ok SpreadPredictor.fallback, self).
Proof.
  intros Hu. unfold SpreadPredictor.predict, bind, get.
  destruct (SpreadPredictor.model self); by rewrite ?Hu.
Qed.

Lemma total_predict_untrained (features : DataFrame) (self : TotalPointsPredictor.t) :
  TotalPointsPredictor.is_trained self = false →
  TotalPointsPredictor.predict features self = (Ok TotalPointsPredictor.fallback, self).
Proof.
  intros Hu. unfold TotalPointsPredictor.predict, bind, get.
  destruct (TotalPointsPredictor.model self); by rewrite ?Hu.
Qed.

(** C3: for each of the three models, [train] on an empty corpus returns
    False and changes nothing, so an untrained model stays untrained, and
    every later [predict], on any sequence of feature frames, returns the
    neutral fallback: outcome 0.5 / 0.0, spread 0.0 / 0.0, total 220.0 /
    0.0. *)
Theorem train_empty_then_predict_fallback (sk : Sklearn) (corpus : DataFrame)
    (outcome : GameOutcomePredictor.t) (spread : SpreadPredictor.t)
    (total : TotalPointsPredictor.t) (calls : list DataFrame) :
  df_empty corpus = true →
  GameOutcomePredictor.is_trained outcome = false →
  SpreadPredictor.is_trained spread = false →
  TotalPointsPredictor.is_trained total = false →
  (GameOutcomePredictor.train sk corpus outcome = (Ok false, outcome)
   ∧ for_each GameOutcomePredictor.predict calls
       (exec (GameOutcomePredictor.train sk corpus) outcome)
     = (Ok (replicate (length calls)
              (list_to_map [("home_win_probability", 0.5); ("confidence", 0.0)])),
        outcome))
  ∧ (SpreadPredictor.train sk corpus spread = (Ok false, spread)
     ∧ for_each SpreadPredictor.predict calls
         (exec (SpreadPredictor.train sk corpus) spread)
       = (Ok (replicate (length calls)
                (list_to_map [("predicted_spread", 0.0); ("confidence", 0.0)])),
          spread))
  ∧ (TotalPointsPredictor.train sk corpus total = (Ok false, total)
     ∧ for_each TotalPointsPredictor.predict calls
         (exec (TotalPointsPredictor.train sk corpus) total)
       = (Ok (replicate (length calls)
                (list_to_map [("predicted_total", 220.0); ("confidence", 0.0)])),
          total)).
Proof.
  intros He Ho Hs Ht. unfold exec.
  rewrite outcome_train_empty, spread_train_empty, total_train_empty by done. simpl.
  split; [|split]; (split; [done|]).
  - rewrite (for_each_const _ GameOutcomePredictor.fallback); [done|].
    intros f. by apply outcome_predict_untrained.
  - rewrite (for_each_const _ SpreadPredictor.fallback); [done|].
    intros f. by apply spread_predict_untrained.
  - rewrite (for_each_const _ TotalPointsPredictor.fallback); [done|].
    intros f. by apply total_predict_untrained.
Qed.

(** Fresh models, [pd.DataFrame()] as corpus, two later calls. *)
Lemma train_empty_then_predict_fallback_witness :
  (GameOutcomePredictor.train sample_sklearn DataFrame_new GameOutcomePredictor.__init__
   = (Ok false, GameOutcomePredictor.__init__)
   ∧ for_each GameOutcomePredictor.predict [sample_features; sample_features]
       (exec (GameOutcomePredictor.train sample_sklearn DataFrame_new)
          GameOutcomePredictor.__init__)
     = (Ok (replicate 2
              (list_to_map [("home_win_probability", 0.5); ("confidence", 0.0)])),
        GameOutcomePredictor.__init__))
  ∧ (SpreadPredictor.train sample_sklearn DataFrame_new SpreadPredictor.__init__
     = (Ok false, SpreadPredictor.__init__)
     ∧ for_each SpreadPredictor.predict [sample_features; sample_features]
         (exec (SpreadPredictor.train sample_sklearn DataFrame_new) SpreadPredictor.__init__)
       = (Ok (replicate 2
                (list_to_map [("predicted_spread", 0.0); ("confidence", 0.0)])),
          SpreadPredictor.__init__))
  ∧ (TotalPointsPredictor.train sample_sklearn DataFrame_new TotalPointsPredictor.__init__
     = (Ok false, TotalPointsPredictor.__init__)
     ∧ for_each TotalPointsPredictor.predict [sample_features; sample_features]
         (exec (TotalPointsPredictor.train sample_sklearn DataFrame_new)
            TotalPointsPredictor.__init__)
       = (Ok (replicate 2
                (list_to_map [("predicted_total", 220.0); ("confidence", 0.0)])),
          TotalPointsPredictor.__init__)).
Proof.
  apply (train_empty_then_predict_fallback sample_sklearn DataFrame_new
           GameOutcomePredictor.__init__ SpreadPredictor.__init__
           TotalPointsPredictor.__init__ [sample_features; sample_features]);
    reflexivity.
Defined.

(** *** Confidence values *)

Lemma outcome_confidence_bounds (p : Q) :
  0 <= p <= 1 → 0 <= Qabs (p - 0.5) * 2 <= 1.
Proof.
  intros [Hlo Hhi].
  assert (Habs : Qabs (p - 0.5) <= 0.5) by (apply Qabs_Qle_condition; split; lra).
  pose proof (Qabs_nonneg (p - 0.5)). split; lra.
Qed.

Lemma spread_confidence_bounds (v : Q) :
  0 <= py_min 0.8 (Qabs v / 20.0) <= 0.8.
Proof.
  split; [|apply py_min_spec].
  apply py_min_glb; [lra|]. pose proof (Qabs_nonneg v).
  apply Qle_shift_div_l; lra.
Qed.

Lemma total_confidence_bounds (v : Q) :
  0.1 <= py_max 0.1 (py_min 0.8 (1.0 - Qabs (v - 220) / 100.0)) <= 0.8.
Proof.
  split; [apply py_max_spec|].
  apply py_max_lub; [lra | apply py_min_spec].
Qed.

Lemma getindex_elem_of {A} (l : list A) (i : nat) (a : A) :
  getindex l i = Ok a → a ∈ l.
Proof.
  unfold getindex. destruct (l !! i) as [b|] eqn:E; intros [= <-].
  by eapply list_elem_of_lookup_2.
Qed.

(** The two ways [GameOutcomePredictor.predict] returns. *)
Lemma outcome_predict_cases (features : DataFrame) (self : GameOutcomePredictor.t) :
  ∃ d self',
    GameOutcomePredictor.predict features self = (Ok d, self')
    ∧ (d = GameOutcomePredictor.fallback
       ∨ ∃ m p,
           GameOutcomePredictor.model self = Some m
           ∧ GameOutcomePredictor.is_trained self = true
           ∧ (p = 0.5 ∨ ∃ X P row, predict_proba m X = Ok P ∧ row ∈ P ∧ p ∈ row)
           ∧ d = <["confidence" := Qabs (p - 0.5) * 2]>
                 (<["away_win_probability" := 1 - p]>
                 (<["home_win_probability" := p]> ∅))).
Proof.
  unfold GameOutcomePredictor.predict, bind, get.
  destruct (GameOutcomePredictor.model self) as [m|] eqn:Em; [|by eauto].
  destruct (GameOutcomePredictor.is_trained self) eqn:Et; simpl; [|by eauto].
  unfold try_except, bind, GameOutcomePredictor.prepare_features, get, put, ret, lift.
  simpl.
  destruct (transform _ _) as [Xs|e]; [|by eauto].
  destruct (predict_proba m Xs) as [P|e] eqn:EP; [|by eauto].
  destruct (getindex P 0) as [first|e] eqn:Ef; [|by eauto].
  pose proof (getindex_elem_of _ _ _ Ef) as Hfirst.
  case_bool_decide.
  - destruct (getindex first 1) as [p|e] eqn:Ep; [|by eauto].
    do 2 eexists. split; [done|]. right. exists m, p.
    repeat split; try done. right. exists Xs, P, first. repeat split; try done.
    by eapply getindex_elem_of.
  - do 2 eexists. split; [done|]. right. exists m, 0.5.
    repeat split; try done. by left.
Qed.

Lemma spread_predict_cases (features : DataFrame) (self : SpreadPredictor.t) :
  ∃ d self',
    SpreadPredictor.predict features self = (Ok d, self')
    ∧ (d = SpreadPredictor.fallback
       ∨ ∃ v,
           SpreadPredictor.is_trained self = true
           ∧ d = <["confidence" := py_min 0.8 (Qabs v / 20.0)]>
                 (<["predicted_spread" := v]> ∅)).
Proof.
  unfold SpreadPredictor.predict, bind, get.
  destruct (SpreadPredictor.model self) as [m|] eqn:Em; [|by eauto].
  destruct (SpreadPredictor.is_trained self) eqn:Et; simpl; [|by eauto].
  unfold try_except, bind, SpreadPredictor.prepare_features, get, put, ret, lift.
  simpl.
  destruct (transform _ _) as [Xs|e]; [|by eauto].
  destruct (predict_values m Xs) as [P|e] eqn:EP; [|by eauto].
  destruct (getindex P 0) as [v|e] eqn:Ef; [|by eauto].
  do 2 eexists. split; [done|]. right. by exists v.
Qed.

Lemma total_predict_cases (features : DataFrame) (self : TotalPointsPredictor.t) :
  ∃ d self',
    TotalPointsPredictor.predict features self = (Ok d, self')
    ∧ (d = TotalPointsPredictor.fallback
       ∨ ∃ v,
           TotalPointsPredictor.is_trained self = true
           ∧ d = <["confidence" :=
                     py_max 0.1 (py_min 0.8 (1.0 - Qabs (v - 220) / 100.0))]>
                 (<["predicted_total" := v]> ∅)).
Proof.
  unfold TotalPointsPredictor.predict, bind, get.
  destruct (TotalPointsPredictor.model self) as [m|] eqn:Em; [|by eauto].
  destruct (TotalPointsPredictor.is_trained self) eqn:Et; simpl; [|by eauto].
  unfold try_except, bind, TotalPointsPredictor.prepare_features, get, put, ret, lift.
  simpl.
  destruct (transform _ _) as [Xs|e]; [|by eauto].
  destruct (predict_values m Xs) as [P|e] eqn:EP; [|by eauto].
  destruct (getindex P 0) as [v|e] eqn:Ef; [|by eauto].
  do 2 eexists. split; [done|]. right. by exists v.
Qed.

Lemma sample_classifier_valid (m : Classifier) :
  GameOutcomePredictor.model sample_outcome_model = Some m → probabilities_valid m.
Proof.
  intros [= <-] X P row p [= <-] Hrow Hp.
  apply list_elem_of_singleton in Hrow as ->.
  apply elem_of_cons in Hp as [->|Hp]; [split; discriminate|].
  apply list_elem_of_singleton in Hp as ->. split; discriminate.
Qed.

(** C7: in every model state and on every feature frame, each of the
    three [predict] methods returns a confidence in [0, 1], provided the
    classifier's [predict_proba] yields probabilities.  The outcome
    confidence equals |p - 0.5| * 2 for the returned home-win probability
    [p]; the spread confidence is min(0.8, |spread| / 20), at most 0.8; the
    total confidence is 0.0 in the fallback and within [0.1, 0.8]
    otherwise, which only a trained model reaches. *)
Theorem predict_confidence_bounds (features : DataFrame)
    (outcome : GameOutcomePredictor.t) (spread : SpreadPredictor.t)
    (total : TotalPointsPredictor.t) :
  (∀ m, GameOutcomePredictor.model outcome = Some m → probabilities_valid m) →
  (∃ d self' p c,
     GameOutcomePredictor.predict features outcome = (Ok d, self')
     ∧ d !! "home_win_probability" = Some p
     ∧ d !! "confidence" = Some c
     ∧ c == Qabs (p - 0.5) * 2
     ∧ 0 <= c <= 1)
  ∧ (∃ d self' v c,
       SpreadPredictor.predict features spread = (Ok d, self')
       ∧ d !! "predicted_spread" = Some v
       ∧ d !! "confidence" = Some c
       ∧ c == py_min 0.8 (Qabs v / 20.0)
       ∧ 0 <= c <= 0.8
       ∧ c <= 1)
  ∧ (∃ d self' v c,
       TotalPointsPredictor.predict features total = (Ok d, self')
       ∧ d !! "predicted_total" = Some v
       ∧ d !! "confidence" = Some c
       ∧ 0 <= c <= 1
       ∧ (d = TotalPointsPredictor.fallback ∧ c == 0
          ∨ TotalPointsPredictor.is_trained total = true
            ∧ c == py_max 0.1 (py_min 0.8 (1.0 - Qabs (v - 220) / 100.0))
            ∧ 0.1 <= c <= 0.8)).
Proof.
  intros Hvalid. split; [|split].
  - destruct (outcome_predict_cases features outcome)
      as (d & self' & Hd & [-> | (m & p & Hm & _ & Hp & ->)]).
    + exists GameOutcomePredictor.fallback, self', 0.5, 0.0.
      repeat split; try done.
    + eexists. exists self', p, (Qabs (p - 0.5) * 2).
      split; [done|]. split; [done|]. split; [done|]. split; [reflexivity|].
      apply outcome_confidence_bounds.
      destruct Hp as [-> | (X & P & row & HP & Hrow & Hp)]; [split; discriminate|].
      exact (Hvalid m Hm X P row p HP Hrow Hp).
  - destruct (spread_predict_cases features spread)
      as (d & self' & Hd & [-> | (v & _ & ->)]).
    + exists SpreadPredictor.fallback, self', 0.0, 0.0.
      repeat split; try done.
    + eexists. exists self', v, (py_min 0.8 (Qabs v / 20.0)).
      split; [done|]. split; [done|]. split; [done|]. split; [reflexivity|].
      pose proof (spread_confidence_bounds v) as [H0 H1].
      repeat split; try done. lra.
  - destruct (total_predict_cases features total)
      as (d & self' & Hd & [-> | (v & Ht & ->)]).
    + exists TotalPointsPredictor.fallback, self', 220.0, 0.0.
      split; [done|]. split; [done|]. split; [done|]. split; [split; discriminate|].
      left. split; [done | reflexivity].
    + eexists. exists self', v, (py_max 0.1 (py_min 0.8 (1.0 - Qabs (v - 220) / 100.0))).
      pose proof (total_confidence_bounds v) as [H0 H1].
      split; [done|]. split; [done|]. split; [done|]. split; [split; lra|].
      right. split; [done|]. split; [reflexivity|]. by split.
Qed.

(** The three trained sample models. *)
Lemma predict_confidence_bounds_witness :
  (∃ d self' p c,
     GameOutcomePredictor.predict sample_features sample_outcome_model = (Ok d, self')
     ∧ d !! "home_win_probability" = Some p
     ∧ d !! "confidence" = Some c
     ∧ c == Qabs (p - 0.5) * 2
     ∧ 0 <= c <= 1)
  ∧ (∃ d self' v c,
       SpreadPredictor.predict sample_features sample_spread_model = (Ok d, self')
       ∧ d !! "predicted_spread" = Some v
       ∧ d !! "confidence" = Some c
       ∧ c == py_min 0.8 (Qabs v / 20.0)
       ∧ 0 <= c <= 0.8
       ∧ c <= 1)
  ∧ (∃ d self' v c,
       TotalPointsPredictor.predict sample_features sample_total_model = (Ok d, self')
       ∧ d !! "predicted_total" = Some v
       ∧ d !! "confidence" = Some c
       ∧ 0 <= c <= 1
       ∧ (d = TotalPointsPredictor.fallback ∧ c == 0
          ∨ TotalPointsPredictor.is_trained sample_total_model = true
            ∧ c == py_max 0.1 (py_min 0.8 (1.0 - Qabs (v - 220) / 100.0))
            ∧ 0.1 <= c <= 0.8)).
Proof.
  exact (predict_confidence_bounds sample_features sample_outcome_model
           sample_spread_model sample_total_model sample_classifier_valid).
Defined.

(** The sample models take the trained path: 70% gives confidence 0.4, a
    5-point spread 0.25, and a total of 210 gives 0.8. *)
Example sample_predictions :
  ∃ d1 d2 d3 c1 c2 c3,
    run (GameOutcomePredictor.predict sample_features) sample_outcome_model = Ok d1
    ∧ run (SpreadPredictor.predict sample_features) sample_spread_model = Ok d2
    ∧ run (TotalPointsPredictor.predict sample_features) sample_total_model = Ok d3
    ∧ d1 !! "confidence" = Some c1 ∧ c1 == 0.4
    ∧ d2 !! "confidence" = Some c2 ∧ c2 == 0.25
    ∧ d3 !! "confidence" = Some c3 ∧ c3 == 0.8.
Proof.
  do 6 eexists.
  split; [reflexivity|]. split; [reflexivity|]. split; [reflexivity|].
  split; [reflexivity|]. split; [reflexivity|].
  split; [reflexivity|]. split; [reflexivity|].
  split; reflexivity.
Qed.

(** ** The model manager *)

(** C1: [predict_game] never raises: for every pair of team identifiers,
    every store and every state of the three models it returns a bundle,
    and whenever anything inside raises (building the features, querying
    the models, merging their results) the bundle is the neutral one:
    probabilities 0.5 / 0.5, spread 0.0, total 220.0, confidences 0.0. *)
Theorem predict_game_never_raises (np_std : list Z → Q) (db : Database)
    (home_team_id away_team_id now : string) (self : MLModelManager.t) :
  ∃ bundle self',
    MLModelManager.predict_game np_std db home_team_id away_team_id now self
    = (Ok bundle, self')
    ∧ (∀ e,
         run (MLModelManager.predict_game_try np_std db home_team_id away_team_id now) self
         = Raise e →
         bundle
         = list_to_map
             [ ("home_win_probability", PFloat 0.5);
               ("away_win_probability", PFloat 0.5);
               ("predicted_spread", PFloat 0.0);
               ("predicted_total", PFloat 220.0);
               ("confidence_scores",
                PDict (list_to_map [("outcome", 0.0); ("spread", 0.0); ("total", 0.0)])) ]).
Proof.
  destruct (try_except_ret_total
              (MLModelManager.predict_game_try np_std db home_team_id away_team_id now)
              MLModelManager.neutral_bundle self)
    as (bundle & self' & Hrun & _ & Hraise).
  exists bundle, self'. split; [exact Hrun|].
  intros e He. rewrite (Hraise e He). reflexivity.
Qed.

(** With an outcome model that is not trained, the merge reads the key
    [away_win_probability], which the outcome fallback lacks, and the
    whole bundle falls back, whatever the other two models predict. *)
Lemma predict_game_outcome_unready (np_std : list Z → Q) (db : Database)
    (home_team_id away_team_id now : string) (self : MLModelManager.t) :
  GameOutcomePredictor.is_trained (MLModelManager.outcome_model self) = false →
  run (MLModelManager.predict_game np_std db home_team_id away_team_id now) self
  = Ok MLModelManager.neutral_bundle.
Proof.
  intros Hu.
  unfold run, MLModelManager.predict_game, try_except, MLModelManager.predict_game_try,
    bind, lift.
  destruct (FeatureEngineer.create_game_features _ _ _ _) as [features|e]; [|done].
  unfold zoom at 1. rewrite outcome_predict_untrained by done.
  unfold zoom at 1. simpl.
  destruct (spread_predict_cases (DataFrame_of_dict features)
              (MLModelManager.spread_model self)) as (ds & s' & -> & _).
  unfold zoom at 1. simpl.
  destruct (total_predict_cases (DataFrame_of_dict features)
              (MLModelManager.total_model self)) as (dt & t' & -> & _).
  reflexivity.
Qed.

(** The merge itself raises in that state. *)
Example predict_game_try_outcome_unready :
  run (MLModelManager.predict_game_try sample_std sample_db "BOS" "NYK" "2024-01-01T00:00:00")
      sample_manager_outcome_unready
  = Raise (KeyError "away_win_probability").
Proof. vm_compute. reflexivity. Qed.

(** C2 fails on the code: the outcome model is untrained, the spread model
    predicts 5.0 and the total model 210.0, yet [predict_game] returns the
    neutral bundle, with spread 0.0 and total 220.0. *)
Theorem predict_game_outcome_unready_drops_predictions :
  returned (run (SpreadPredictor.predict sample_features) sample_spread_model)
    "predicted_spread" = Some 5.0
  ∧ returned (run (TotalPointsPredictor.predict sample_features) sample_total_model)
      "predicted_total" = Some 210.0
  ∧ ∃ bundle,
      run (MLModelManager.predict_game sample_std sample_db "BOS" "NYK" "2024-01-01T00:00:00")
          sample_manager_outcome_unready
      = Ok bundle
      ∧ bundle = MLModelManager.neutral_bundle
      ∧ bundle !! "predicted_spread" = Some (PFloat 0.0)
      ∧ bundle !! "predicted_total" = Some (PFloat 220.0)
      ∧ bundle !! "model_name" = None.
Proof.
  split; [vm_compute; reflexivity|]. split; [vm_compute; reflexivity|].
  exists MLModelManager.neutral_bundle. split; [|done].
  by apply predict_game_outcome_unready.
Qed.

(** The sibling case works: with only the spread model untrained, the
    bundle carries the spread fallback next to the trained outcome and
    total predictions. *)
Example predict_game_spread_unready_merges :
  let bundle :=
    run (MLModelManager.predict_game sample_std sample_db "BOS" "NYK" "2024-01-01T00:00:00")
        sample_manager_spread_unready in
  returned bundle "home_win_probability" = Some (PFloat 0.7)
  ∧ returned bundle "predicted_spread" = Some (PFloat 0.0)
  ∧ returned bundle "predicted_total" = Some (PFloat 210.0)
  ∧ returned bundle "confidence_scores"
    = Some (PDict (list_to_map [("outcome", 0.40); ("spread", 0.0); ("total", 0.8)]))
  ∧ returned bundle "model_name" = Some (PStr "Project Apex ML").
Proof. repeat split; vm_compute; reflexivity. Qed.

(** ** Reconciliation *)

Section Reconciliation.
Import PredictionGenerator.

Lemma update_prediction_accuracy_online (db : Database) :
  online db = true →
  update_prediction_accuracy db
  = (Ok tt, {| online := true; games := games db;
               predictions := reconcile (games db) <$> predictions db |}).
Proof.
  intros Hon.
  unfold update_prediction_accuracy, try_except, transaction, get_connection.
  rewrite Hon. unfold update_statement, execute, bind, get, put. simpl.
  rewrite <- !list_fmap_compose. reflexivity || (rewrite Hon; reflexivity).
Qed.

Lemma update_prediction_accuracy_offline (db : Database) :
  online db = false → update_prediction_accuracy db = (Ok tt, db).
Proof.
  intros Hoff.
  unfold update_prediction_accuracy, try_except, transaction, get_connection.
  by rewrite Hoff.
Qed.

Lemma update_row_populated kind actual correct games (p : Prediction) :
  is_null (actual_value p) = false → update_row kind actual correct games p = p.
Proof. intros Hp. unfold update_row. by rewrite Hp, andb_false_r. Qed.

Lemma update_row_cases kind actual correct games (p : Prediction) :
  update_row kind actual correct games p = p
  ∨ is_null (actual_value (update_row kind actual correct games p)) = false.
Proof.
  unfold update_row.
  destruct (bool_decide (prediction_type p = kind) && is_null (actual_value p));
    [|by left].
  destruct (joined_game games (p_game_id p)) as [g|]; [|by left].
  destruct (home_score g), (away_score g);
    [right; reflexivity | left; reflexivity ..].
Qed.

Lemma reconcile_populated games (p : Prediction) :
  is_null (actual_value p) = false → reconcile games p = p.
Proof.
  intros Hp. unfold reconcile.
  rewrite (update_row_populated "winner") by done.
  rewrite (update_row_populated "spread") by done.
  by rewrite update_row_populated.
Qed.

Lemma reconcile_cases games (p : Prediction) :
  reconcile games p = p ∨ is_null (actual_value (reconcile games p)) = false.
Proof.
  unfold reconcile.
  destruct (update_row_cases "winner" winner_actual winner_correct games p) as [->|H1].
  - destruct (update_row_cases "spread" spread_actual spread_correct games p) as [->|H2].
    + apply update_row_cases.
    + right. by rewrite update_row_populated.
  - right. rewrite (update_row_populated "spread") by done.
    by rewrite update_row_populated.
Qed.

Lemma reconcile_idempotent games (p : Prediction) :
  reconcile games (reconcile games p) = reconcile games p.
Proof.
  destruct (reconcile_cases games p) as [H|H]; [by rewrite !H|].
  by apply reconcile_populated.
Qed.

End Reconciliation.

(** C6: reconciliation is write-once and idempotent: a prediction whose
    [actual_value] is already set keeps its row, with [actual_value] and
    [is_correct], through a backfill, and a second backfill leaves the
    store exactly as the first one did. *)
Theorem update_prediction_accuracy_idempotent (db : Database) :
  (∀ i p, predictions db !! i = Some p → is_null (actual_value p) = false →
          predictions (exec PredictionGenerator.update_prediction_accuracy db) !! i = Some p)
  ∧ exec PredictionGenerator.update_prediction_accuracy
      (exec PredictionGenerator.update_prediction_accuracy db)
    = exec PredictionGenerator.update_prediction_accuracy db.
Proof.
  unfold exec. destruct (online db) eqn:Hon.
  - rewrite (update_prediction_accuracy_online db Hon).
    change ((?r, ?s).2) with s. split.
    + intros i p Hi Hp. cbn [predictions]. rewrite list_lookup_fmap, Hi. simpl.
      by rewrite reconcile_populated.
    + rewrite update_prediction_accuracy_online by reflexivity.
      cbn [snd games predictions]. f_equal.
      rewrite <- list_fmap_compose.
      apply list_fmap_ext. intros i p _. simpl. apply reconcile_idempotent.
  - rewrite (update_prediction_accuracy_offline db Hon). simpl. split; [done|].
    by rewrite update_prediction_accuracy_offline.
Qed.

Section ReconciliationFlags.
Import PredictionGenerator.

Lemma joined_game_unique (games : list Game) (game_id : string) (g : Game) :
  NoDup (g_id <$> games) → g ∈ games → game_id = g_id g →
  completed_with_scores g = true → joined_game games game_id = Some g.
Proof.
  intros Hnd Hin Hid Hc. unfold joined_game.
  induction games as [|x l IH]; [by apply elem_of_nil in Hin|].
  csimpl in Hnd. apply NoDup_cons in Hnd as [Hx Hnd]. simpl.
  apply elem_of_cons in Hin as [<-|Hin].
  - by rewrite bool_decide_eq_true_2, Hc.
  - destruct (bool_decide (game_id = g_id x)) eqn:Ex; simpl.
    + apply bool_decide_eq_true_1 in Ex. exfalso. apply Hx.
      rewrite <- Ex, Hid. by apply list_elem_of_fmap_2.
    + by apply IH.
Qed.

Lemma update_row_hit kind actual correct games (p : Prediction) (g : Game) (hs aws : Z) :
  prediction_type p = kind → actual_value p = None →
  joined_game games (p_game_id p) = Some g →
  home_score g = Some hs → away_score g = Some aws →
  update_row kind actual correct games p
  = {| p_game_id := p_game_id p;
       p_model_name := p_model_name p;
       prediction_type := prediction_type p;
       predicted_value := predicted_value p;
       confidence := confidence p;
       actual_value := Some (actual hs aws);
       is_correct := Some (correct (predicted_value p) hs aws);
       created_at := created_at p |}.
Proof.
  intros Htype Hnull Hj Hhs Has. unfold update_row.
  by rewrite bool_decide_eq_true_2, Hnull, Hj, Hhs, Has.
Qed.

Lemma update_row_miss kind actual correct games (p : Prediction) :
  prediction_type p ≠ kind → update_row kind actual correct games p = p.
Proof. intros Htype. unfold update_row. by rewrite bool_decide_eq_false_2. Qed.

(** Each statement leaves the key and the predicted value of a row. *)
Lemma update_row_keeps kind actual correct games (p : Prediction) :
  key (update_row kind actual correct games p) = key p
  ∧ predicted_value (update_row kind actual correct games p) = predicted_value p.
Proof.
  unfold update_row.
  destruct (bool_decide (prediction_type p = kind) && is_null (actual_value p)); [|done].
  destruct (joined_game games (p_game_id p)) as [g|]; [|done].
  destruct (home_score g), (away_score g); done.
Qed.

Lemma reconcile_keeps games (p : Prediction) :
  key (reconcile games p) = key p
  ∧ predicted_value (reconcile games p) = predicted_value p.
Proof.
  unfold reconcile.
  destruct (update_row_keeps "winner" winner_actual winner_correct games p) as [K1 V1].
  destruct (update_row_keeps "spread" spread_actual spread_correct games
              (update_row "winner" winner_actual winner_correct games p)) as [K2 V2].
  destruct (update_row_keeps "total" total_actual total_correct games
              (update_row "spread" spread_actual spread_correct games
                 (update_row "winner" winner_actual winner_correct games p))) as [K3 V3].
  split; congruence.
Qed.

Lemma winner_correct_spec (predicted : Q) (hs aws : Z) :
  winner_correct predicted hs aws = true ↔ (0.5 < predicted ↔ (hs > aws)%Z).
Proof.
  unfold winner_correct.
  destruct (Qltb 0.5 predicted) eqn:E.
  - apply Qltb_lt in E. case_bool_decide; simpl; [tauto|].
    assert (Qle_bool predicted 0.5 = false) as ->.
    { apply not_true_iff_false. rewrite Qle_bool_iff. by apply Qlt_not_le. }
    simpl. split; [discriminate | tauto].
  - apply Qltb_ge in E. simpl.
    assert (Qle_bool predicted 0.5 = true) as -> by (by apply Qle_bool_iff).
    simpl. pose proof (Qle_not_lt _ _ E).
    case_bool_decide; split; try done; try tauto.
    intros [_ Hw]. exfalso. apply H, Hw. lia.
Qed.

Lemma band_correct_spec (predicted actual band : Q) :
  Qle_bool (Qabs (predicted - actual)) band = true ↔ Qabs (predicted - actual) <= band.
Proof. apply Qle_bool_iff. Qed.

End ReconciliationFlags.

(** C5: for a completed game with both scores present (game ids being
    unique in [games]) and a prediction row of that game whose
    [actual_value] is unset, a backfill that reaches the store keeps the
    row's key and predicted value and sets the flag by the tolerance
    bands: a winner prediction is correct iff (predicted > 0.5) agrees
    with (home score > away score); a spread prediction iff
    |predicted - (home - away)| <= 3; a total prediction iff
    |predicted - (home + away)| <= 5. *)
Theorem update_prediction_accuracy_flags (db : Database) (g : Game) (hs aws : Z)
    (i : nat) (p : Prediction) :
  online db = true →
  NoDup (g_id <$> games db) →
  g ∈ games db → status g = "completed" →
  home_score g = Some hs → away_score g = Some aws →
  predictions db !! i = Some p → p_game_id p = g_id g → actual_value p = None →
  ∃ p',
    predictions (exec PredictionGenerator.update_prediction_accuracy db) !! i = Some p'
    ∧ PredictionGenerator.key p' = PredictionGenerator.key p
    ∧ predicted_value p' = predicted_value p
    ∧ (prediction_type p = "winner" →
       actual_value p' = Some (if bool_decide (hs > aws)%Z then 1 else 0)
       ∧ ∃ b, is_correct p' = Some b
              ∧ (b = true ↔ (0.5 < predicted_value p ↔ (hs > aws)%Z)))
    ∧ (prediction_type p = "spread" →
       actual_value p' = Some (inject_Z (hs - aws))
       ∧ ∃ b, is_correct p' = Some b
              ∧ (b = true ↔ Qabs (predicted_value p - inject_Z (hs - aws)) <= 3))
    ∧ (prediction_type p = "total" →
       actual_value p' = Some (inject_Z (hs + aws))
       ∧ ∃ b, is_correct p' = Some b
              ∧ (b = true ↔ Qabs (predicted_value p - inject_Z (hs + aws)) <= 5)).
Proof.
  intros Hon Hnd Hg Hst Hhs Has Hi Hid Hnull.
  assert (Hc : completed_with_scores g = true).
  { unfold completed_with_scores. by rewrite Hhs, Has, bool_decide_eq_true_2. }
  pose proof (joined_game_unique _ _ _ Hnd Hg Hid Hc) as Hj.
  unfold exec. rewrite (update_prediction_accuracy_online db Hon).
  cbn [snd predictions]. rewrite list_lookup_fmap, Hi. simpl.
  exists (reconcile (games db) p). split; [done|].
  destruct (reconcile_keeps (games db) p) as [Hkey Hval].
  split; [done|]. split; [done|].
  unfold reconcile. split; [|split]; intros Htype.
  - rewrite (update_row_hit "winner" _ _ _ p g hs aws) by done.
    rewrite (update_row_miss "spread") by (simpl; rewrite Htype; done).
    rewrite (update_row_miss "total") by (simpl; rewrite Htype; done).
    simpl. split; [done|]. eexists. split; [done|]. apply winner_correct_spec.
  - rewrite (update_row_miss "winner") by (rewrite Htype; done).
    rewrite (update_row_hit "spread" _ _ _ p g hs aws) by done.
    rewrite (update_row_miss "total") by (simpl; rewrite Htype; done).
    simpl. split; [done|]. eexists. split; [done|]. apply band_correct_spec.
  - rewrite (update_row_miss "winner") by (rewrite Htype; done).
    rewrite (update_row_miss "spread") by (rewrite Htype; done).
    rewrite (update_row_hit "total" _ _ _ p g hs aws) by done.
    simpl. split; [done|]. eexists. split; [done|]. apply band_correct_spec.
Qed.

(** The spread prediction of 7 for the sample game won 100 to 90. *)
Lemma update_prediction_accuracy_flags_witness :
  let p := sample_prediction "Project Apex ML" "spread" 7 in
  ∃ p',
    predictions (exec PredictionGenerator.update_prediction_accuracy sample_predictions_db)
      !! 0%nat = Some p'
    ∧ PredictionGenerator.key p' = PredictionGenerator.key p
    ∧ predicted_value p' = predicted_value p
    ∧ (prediction_type p = "winner" →
       actual_value p' = Some (if bool_decide (100 > 90)%Z then 1 else 0)
       ∧ ∃ b, is_correct p' = Some b
              ∧ (b = true ↔ (0.5 < predicted_value p ↔ (100 > 90)%Z)))
    ∧ (prediction_type p = "spread" →
       actual_value p' = Some (inject_Z (100 - 90))
       ∧ ∃ b, is_correct p' = Some b
              ∧ (b = true ↔ Qabs (predicted_value p - inject_Z (100 - 90)) <= 3))
    ∧ (prediction_type p = "total" →
       actual_value p' = Some (inject_Z (100 + 90))
       ∧ ∃ b, is_correct p' = Some b
              ∧ (b = true ↔ Qabs (predicted_value p - inject_Z (100 + 90)) <= 5)).
Proof.
  apply (update_prediction_accuracy_flags sample_predictions_db sample_game_g1 100 90 0
           (sample_prediction "Project Apex ML" "spread" 7)).
  - reflexivity.
  - compute_done.
  - apply elem_of_cons. by left.
  - reflexivity.
  - reflexivity.
  - reflexivity.
  - reflexivity.
  - reflexivity.
  - reflexivity.
Defined.

(** The spec's scenario, run: home 100, away 90; the spread prediction of
    7 is marked correct, the one of 2 incorrect, the winner prediction of
    0.7 correct, and the total prediction of 200 (actual 190) incorrect. *)
Example reconciliation_scenario :
  (λ p, (actual_value p, is_correct p))
    <$> predictions (exec PredictionGenerator.update_prediction_accuracy sample_predictions_db)
  = [ (Some (inject_Z 10), Some true); (Some (inject_Z 10), Some false);
      (Some 1, Some true); (Some (inject_Z 190), Some false) ].
Proof. vm_compute. reflexivity. Qed.

(** ** Storing predictions *)

Section StorePredictions.
Import PredictionGenerator.

Lemma upsert_keys (new : Prediction) (table : list Prediction) :
  key <$> upsert new table
  = if bool_decide (key new ∈ key <$> table) then key <$> table
    else (key <$> table) ++ [key new].
Proof.
  induction table as [|row rest IH]; csimpl; [done|].
  destruct (decide (key row = key new)) as [Hk|Hk].
  - rewrite (bool_decide_eq_true_2 (key row = key new)) by done.
    rewrite (bool_decide_eq_true_2 (key new ∈ key row :: (key <$> rest)))
      by (rewrite <- Hk; by left).
    reflexivity.
  - rewrite (bool_decide_eq_false_2 (key row = key new)) by done. csimpl.
    rewrite IH. destruct (decide (key new ∈ key <$> rest)) as [Hin|Hin].
    + rewrite (bool_decide_eq_true_2 (key new ∈ key <$> rest)) by done.
      rewrite (bool_decide_eq_true_2 (key new ∈ key row :: (key <$> rest)))
        by (by right).
      reflexivity.
    + rewrite (bool_decide_eq_false_2 (key new ∈ key <$> rest)) by done.
      rewrite (bool_decide_eq_false_2 (key new ∈ key row :: (key <$> rest))).
      * reflexivity.
      * intros [?|?]%elem_of_cons; congruence.
Qed.

Lemma upsert_NoDup (new : Prediction) (table : list Prediction) :
  NoDup (key <$> table) → NoDup (key <$> upsert new table).
Proof.
  intros Hnd. rewrite upsert_keys. case_bool_decide as Hin; [done|].
  apply NoDup_app. split; [done|]. split; [|apply NoDup_singleton].
  intros k Hk ->%list_elem_of_singleton. done.
Qed.

Lemma rows_with_key_absent (k : string * string * string) (table : list Prediction) :
  k ∉ key <$> table → rows_with_key k table = [].
Proof.
  intros Hk. unfold rows_with_key.
  induction table as [|row rest IH]; [done|].
  rewrite filter_cons_False.
  - apply IH. intros Hin. apply Hk. csimpl. by right.
  - intros Hrow. apply Hk. csimpl. rewrite Hrow. by left.
Qed.

(** After an upsert the key of the new row holds exactly one row, with the
    new value and confidence. *)
Lemma upsert_rows_same (new : Prediction) (table : list Prediction) :
  NoDup (key <$> table) →
  ∃ row, rows_with_key (key new) (upsert new table) = [row]
         ∧ predicted_value row = predicted_value new
         ∧ confidence row = confidence new.
Proof.
  intros Hnd. unfold rows_with_key.
  induction table as [|r rest IH]; csimpl.
  - exists new. by rewrite filter_cons_True, filter_nil.
  - csimpl in Hnd. apply NoDup_cons in Hnd as [Hr Hnd].
    case_bool_decide as Hk.
    + eexists. rewrite filter_cons_True by (unfold key at 1; simpl; exact Hk).
      rewrite <- Hk. fold (rows_with_key (key r) rest).
      rewrite rows_with_key_absent by done. done.
    + destruct (IH Hnd) as (row & Hrow & Hv & Hc).
      exists row. by rewrite filter_cons_False.
Qed.

(** Rows under any other key are left as they were. *)
Lemma upsert_rows_other (k : string * string * string) (new : Prediction)
    (table : list Prediction) :
  k ≠ key new → rows_with_key k (upsert new table) = rows_with_key k table.
Proof.
  intros Hk. unfold rows_with_key.
  induction table as [|r rest IH]; csimpl.
  - by rewrite filter_cons_False, filter_nil.
  - case_bool_decide as Hr.
    + rewrite !filter_cons. unfold key at 1. simpl. fold (key r).
      destruct (decide (key r = k)); [congruence | done].
    + rewrite !filter_cons, IH. done.
Qed.

(** What a successful [store_predictions] does to the table. *)
Lemma store_predictions_online (db : Database) (game_id : string)
    (b : gmap string pyval) (now : Z) model_name winner spread total c_o c_s c_t :
  online db = true →
  bundle_holds b model_name winner spread total c_o c_s c_t →
  store_predictions game_id b now db
  = (Ok tt,
     {| online := true; games := games db;
        predictions :=
          upsert (insert_row game_id model_name "total" total c_t now)
            (upsert (insert_row game_id model_name "spread" spread c_s now)
               (upsert (insert_row game_id model_name "winner" winner c_o now)
                  (predictions db))) |}).
Proof.
  intros Hon (Hm & Hw & Hs & Ht & scores & Hc & Hco & Hcs & Hct).
  unfold store_predictions, try_except, transaction, get_connection. rewrite Hon.
  unfold store_one, bind, lift, execute, get, put, getitem.
  rewrite Hm, Hw, Hs, Ht, Hc. simpl. unfold getitem. rewrite Hco, Hcs, Hct. simpl.
  by rewrite Hon.
Qed.

(** Whether it succeeds or not, [store_predictions] returns normally and
    replaces the table by one obtained through upserts, or leaves it. *)
Lemma store_predictions_NoDup (db : Database) (game_id : string)
    (b : gmap string pyval) (now : Z) :
  NoDup (key <$> predictions db) →
  NoDup (key <$> predictions (exec (store_predictions game_id b now) db)).
Proof.
  intros Hnd.
  unfold exec, store_predictions, try_except, transaction.
  destruct (get_connection db); [|done].
  unfold store_one, bind, lift, execute, get, put.
  repeat (match goal with
          | |- context [rbind ?r ?k] => destruct r; simpl
          | |- context [as_text ?v] => destruct (as_text v); simpl
          | |- context [as_number ?v] => destruct (as_number v); simpl
          | |- context [subscript ?v ?k] => destruct (subscript v k); simpl
          end; try done).
  by do 3 apply upsert_NoDup.
Qed.

End StorePredictions.

(** C9: writing twice under the same (game id, model name, kind) is an
    upsert.  On a reachable store whose [predictions] table has unique
    keys, after [store_predictions] for a bundle and then for another
    bundle of the same model and game, each of the three keys holds
    exactly one row, carrying the second bundle's value and confidence;
    and any single [store_predictions] call, successful or not, keeps the
    keys of the table unique. *)
Theorem store_predictions_upsert (db : Database) (game_id model_name : string)
    (b1 b2 : gmap string pyval) (now1 now2 : Z)
    (w1 s1 t1 co1 cs1 ct1 w2 s2 t2 co2 cs2 ct2 : Q) :
  online db = true →
  NoDup (PredictionGenerator.key <$> predictions db) →
  bundle_holds b1 model_name w1 s1 t1 co1 cs1 ct1 →
  bundle_holds b2 model_name w2 s2 t2 co2 cs2 ct2 →
  let db2 :=
    exec (PredictionGenerator.store_predictions game_id b2 now2)
      (exec (PredictionGenerator.store_predictions game_id b1 now1) db) in
  NoDup (PredictionGenerator.key <$> predictions db2)
  ∧ (∃ row, rows_with_key (game_id, model_name, "winner") (predictions db2) = [row]
            ∧ predicted_value row = w2 ∧ confidence row = co2)
  ∧ (∃ row, rows_with_key (game_id, model_name, "spread") (predictions db2) = [row]
            ∧ predicted_value row = s2 ∧ confidence row = cs2)
  ∧ (∃ row, rows_with_key (game_id, model_name, "total") (predictions db2) = [row]
            ∧ predicted_value row = t2 ∧ confidence row = ct2)
  ∧ (∀ game_id' b now,
       NoDup (PredictionGenerator.key
                <$> predictions (exec (PredictionGenerator.store_predictions game_id' b now)
                                   db))).
Proof.
  intros Hon Hnd Hb1 Hb2 db2.
  assert (Hnd2 : NoDup (PredictionGenerator.key <$> predictions db2)).
  { unfold db2. by do 2 apply store_predictions_NoDup. }
  split; [exact Hnd2|].
  unfold db2, exec.
  rewrite (store_predictions_online db game_id b1 now1 _ _ _ _ _ _ _ Hon Hb1).
  cbn [snd].
  erewrite (store_predictions_online _ game_id b2 now2); [|reflexivity|exact Hb2].
  cbn [snd predictions games].
  set (table1 :=
         PredictionGenerator.upsert
           (PredictionGenerator.insert_row game_id model_name "total" t1 ct1 now1)
           (PredictionGenerator.upsert
              (PredictionGenerator.insert_row game_id model_name "spread" s1 cs1 now1)
              (PredictionGenerator.upsert
                 (PredictionGenerator.insert_row game_id model_name "winner" w1 co1 now1)
                 (predictions db)))).
  assert (Hnd1 : NoDup (PredictionGenerator.key <$> table1))
    by (unfold table1; by do 3 apply upsert_NoDup).
  split; [|split; [|split]].
  - rewrite !upsert_rows_other by (unfold PredictionGenerator.key; simpl; congruence).
    apply (upsert_rows_same
             (PredictionGenerator.insert_row game_id model_name "winner" w2 co2 now2)
             table1 Hnd1).
  - rewrite upsert_rows_other by (unfold PredictionGenerator.key; simpl; congruence).
    apply (upsert_rows_same
             (PredictionGenerator.insert_row game_id model_name "spread" s2 cs2 now2)).
    by apply upsert_NoDup.
  - apply (upsert_rows_same
             (PredictionGenerator.insert_row game_id model_name "total" t2 ct2 now2)).
    by do 2 apply upsert_NoDup.
  - intros game_id' b now. by apply store_predictions_NoDup.
Qed.

Lemma sample_bundle_holds (v : Q) :
  bundle_holds (sample_bundle v) "Project Apex ML"
    (v / 10) v (200 + v) (v / 10) (v / 100) (v / 1000).
Proof.
  unfold bundle_holds, sample_bundle. repeat split; try done.
  eexists. repeat split; done.
Qed.

(** Two bundles of one model stored for game g1, values 7 then 3. *)
Lemma store_predictions_upsert_witness :
  let db2 :=
    exec (PredictionGenerator.store_predictions "g1" (sample_bundle 3) 2)
      (exec (PredictionGenerator.store_predictions "g1" (sample_bundle 7) 1)
         sample_predictions_db) in
  NoDup (PredictionGenerator.key <$> predictions db2)
  ∧ (∃ row, rows_with_key ("g1", "Project Apex ML", "winner") (predictions db2) = [row]
            ∧ predicted_value row = 3 / 10 ∧ confidence row = 3 / 10)
  ∧ (∃ row, rows_with_key ("g1", "Project Apex ML", "spread") (predictions db2) = [row]
            ∧ predicted_value row = 3 ∧ confidence row = 3 / 100)
  ∧ (∃ row, rows_with_key ("g1", "Project Apex ML", "total") (predictions db2) = [row]
            ∧ predicted_value row = 200 + 3 ∧ confidence row = 3 / 1000)
  ∧ (∀ game_id' b now,
       NoDup (PredictionGenerator.key
                <$> predictions (exec (PredictionGenerator.store_predictions game_id' b now)
                                   sample_predictions_db))).
Proof.
  apply (store_predictions_upsert sample_predictions_db "g1" "Project Apex ML"
           (sample_bundle 7) (sample_bundle 3) 1 2
           (7 / 10) 7 (200 + 7) (7 / 10) (7 / 100) (7 / 1000)
           (3 / 10) 3 (200 + 3) (3 / 10) (3 / 100) (3 / 1000)).
  - reflexivity.
  - compute_done.
  - apply sample_bundle_holds.
  - apply sample_bundle_holds.
Defined.

(** The table after the two writes of the witness: still four rows, the
    three of the model overwritten in place, the other model's row
    untouched. *)
Example store_twice_table :
  (λ r, (PredictionGenerator.key r, Qred (predicted_value r)))
    <$> predictions
          (exec (PredictionGenerator.store_predictions "g1" (sample_bundle 3) 2)
             (exec (PredictionGenerator.store_predictions "g1" (sample_bundle 7) 1)
                sample_predictions_db))
  = [ (("g1", "Project Apex ML", "spread"), 3);
      (("g1", "baseline", "spread"), 2);
      (("g1", "Project Apex ML", "winner"), 3 # 10);
      (("g1", "Project Apex ML", "total"), 203) ].
Proof. vm_compute. reflexivity. Qed.

(** * Further properties *)

(** ** Head-to-head statistics *)

Section HeadToHeadFacts.
Import FeatureEngineer.

Lemma filter_none {A} (P : A → bool) (l : list A) :
  Forall (λ x, P x = false) l → filter (λ x, P x) l = [].
Proof.
  induction 1 as [|x l Hx _ IH]; [done|].
  rewrite filter_cons_False; [exact IH|]. rewrite Hx. simpl. tauto.
Qed.

Lemma h2h_query_none (db : Database) (team1_id team2_id : string) (games_back : Z) df :
  Forall (λ g, h2h_where team1_id team2_id g = false) (games db) →
  h2h_query db team1_id team2_id games_back = Ok df → df = [].
Proof.
  intros Hnone H. unfold h2h_query in H. inv_rbind H. inv_rbind H. injection H as <-.
  rewrite filter_none in Hv0 by done.
  apply sql_limit_nil in Hv0; [subst; reflexivity | reflexivity].
Qed.

Lemma get_head_to_head_stats_none (db : Database) (team1_id team2_id : string)
    (games_back : Z) :
  Forall (λ g, h2h_where team1_id team2_id g = false) (games db) →
  get_head_to_head_stats db team1_id team2_id games_back = Ok h2h_default.
Proof.
  intros Hnone. unfold get_head_to_head_stats, get_head_to_head_stats_try.
  destruct (h2h_query db team1_id team2_id games_back) as [df|e] eqn:E; [|done].
  apply h2h_query_none in E as ->; done.
Qed.

(** The loop of [get_head_to_head_stats] in closed form. *)
Lemma h2h_loop_map (team1_id : string) (df : list H2HRow) :
  h2h_loop team1_id df
  = (sumZ (h2h_won team1_id <$> df), h2h_total <$> df, h2h_margin team1_id <$> df).
Proof.
  unfold h2h_loop.
  enough (G : ∀ w tp mg,
    foldl (λ '(team1_wins, total_points, margins) row,
             let '(team1_wins, margins) :=
               if bool_decide (h2h_home_team_id row = team1_id)
               then ((if bool_decide (h2h_home_score row > h2h_away_score row)%Z
                      then team1_wins + 1 else team1_wins)%Z,
                     margins ++ [(h2h_home_score row - h2h_away_score row)%Z])
               else ((if bool_decide (h2h_away_score row > h2h_home_score row)%Z
                      then team1_wins + 1 else team1_wins)%Z,
                     margins ++ [(h2h_away_score row - h2h_home_score row)%Z]) in
             (team1_wins, total_points ++ [(h2h_home_score row + h2h_away_score row)%Z],
              margins))
          (w, tp, mg) df
    = ((w + sumZ (h2h_won team1_id <$> df))%Z, tp ++ (h2h_total <$> df),
       mg ++ (h2h_margin team1_id <$> df)))
    by (rewrite (G 0%Z [] []); reflexivity).
  induction df as [|row df IH]; intros w tp mg; csimpl.
  - by rewrite !app_nil_r, Z.add_0_r.
  - destruct (bool_decide (h2h_home_team_id row = team1_id)) eqn:Eh;
      rewrite IH, <- !app_assoc; unfold h2h_won, h2h_margin, h2h_total; rewrite Eh;
      simpl; repeat case_bool_decide; try lia;
      (apply (f_equal2 pair); [apply (f_equal2 pair)|]; [lia | reflexivity | reflexivity]).
Qed.

End HeadToHeadFacts.

(** X1: for a pair with no completed game between the two teams,
    [get_head_to_head_stats] returns the defaults: win fraction 0.5,
    average total 220.0, average margin 0.0. *)
Theorem get_head_to_head_stats_no_history (db : Database) (team1_id team2_id : string)
    (games_back : Z) :
  Forall (λ g, FeatureEngineer.h2h_where team1_id team2_id g = false) (games db) →
  FeatureEngineer.get_head_to_head_stats db team1_id team2_id games_back
  = Ok (list_to_map
          [("h2h_win_pct", 0.5); ("avg_total_points", 220.0); ("avg_margin", 0.0)]).
Proof. intros Hnone. by rewrite get_head_to_head_stats_none. Qed.

(** BOS and LAL have only a scheduled game in the sample store. *)
Lemma get_head_to_head_stats_no_history_witness :
  FeatureEngineer.get_head_to_head_stats sample_db "BOS" "LAL" 5
  = Ok (list_to_map
          [("h2h_win_pct", 0.5); ("avg_total_points", 220.0); ("avg_margin", 0.0)]).
Proof.
  apply (get_head_to_head_stats_no_history sample_db "BOS" "LAL" 5).
  repeat constructor.
Defined.

Section HeadToHeadSymmetry.
Import FeatureEngineer.

Lemma h2h_where_sym (team1_id team2_id : string) (g : Game) :
  h2h_where team1_id team2_id g = h2h_where team2_id team1_id g.
Proof. unfold h2h_where. f_equal. apply orb_comm. Qed.

Lemma h2h_query_sym (db : Database) (team1_id team2_id : string) (games_back : Z) :
  h2h_query db team1_id team2_id games_back = h2h_query db team2_id team1_id games_back.
Proof.
  unfold h2h_query.
  replace (filter (λ g, h2h_where team1_id team2_id g) (games db))
    with (filter (λ g, h2h_where team2_id team1_id g) (games db)); [done|].
  apply list_filter_iff. intros g. by rewrite h2h_where_sym.
Qed.

Lemma h2h_query_rows (db : Database) (team1_id team2_id : string) (games_back : Z) df :
  h2h_query db team1_id team2_id games_back = Ok df →
  Forall (h2h_pair team1_id team2_id) df.
Proof.
  intros H. unfold h2h_query in H. inv_rbind H. inv_rbind H. injection H as <-.
  unfold sql_limit in Hv0. case_bool_decide; [discriminate|]. injection Hv0 as <-.
  assert (Hsel : Forall (λ g, h2h_where team1_id team2_id g = true)
                   (take (Z.to_nat games_back)
                      (order_by_game_date_desc
                         (filter (λ g, h2h_where team1_id team2_id g) (games db))))).
  { apply Forall_take. unfold order_by_game_date_desc.
    rewrite merge_sort_Permutation. apply Forall_forall. intros g Hg.
    apply list_elem_of_filter in Hg as [Hg _]. by apply Is_true_true. }
  induction Hsel as [|g l Hg _ IH]; csimpl; [constructor|].
  unfold h2h_select at 1. destruct (home_score g), (away_score g); csimpl; try exact IH.
  constructor; [|exact IH]. unfold h2h_pair. simpl.
  unfold h2h_where in Hg. apply andb_true_iff in Hg as [Hg _].
  apply orb_true_iff in Hg as [Hg|Hg]; apply andb_true_iff in Hg as [Ha Hb];
    apply bool_decide_eq_true_1 in Ha, Hb; tauto.
Qed.

Lemma h2h_margin_opp (team1_id team2_id : string) (row : H2HRow) :
  team1_id ≠ team2_id → h2h_pair team1_id team2_id row →
  h2h_margin team1_id row = (- h2h_margin team2_id row)%Z
  ∧ (0 ≤ h2h_won team1_id row)%Z ∧ (0 ≤ h2h_won team2_id row)%Z
  ∧ (h2h_won team1_id row + h2h_won team2_id row ≤ 1)%Z.
Proof.
  intros Hne [[Hh Ha]|[Hh Ha]]; unfold h2h_won, h2h_margin; rewrite Hh;
    repeat case_bool_decide; try congruence; lia.
Qed.

Lemma sumZ_margins_opp (team1_id team2_id : string) (df : list H2HRow) :
  team1_id ≠ team2_id → Forall (h2h_pair team1_id team2_id) df →
  sumZ (h2h_margin team1_id <$> df) = (- sumZ (h2h_margin team2_id <$> df))%Z
  ∧ (0 ≤ sumZ (h2h_won team1_id <$> df))%Z
  ∧ (0 ≤ sumZ (h2h_won team2_id <$> df))%Z
  ∧ (sumZ (h2h_won team1_id <$> df) + sumZ (h2h_won team2_id <$> df)
     ≤ Z.of_nat (length df))%Z.
Proof.
  intros Hne. induction 1 as [|row df Hrow _ IH]; csimpl; [lia|].
  destruct (h2h_margin_opp team1_id team2_id row Hne Hrow) as (? & ? & ? & ?).
  destruct IH as (? & ? & ? & ?). lia.
Qed.

(** What [get_head_to_head_stats] computes from a non-empty frame. *)
Lemma get_head_to_head_stats_rows (db : Database) (team1_id team2_id : string)
    (games_back : Z) (df : list H2HRow) :
  h2h_query db team1_id team2_id games_back = Ok df → df ≠ [] →
  get_head_to_head_stats db team1_id team2_id games_back
  = Ok (<["avg_margin" := np_mean (h2h_margin team1_id <$> df)]>
       (<["avg_total_points" := np_mean (h2h_total <$> df)]>
       (<["h2h_win_pct" :=
            inject_Z (sumZ (h2h_won team1_id <$> df)) / inject_Z (Z.of_nat (length df))]>
          ∅))).
Proof.
  intros Hq Hne. unfold get_head_to_head_stats, get_head_to_head_stats_try.
  rewrite Hq. simpl. destruct df as [|row rest] eqn:Edf; [done|]. rewrite <- Edf in *.
  assert (is_nil df = false) as -> by (by rewrite Edf).
  rewrite h2h_loop_map. rewrite py_truediv_Ok by (rewrite Edf; simpl; lia).
  reflexivity.
Qed.

Lemma get_head_to_head_stats_empty (db : Database) (team1_id team2_id : string)
    (games_back : Z) :
  (∀ df, h2h_query db team1_id team2_id games_back = Ok df → df = []) →
  get_head_to_head_stats db team1_id team2_id games_back = Ok h2h_default.
Proof.
  intros Hall. unfold get_head_to_head_stats, get_head_to_head_stats_try.
  destruct (h2h_query db team1_id team2_id games_back) as [df|e] eqn:E; [|done].
  by rewrite (Hall df eq_refl).
Qed.

End HeadToHeadSymmetry.

Lemma inject_Z_pos (n : Z) : (0 < n)%Z → 0 < inject_Z n.
Proof. intros H. change (inject_Z 0 < inject_Z n). by rewrite <- Zlt_Qlt. Qed.

Lemma inject_Z_nonneg (n : Z) : (0 ≤ n)%Z → 0 <= inject_Z n.
Proof. intros H. change (inject_Z 0 <= inject_Z n). by rewrite <- Zle_Qle. Qed.

Lemma Qdiv_fraction (a n : Z) :
  (0 ≤ a ≤ n)%Z → (0 < n)%Z → 0 <= inject_Z a / inject_Z n <= 1.
Proof.
  intros [H0 Hn] Hpos. pose proof (inject_Z_pos n Hpos) as Hq.
  split.
  - apply Qle_shift_div_l; [exact Hq|]. rewrite Qmult_0_l. by apply inject_Z_nonneg.
  - apply Qle_shift_div_r; [exact Hq|]. rewrite Qmult_1_l.
    by rewrite <- Zle_Qle.
Qed.

Lemma Qdiv_fraction_sum (a b n : Z) :
  (0 ≤ a)%Z → (0 ≤ b)%Z → (a + b ≤ n)%Z → (0 < n)%Z →
  inject_Z a / inject_Z n + inject_Z b / inject_Z n <= 1.
Proof.
  intros Ha Hb Hab Hn. pose proof (inject_Z_pos n Hn) as Hq.
  apply Qle_trans with (inject_Z (a + b) / inject_Z n).
  - apply Qle_lteq. right. rewrite inject_Z_plus. field. lra.
  - apply Qdiv_fraction; lia.
Qed.

Lemma np_mean_opp (l1 l2 : list Z) :
  length l1 = length l2 → sumZ l1 = (- sumZ l2)%Z → np_mean l1 == - np_mean l2.
Proof.
  intros Hlen Hsum. unfold np_mean. rewrite Hlen, Hsum, inject_Z_opp.
  unfold Qdiv. ring.
Qed.

(** X2: the head-to-head statistics of (A, B) and of (B, A), for two
    different teams, come from the same games seen from either side: the
    average margins are opposite, the average totals are equal, and the
    two win fractions are non-negative and sum to at most 1. *)
Theorem head_to_head_antisymmetric (db : Database) (team1_id team2_id : string)
    (games_back : Z) :
  team1_id ≠ team2_id →
  ∃ m12 m21 t12 t21 w12 w21,
    returned (FeatureEngineer.get_head_to_head_stats db team1_id team2_id games_back)
      "avg_margin" = Some m12
    ∧ returned (FeatureEngineer.get_head_to_head_stats db team2_id team1_id games_back)
        "avg_margin" = Some m21
    ∧ returned (FeatureEngineer.get_head_to_head_stats db team1_id team2_id games_back)
        "avg_total_points" = Some t12
    ∧ returned (FeatureEngineer.get_head_to_head_stats db team2_id team1_id games_back)
        "avg_total_points" = Some t21
    ∧ returned (FeatureEngineer.get_head_to_head_stats db team1_id team2_id games_back)
        "h2h_win_pct" = Some w12
    ∧ returned (FeatureEngineer.get_head_to_head_stats db team2_id team1_id games_back)
        "h2h_win_pct" = Some w21
    ∧ m12 == - m21 ∧ t12 = t21
    ∧ 0 <= w12 ∧ 0 <= w21 ∧ w12 + w21 <= 1.
Proof.
  intros Hne.
  destruct (FeatureEngineer.h2h_query db team1_id team2_id games_back) as [df|e] eqn:E.
  - pose proof E as E'. rewrite h2h_query_sym in E'.
    destruct df as [|row rest] eqn:Edf.
    + rewrite !get_head_to_head_stats_empty by congruence.
      exists 0.0, 0.0, 220.0, 220.0, 0.5, 0.5. repeat split; try done; discriminate.
    + rewrite <- Edf in *.
      rewrite (get_head_to_head_stats_rows _ _ _ _ df E) by (rewrite Edf; done).
      rewrite (get_head_to_head_stats_rows _ _ _ _ df E') by (rewrite Edf; done).
      pose proof (h2h_query_rows _ _ _ _ _ E) as Hrows.
      destruct (sumZ_margins_opp team1_id team2_id df Hne Hrows) as (Hm & H1 & H2 & H12).
      assert (Hlen : (0 < Z.of_nat (length df))%Z) by (rewrite Edf; simpl; lia).
      do 6 eexists. repeat (split; [reflexivity|]).
      split; [apply np_mean_opp; [by rewrite !length_fmap | exact Hm]|].
      split; [reflexivity|].
      split; [apply Qdiv_fraction; lia|]. split; [apply Qdiv_fraction; lia|].
      apply Qdiv_fraction_sum; lia.
  - assert (E' : FeatureEngineer.h2h_query db team2_id team1_id games_back = Raise e)
      by (by rewrite <- h2h_query_sym).
    unfold FeatureEngineer.get_head_to_head_stats,
      FeatureEngineer.get_head_to_head_stats_try. rewrite E, E'. simpl.
    exists 0.0, 0.0, 220.0, 220.0, 0.5, 0.5. repeat split; try done; discriminate.
Qed.

(** BOS and NYK met twice in the sample store, one win each way. *)
Lemma head_to_head_antisymmetric_witness :
  ∃ m12 m21 t12 t21 w12 w21,
    returned (FeatureEngineer.get_head_to_head_stats sample_db "BOS" "NYK" 5)
      "avg_margin" = Some m12
    ∧ returned (FeatureEngineer.get_head_to_head_stats sample_db "NYK" "BOS" 5)
        "avg_margin" = Some m21
    ∧ returned (FeatureEngineer.get_head_to_head_stats sample_db "BOS" "NYK" 5)
        "avg_total_points" = Some t12
    ∧ returned (FeatureEngineer.get_head_to_head_stats sample_db "NYK" "BOS" 5)
        "avg_total_points" = Some t21
    ∧ returned (FeatureEngineer.get_head_to_head_stats sample_db "BOS" "NYK" 5)
        "h2h_win_pct" = Some w12
    ∧ returned (FeatureEngineer.get_head_to_head_stats sample_db "NYK" "BOS" 5)
        "h2h_win_pct" = Some w21
    ∧ m12 == - m21 ∧ t12 = t21
    ∧ 0 <= w12 ∧ 0 <= w21 ∧ w12 + w21 <= 1.
Proof.
  apply (head_to_head_antisymmetric sample_db "BOS" "NYK" 5). discriminate.
Defined.

(** ** Ranges of the team statistics *)

Section TeamStatsRanges.
Import FeatureEngineer.
Context (np_std : list Z → Q).

Lemma wins_loop_bounds (venue_of : Row → string) (df : list Row) :
  (0 ≤ wins_loop venue_of df ≤ Z.of_nat (length df))%Z.
Proof.
  unfold wins_loop.
  enough (G : ∀ w,
    (w ≤ foldl (λ wins row,
                  if bool_decide (venue_of row = "home")
                     && bool_decide (row_home_score row > row_away_score row)%Z
                  then (wins + 1)%Z
                  else if bool_decide (venue_of row = "away")
                          && bool_decide (row_away_score row > row_home_score row)%Z
                  then (wins + 1)%Z
                  else wins) w df
     ≤ w + Z.of_nat (length df))%Z)
    by (specialize (G 0%Z); lia).
  induction df as [|row df IH]; intros w; simpl; [lia|].
  repeat match goal with
         | |- context [foldl _ (if ?b then _ else _) _] => destruct b
         end;
    match goal with |- context [foldl _ ?w' df] => specialize (IH w') end; lia.
Qed.

Lemma _calculate_win_pct_bounded (games_df : list Row) (venue : string) :
  ∃ pct, _calculate_win_pct games_df venue = Ok pct ∧ 0 <= pct <= 1.
Proof.
  destruct games_df as [|row rest] eqn:E.
  - exists 0.5. split; [done|]. split; discriminate.
  - unfold _calculate_win_pct.
    rewrite py_truediv_Ok by (cbn [length]; lia).
    eexists. split; [done|].
    pose proof (wins_loop_bounds (λ _, venue) (row :: rest)).
    apply Qdiv_fraction; [lia | cbn [length]; lia].
Qed.

(** The body of [get_team_stats] on a non-empty frame, with the ranges of
    what it stores. *)
Lemma get_team_stats_try_bounded (db : Database) (team_id : string) (games_back : Z)
    (df : list Row) :
  team_games_query db team_id games_back = Ok df → df ≠ [] →
  ∃ win_pct home_pct away_pct form,
    get_team_stats_try np_std db team_id games_back
    = Ok (<["scoring_consistency" := 1 / (np_std (row_team_score <$> df) + 1)]>
         (<["recent_form" := form]>
         (<["away_win_pct" := away_pct]>
         (<["home_win_pct" := home_pct]>
         (<["win_percentage" := win_pct]>
         (<["avg_point_differential" :=
              np_mean (row_team_score <$> df) - np_mean (row_opponent_score <$> df)]>
         (<["avg_points_allowed" := np_mean (row_opponent_score <$> df)]>
         (<["avg_points_scored" := np_mean (row_team_score <$> df)]> ∅))))))))
    ∧ 0 <= win_pct <= 1 ∧ 0 <= home_pct <= 1 ∧ 0 <= away_pct <= 1 ∧ 0 <= form <= 1.
Proof.
  intros Hq Hne. unfold get_team_stats_try. rewrite Hq. simpl.
  destruct df as [|row rest] eqn:Edf; [done|]. rewrite <- Edf in *.
  assert (Hnil : is_nil df = false) by (by rewrite Edf).
  assert (Hlen : (0 < Z.of_nat (length df))%Z) by (rewrite Edf; simpl; lia).
  rewrite Hnil, scores_loop_map.
  assert (Hts : is_nil (row_team_score <$> df) = false) by (by rewrite Edf).
  rewrite Hts.
  unfold getitem at 1. rewrite lookup_insert_ne, lookup_insert_eq by done. simpl.
  unfold getitem at 1. rewrite lookup_insert_eq. simpl.
  pose proof (count_wins_rows [] df) as Hc. simpl in Hc. rewrite Hc. simpl.
  rewrite length_fmap. rewrite py_truediv_Ok by lia. simpl.
  destruct (_calculate_win_pct_bounded (filter (λ row, venue row = "home") df) "home")
    as (hp & Hhp & Hhpb).
  destruct (_calculate_win_pct_bounded (filter (λ row, venue row = "away") df) "away")
    as (ap & Hap & Hapb).
  assert (Hrec : is_nil (take 5 df) = false) by (by rewrite Edf).
  assert (Hrlen : (0 < Z.of_nat (length (take 5 df)))%Z) by (rewrite Edf; simpl; lia).
  rewrite Hrec. simpl.
  rewrite (py_truediv_Ok _ (Z.of_nat (length (take 5 df)))) by lia.
  rewrite Hhp, Hap.
  eexists _, (if negb (is_nil (filter (λ row, venue row = "home") df)) then hp else 0.5),
             (if negb (is_nil (filter (λ row, venue row = "away") df)) then ap else 0.5), _.
  split.
  - destruct (is_nil (filter (λ row, venue row = "home") df));
      destruct (is_nil (filter (λ row, venue row = "away") df)); simpl; reflexivity.
  - split; [|split; [|split]].
    + apply Qdiv_fraction; [|lia]. split; [lia|].
      apply Nat2Z.inj_le, length_filter.
    + destruct (is_nil (filter (λ row, venue row = "home") df)); simpl;
        [split; discriminate | exact Hhpb].
    + destruct (is_nil (filter (λ row, venue row = "away") df)); simpl;
        [split; discriminate | exact Hapb].
    + pose proof (wins_loop_bounds venue (take 5 df)). apply Qdiv_fraction; lia.
Qed.

End TeamStatsRanges.

Lemma get_team_stats_invariants (np_std : list Z → Q) (db : Database) (team_id : string)
    (games_back : Z) :
  ∃ stats scored allowed diff win_pct home_pct away_pct form,
    FeatureEngineer.get_team_stats np_std db team_id games_back = Ok stats
    ∧ stats !! "avg_points_scored" = Some scored
    ∧ stats !! "avg_points_allowed" = Some allowed
    ∧ stats !! "avg_point_differential" = Some diff
    ∧ stats !! "win_percentage" = Some win_pct
    ∧ stats !! "home_win_pct" = Some home_pct
    ∧ stats !! "away_win_pct" = Some away_pct
    ∧ stats !! "recent_form" = Some form
    ∧ diff == scored - allowed
    ∧ 0 <= win_pct <= 1 ∧ 0 <= home_pct <= 1 ∧ 0 <= away_pct <= 1 ∧ 0 <= form <= 1.
Proof.
  assert (Hdefault :
    ∃ stats scored allowed diff win_pct home_pct away_pct form,
      Ok FeatureEngineer._get_default_stats = Ok stats
      ∧ stats !! "avg_points_scored" = Some scored
      ∧ stats !! "avg_points_allowed" = Some allowed
      ∧ stats !! "avg_point_differential" = Some diff
      ∧ stats !! "win_percentage" = Some win_pct
      ∧ stats !! "home_win_pct" = Some home_pct
      ∧ stats !! "away_win_pct" = Some away_pct
      ∧ stats !! "recent_form" = Some form
      ∧ diff == scored - allowed
      ∧ 0 <= win_pct <= 1 ∧ 0 <= home_pct <= 1 ∧ 0 <= away_pct <= 1 ∧ 0 <= form <= 1).
  { exists FeatureEngineer._get_default_stats, 110.0, 110.0, 0.0, 0.5, 0.5, 0.5, 0.5.
    repeat split; try done; discriminate. }
  destruct (FeatureEngineer.team_games_query db team_id games_back) as [df|e] eqn:E.
  - destruct df as [|row rest] eqn:Edf.
    + unfold FeatureEngineer.get_team_stats, FeatureEngineer.get_team_stats_try.
      rewrite E. exact Hdefault.
    + destruct (get_team_stats_try_bounded np_std db team_id games_back _ E)
        as (wp & hp & ap & rf & Hs & Hwp & Hhp & Hap & Hrf); [done|].
      unfold FeatureEngineer.get_team_stats. rewrite Hs. simpl.
      do 8 eexists. split; [reflexivity|].
      repeat (split; [rewrite ?lookup_insert_ne by done; apply lookup_insert_eq|]).
      split; [reflexivity|]. done.
  - unfold FeatureEngineer.get_team_stats, FeatureEngineer.get_team_stats_try.
    rewrite E. exact Hdefault.
Qed.

(** X3: whatever the store holds, [get_team_stats] returns statistics
    whose four fractions (overall, home, away, recent form) lie in [0, 1]
    and whose point differential is the average scored minus the average
    allowed. *)
Theorem get_team_stats_ranges (np_std : list Z → Q) (db : Database) (team_id : string)
    (games_back : Z) :
  ∃ stats scored allowed diff win_pct home_pct away_pct form,
    FeatureEngineer.get_team_stats np_std db team_id games_back = Ok stats
    ∧ stats !! "avg_points_scored" = Some scored
    ∧ stats !! "avg_points_allowed" = Some allowed
    ∧ stats !! "avg_point_differential" = Some diff
    ∧ stats !! "win_percentage" = Some win_pct
    ∧ stats !! "home_win_pct" = Some home_pct
    ∧ stats !! "away_win_pct" = Some away_pct
    ∧ stats !! "recent_form" = Some form
    ∧ diff == scored - allowed
    ∧ 0 <= win_pct <= 1 ∧ 0 <= home_pct <= 1 ∧ 0 <= away_pct <= 1 ∧ 0 <= form <= 1.
Proof. apply get_team_stats_invariants. Qed.

(** ** The feature vector *)

Ltac lookup_feature :=
  unfold features_of; rewrite ?lookup_insert_ne by done; apply lookup_insert_eq.

Section FeatureVectorFacts.
Import FeatureEngineer.
Context (np_std : list Z → Q).

Lemma lookup_of_dom (d : gmap string Q) (K : gset string) (k : string) :
  dom d = K → k ∈ K → d !! k = Some (stat d k).
Proof.
  intros Hd Hk. rewrite <- Hd in Hk. apply elem_of_dom in Hk as [v Hv].
  unfold stat. by rewrite Hv.
Qed.

Lemma getitem_dom (d : gmap string Q) (K : gset string) (k : string) :
  dom d = K → k ∈ K → getitem d k = Ok (stat d k).
Proof.
  intros Hd Hk. unfold getitem. by rewrite (lookup_of_dom d K k Hd Hk).
Qed.

(** [create_game_features] as a function of the three statistics. *)
Lemma create_game_features_of (db : Database) (home_team_id away_team_id : string)
    (home_stats away_stats h2h_stats : gmap string Q) :
  get_team_stats np_std db home_team_id 10 = Ok home_stats →
  get_team_stats np_std db away_team_id 10 = Ok away_stats →
  get_head_to_head_stats db home_team_id away_team_id 5 = Ok h2h_stats →
  dom home_stats = stats_keys → dom away_stats = stats_keys → dom h2h_stats = h2h_keys →
  create_game_features np_std db home_team_id away_team_id
  = Ok (features_of home_stats away_stats h2h_stats).
Proof.
  intros Hh Ha Hp Dh Da Dp. unfold create_game_features. rewrite Hh, Ha, Hp.
  unfold rbind at 1 2 3.
  assert (Hs : ∀ k, k ∈ stats_keys → getitem home_stats k = Ok (stat home_stats k))
    by (intros; by apply (getitem_dom _ stats_keys)).
  assert (As : ∀ k, k ∈ stats_keys → getitem away_stats k = Ok (stat away_stats k))
    by (intros; by apply (getitem_dom _ stats_keys)).
  assert (Ps : ∀ k, k ∈ h2h_keys → getitem h2h_stats k = Ok (stat h2h_stats k))
    by (intros; by apply (getitem_dom _ h2h_keys)).
  assert (K1 : "avg_points_scored" ∈ stats_keys) by compute_done.
  assert (K2 : "avg_points_allowed" ∈ stats_keys) by compute_done.
  assert (K3 : "avg_point_differential" ∈ stats_keys) by compute_done.
  assert (K4 : "win_percentage" ∈ stats_keys) by compute_done.
  assert (K5 : "home_win_pct" ∈ stats_keys) by compute_done.
  assert (K6 : "away_win_pct" ∈ stats_keys) by compute_done.
  assert (K7 : "recent_form" ∈ stats_keys) by compute_done.
  assert (K8 : "scoring_consistency" ∈ stats_keys) by compute_done.
  assert (J1 : "h2h_win_pct" ∈ h2h_keys) by compute_done.
  assert (J2 : "avg_total_points" ∈ h2h_keys) by compute_done.
  assert (J3 : "avg_margin" ∈ h2h_keys) by compute_done.
  rewrite !Hs, !As, !Ps by assumption.
  unfold rbind, getitem.
  rewrite ?lookup_insert_eq.
  rewrite ?(lookup_insert_ne _ "projected_away_score" "projected_home_score") by done.
  rewrite ?(lookup_insert_ne _ "away_point_diff" "home_point_diff") by done.
  rewrite ?(lookup_insert_ne _ "away_win_pct" "home_win_pct") by done.
  rewrite ?(lookup_insert_ne _ "away_recent_form" "home_recent_form") by done.
  rewrite ?lookup_insert_eq.
  unfold features_of. reflexivity.
Qed.

Lemma create_game_features_total (db : Database) (home_team_id away_team_id : string) :
  ∃ home_stats away_stats h2h_stats,
    get_team_stats np_std db home_team_id 10 = Ok home_stats
    ∧ get_team_stats np_std db away_team_id 10 = Ok away_stats
    ∧ get_head_to_head_stats db home_team_id away_team_id 5 = Ok h2h_stats
    ∧ create_game_features np_std db home_team_id away_team_id
      = Ok (features_of home_stats away_stats h2h_stats).
Proof.
  destruct (get_team_stats_dom np_std db home_team_id 10) as (hs & Hh & Dh).
  destruct (get_team_stats_dom np_std db away_team_id 10) as (aws & Ha & Da).
  destruct (get_head_to_head_stats_dom db home_team_id away_team_id 5) as (hh & Hp & Dp).
  exists hs, aws, hh. repeat split; try done. by apply create_game_features_of.
Qed.

Lemma features_of_dom (home_stats away_stats h2h_stats : gmap string Q) :
  dom (features_of home_stats away_stats h2h_stats) = feature_keys.
Proof.
  unfold features_of. rewrite !dom_insert_L, dom_empty_L. compute_done.
Qed.

End FeatureVectorFacts.

(** X4: [create_game_features] never raises and its result has exactly the
    23 named features, whatever the store holds and whether or not it can
    be reached. *)
Theorem create_game_features_complete (np_std : list Z → Q) (db : Database)
    (home_team_id away_team_id : string) :
  ∃ features,
    FeatureEngineer.create_game_features np_std db home_team_id away_team_id
    = Ok features
    ∧ dom features = feature_keys
    ∧ size features = 23%nat.
Proof.
  destruct (create_game_features_total np_std db home_team_id away_team_id)
    as (hs & aws & hh & _ & _ & _ & Hf).
  eexists. split; [exact Hf|].
  pose proof (features_of_dom hs aws hh) as Hd. split; [exact Hd|].
  rewrite <- size_dom, Hd. reflexivity.
Qed.



Section FeatureVectorInputs.
Import FeatureEngineer.
Context (np_std : list Z → Q).

Lemma get_team_stats_offline (db : Database) (team_id : string) (games_back : Z) :
  online db = false →
  get_team_stats np_std db team_id games_back = Ok _get_default_stats.
Proof.
  intros Hoff. unfold get_team_stats, get_team_stats_try, team_games_query, get_connection.
  by rewrite Hoff.
Qed.

Lemma get_head_to_head_stats_offline (db : Database) (team1_id team2_id : string)
    (games_back : Z) :
  online db = false →
  get_head_to_head_stats db team1_id team2_id games_back = Ok h2h_default.
Proof.
  intros Hoff.
  unfold get_head_to_head_stats, get_head_to_head_stats_try, h2h_query, get_connection.
  by rewrite Hoff.
Qed.

Lemma h2h_where_team (team1_id team2_id : string) (g : Game) :
  team_games_where team1_id g = false → h2h_where team1_id team2_id g = false.
Proof.
  unfold team_games_where, h2h_where. destruct (completed_with_scores g);
    rewrite ?andb_false_r; [|done]. rewrite !andb_true_r.
  intros [H1 H2]%orb_false_iff. rewrite H1, H2. simpl. by rewrite andb_false_r.
Qed.

Lemma create_game_features_default_stats (db : Database)
    (home_team_id away_team_id : string) :
  get_team_stats np_std db home_team_id 10 = Ok _get_default_stats →
  get_team_stats np_std db away_team_id 10 = Ok _get_default_stats →
  get_head_to_head_stats db home_team_id away_team_id 5 = Ok h2h_default →
  ∃ features,
    create_game_features np_std db home_team_id away_team_id = Ok features
    ∧ dom features = feature_keys
    ∧ holds_values features default_features.
Proof.
  intros Hh Ha Hp. eexists. split; [|split].
  - apply (create_game_features_of np_std db home_team_id away_team_id _ _ _ Hh Ha Hp);
      compute_done.
  - apply features_of_dom.
  - unfold holds_values, default_features.
    repeat (apply Forall_cons; split;
            [eexists; split; [lookup_feature | vm_compute; reflexivity]|]).
    apply Forall_nil_2.
Qed.

(** The three queries read the store through the completed games only. *)
Lemma filter_completed (P : Game → bool) (l : list Game) :
  (∀ g, P g = true → completed_with_scores g = true) →
  filter (λ g, P g) l = filter (λ g, P g) (filter (λ g, completed_with_scores g) l).
Proof.
  intros HP. rewrite list_filter_filter. apply list_filter_iff.
  intros g. split; [|tauto]. intros Hg. split; [done|].
  apply Is_true_true, HP. by apply Is_true_true.
Qed.

Lemma team_games_query_completed (db1 db2 : Database) (team_id : string) (games_back : Z) :
  online db1 = online db2 →
  filter (λ g, completed_with_scores g) (games db1)
  = filter (λ g, completed_with_scores g) (games db2) →
  team_games_query db1 team_id games_back = team_games_query db2 team_id games_back.
Proof.
  intros Hon Hg. unfold team_games_query, team_games_selected, get_connection.
  rewrite Hon.
  rewrite (filter_completed (team_games_where team_id) (games db1)),
          (filter_completed (team_games_where team_id) (games db2)), Hg; [done|..];
    intros g; unfold team_games_where; by intros [_ ?]%andb_true_iff.
Qed.

Lemma h2h_query_completed (db1 db2 : Database) (team1_id team2_id : string)
    (games_back : Z) :
  online db1 = online db2 →
  filter (λ g, completed_with_scores g) (games db1)
  = filter (λ g, completed_with_scores g) (games db2) →
  h2h_query db1 team1_id team2_id games_back = h2h_query db2 team1_id team2_id games_back.
Proof.
  intros Hon Hg. unfold h2h_query, get_connection. rewrite Hon.
  rewrite (filter_completed (h2h_where team1_id team2_id) (games db1)),
          (filter_completed (h2h_where team1_id team2_id) (games db2)), Hg; [done|..];
    intros g; unfold h2h_where; by intros [_ ?]%andb_true_iff.
Qed.

Lemma stats_completed (db1 db2 : Database) :
  online db1 = online db2 →
  filter (λ g, completed_with_scores g) (games db1)
  = filter (λ g, completed_with_scores g) (games db2) →
  (∀ team_id games_back,
     get_team_stats np_std db1 team_id games_back
     = get_team_stats np_std db2 team_id games_back)
  ∧ (∀ team1_id team2_id games_back,
       get_head_to_head_stats db1 team1_id team2_id games_back
       = get_head_to_head_stats db2 team1_id team2_id games_back)
  ∧ (∀ home_team_id away_team_id,
       create_game_features np_std db1 home_team_id away_team_id
       = create_game_features np_std db2 home_team_id away_team_id).
Proof.
  intros Hon Hg.
  assert (Hts : ∀ team_id games_back,
            get_team_stats np_std db1 team_id games_back
            = get_team_stats np_std db2 team_id games_back).
  { intros t n. unfold get_team_stats, get_team_stats_try.
    by rewrite (team_games_query_completed db1 db2 t n Hon Hg). }
  assert (Hhh : ∀ team1_id team2_id games_back,
            get_head_to_head_stats db1 team1_id team2_id games_back
            = get_head_to_head_stats db2 team1_id team2_id games_back).
  { intros t1 t2 n. unfold get_head_to_head_stats, get_head_to_head_stats_try.
    by rewrite (h2h_query_completed db1 db2 t1 t2 n Hon Hg). }
  split; [exact Hts|]. split; [exact Hhh|].
  intros h a. unfold create_game_features. by rewrite !Hts, Hhh.
Qed.

End FeatureVectorInputs.

(** X6: when the store cannot be reached, or neither team has a
    qualifying game, [create_game_features] returns the same neutral
    vector for every pair: its 23 features are the averages 110, the
    fractions 0.5, all differences 0, projected and head-to-head total
    220. *)
Theorem create_game_features_defaults (np_std : list Z → Q) (db : Database)
    (home_team_id away_team_id : string) :
  online db = false
  ∨ Forall (λ g, FeatureEngineer.team_games_where home_team_id g = false) (games db)
    ∧ Forall (λ g, FeatureEngineer.team_games_where away_team_id g = false) (games db) →
  ∃ features,
    FeatureEngineer.create_game_features np_std db home_team_id away_team_id
    = Ok features
    ∧ dom features = feature_keys
    ∧ holds_values features default_features.
Proof.
  intros [Hoff | [Hh Ha]]; apply create_game_features_default_stats.
  - by apply get_team_stats_offline.
  - by apply get_team_stats_offline.
  - by apply get_head_to_head_stats_offline.
  - by apply get_team_stats_none.
  - by apply get_team_stats_none.
  - apply get_head_to_head_stats_none.
    eapply Forall_impl; [exact Hh|]. intros g. apply h2h_where_team.
Qed.

(** LAL has only a scheduled game and MIA none in the sample store. *)
Lemma create_game_features_defaults_witness :
  ∃ features,
    FeatureEngineer.create_game_features sample_std sample_db "LAL" "MIA" = Ok features
    ∧ dom features = feature_keys
    ∧ holds_values features default_features.
Proof.
  apply (create_game_features_defaults sample_std sample_db "LAL" "MIA").
  right. split; repeat constructor.
Defined.

(** X7: the statistics and the feature vector depend on the store only
    through whether it can be reached and its completed games with both
    scores: two stores that agree on those give the same team statistics,
    head-to-head statistics and features, so scheduled or score-less games
    never influence them. *)
Theorem features_depend_on_completed_games (np_std : list Z → Q) (db1 db2 : Database) :
  online db1 = online db2 →
  filter (λ g, completed_with_scores g) (games db1)
  = filter (λ g, completed_with_scores g) (games db2) →
  (∀ team_id games_back,
     FeatureEngineer.get_team_stats np_std db1 team_id games_back
     = FeatureEngineer.get_team_stats np_std db2 team_id games_back)
  ∧ (∀ team1_id team2_id games_back,
       FeatureEngineer.get_head_to_head_stats db1 team1_id team2_id games_back
       = FeatureEngineer.get_head_to_head_stats db2 team1_id team2_id games_back)
  ∧ (∀ home_team_id away_team_id,
       FeatureEngineer.create_game_features np_std db1 home_team_id away_team_id
       = FeatureEngineer.create_game_features np_std db2 home_team_id away_team_id).
Proof. apply stats_completed. Qed.

(** The sample store with and without its scheduled game. *)
Lemma features_depend_on_completed_games_witness :
  (∀ team_id games_back,
     FeatureEngineer.get_team_stats sample_std sample_db team_id games_back
     = FeatureEngineer.get_team_stats sample_std sample_db_completed team_id games_back)
  ∧ (∀ team1_id team2_id games_back,
       FeatureEngineer.get_head_to_head_stats sample_db team1_id team2_id games_back
       = FeatureEngineer.get_head_to_head_stats sample_db_completed team1_id team2_id
           games_back)
  ∧ (∀ home_team_id away_team_id,
       FeatureEngineer.create_game_features sample_std sample_db home_team_id away_team_id
       = FeatureEngineer.create_game_features sample_std sample_db_completed
           home_team_id away_team_id).
Proof.
  apply (features_depend_on_completed_games sample_std sample_db sample_db_completed);
    reflexivity.
Defined.

(** ** The training set *)

Section TrainingSetFacts.
Import FeatureEngineerTraining.
Context (np_std : list Z → Q).

Lemma training_record_labels (db : Database) (game : BaseRow) :
  ∃ features,
    FeatureEngineer.create_game_features np_std db
      (base_home_team_id game) (base_away_team_id game) = Ok features
    ∧ dom features = feature_keys
    ∧ training_record np_std db game = Ok (add_labels game (PFloat <$> features)).
Proof.
  destruct (create_game_features_total np_std db
              (base_home_team_id game) (base_away_team_id game))
    as (hs & aws & hh & _ & _ & _ & Hf).
  eexists. split; [exact Hf|]. split; [apply features_of_dom|].
  unfold training_record. rewrite Hf. reflexivity.
Qed.

Lemma training_records_total (db : Database) (games_df : list BaseRow) :
  ∃ records,
    training_records np_std db games_df = Ok records
    ∧ Forall2 (λ game record, training_record np_std db game = Ok record)
        games_df records.
Proof.
  induction games_df as [|game rest (records & Hr & Hall)]; simpl.
  - exists []. split; [done | constructor].
  - destruct (training_record_labels db game) as (f & _ & _ & Hrec).
    rewrite Hrec, Hr. simpl. eexists. split; [done|]. by constructor.
Qed.

(** [prepare_training_data] never raises; with a store that can be read
    its rows are the records of the base games, in their order. *)
Lemma prepare_training_data_rows (teams : gset string) (db : Database)
    (start_date end_date : option Z) :
  ∃ df,
    prepare_training_data np_std teams db start_date end_date = Ok df
    ∧ (online db = false → df = DataFrame_new)
    ∧ ∀ games_df, base_games_query teams db start_date end_date = Ok games_df →
        ∃ records,
          Forall2 (λ game record, training_record np_std db game = Ok record)
            games_df records
          ∧ rows df = numeric_cells <$> records
          ∧ (games_df ≠ [] → columns df = elements (⋃ (dom <$> records) : gset string)).
Proof.
  unfold prepare_training_data, prepare_training_data_try.
  destruct (base_games_query teams db start_date end_date) as [games_df|e] eqn:Eq; simpl.
  - destruct (training_records_total db games_df) as (records & Hr & Hall).
    destruct games_df as [|game rest] eqn:Eg.
    + simpl. exists DataFrame_new. split; [done|]. split; [done|].
      intros ? [= <-]. exists []. split; [constructor|]. by split.
    + rewrite <- Eg in *. assert (FeatureEngineer.is_nil games_df = false) as ->
        by (by rewrite Eg).
      rewrite Hr. simpl. eexists. split; [done|]. split.
      * intros Hoff. unfold base_games_query, get_connection in Eq.
        rewrite Hoff in Eq. discriminate.
      * intros ? [= <-]. exists records. by repeat split.
  - exists DataFrame_new. split; [done|]. split; [done|]. intros ? [=].
Qed.

Lemma numeric_cells_lookup (record : gmap string pyval) (k : string) :
  numeric_cells record !! k
  = record !! k ≫= λ v, match v with PFloat x => Some x | _ => None end.
Proof. unfold numeric_cells. apply lookup_omap. Qed.

Lemma add_labels_feature (game : BaseRow) (features : gmap string Q) (k : string) :
  k ∉ label_keys →
  numeric_cells (add_labels game (PFloat <$> features)) !! k = features !! k.
Proof.
  intros Hk. rewrite numeric_cells_lookup. unfold add_labels.
  assert (Hne : ∀ l, l ∈ label_keys → l ≠ k) by (intros l Hl ->; done).
  rewrite !lookup_insert_ne by (apply Hne; compute_done).
  rewrite lookup_fmap. by destruct (features !! k).
Qed.

Lemma feature_not_label (k : string) : k ∈ feature_keys → k ∉ label_keys.
Proof.
  intros Hk Hl. unfold label_keys in Hl.
  repeat (apply elem_of_union in Hl as [Hl|Hl]);
    apply elem_of_singleton in Hl; subst k; revert Hk; compute_done.
Qed.

End TrainingSetFacts.

(** X8: every row of the training corpus carries target variables that
    are consistent with each other: [total_points] is the sum of the two
    scores, [point_spread] their difference, and [home_win] is 1 exactly
    when the spread is positive and 0 otherwise (a tie counts as an away
    win). *)
Theorem prepare_training_data_labels (np_std : list Z → Q) (teams : gset string)
    (db : Database) (start_date end_date : option Z) :
  ∃ df,
    FeatureEngineerTraining.prepare_training_data np_std teams db start_date end_date
    = Ok df
    ∧ ∀ row, row ∈ rows df →
        ∃ hs aws total win spread,
          row !! "home_score" = Some hs ∧ row !! "away_score" = Some aws
          ∧ row !! "total_points" = Some total ∧ row !! "home_win" = Some win
          ∧ row !! "point_spread" = Some spread
          ∧ total == hs + aws ∧ spread == hs - aws
          ∧ (win = 1 ∧ 0 < spread ∨ win = 0 ∧ spread <= 0).
Proof.
  destruct (prepare_training_data_rows np_std teams db start_date end_date)
    as (df & Hdf & Hoff & Hrows).
  exists df. split; [exact Hdf|]. intros row Hrow.
  destruct (FeatureEngineerTraining.base_games_query teams db start_date end_date)
    as [games_df|e] eqn:Eq.
  - destruct (Hrows games_df eq_refl) as (records & Hall & Hr & _).
    rewrite Hr in Hrow. apply list_elem_of_fmap in Hrow as (record & -> & Hrec).
    apply list_elem_of_lookup in Hrec as [i Hi].
    destruct (Forall2_lookup_r _ _ _ _ _ Hall Hi) as (game & _ & Hg).
    destruct (training_record_labels np_std db game) as (f & _ & _ & Hrec).
    rewrite Hrec in Hg. injection Hg as <-.
    do 5 eexists.
    repeat (split; [rewrite numeric_cells_lookup; unfold add_labels;
                    rewrite ?lookup_insert_ne by done; rewrite lookup_insert_eq;
                    reflexivity|]).
    split; [by rewrite inject_Z_plus|].
    split; [unfold Z.sub; by rewrite inject_Z_plus, inject_Z_opp|].
    case_bool_decide as Hw.
    + left. split; [done|]. apply inject_Z_pos. lia.
    + right. split; [done|]. change 0 with (inject_Z 0). rewrite <- Zle_Qle. lia.
  - unfold FeatureEngineerTraining.prepare_training_data,
      FeatureEngineerTraining.prepare_training_data_try in Hdf.
    rewrite Eq in Hdf. injection Hdf as <-. by apply elem_of_nil in Hrow.
Qed.

(** X9: the features of a training row are those [create_game_features]
    computes for the game's two teams from the store as it is now: they
    do not depend on the date of the game, so two base games with the
    same home and away teams get identical features, including from games
    played after them. *)
Theorem training_rows_use_current_features (np_std : list Z → Q) (teams : gset string)
    (db : Database) (start_date end_date : option Z)
    (games_df : list FeatureEngineerTraining.BaseRow) (i : nat)
    (game : FeatureEngineerTraining.BaseRow) :
  FeatureEngineerTraining.base_games_query teams db start_date end_date = Ok games_df →
  games_df !! i = Some game →
  ∃ df row features,
    FeatureEngineerTraining.prepare_training_data np_std teams db start_date end_date
    = Ok df
    ∧ rows df !! i = Some row
    ∧ FeatureEngineer.create_game_features np_std db
        (FeatureEngineerTraining.base_home_team_id game)
        (FeatureEngineerTraining.base_away_team_id game) = Ok features
    ∧ (∀ k, k ∈ feature_keys → row !! k = features !! k)
    ∧ (∀ j game' row',
         games_df !! j = Some game' → rows df !! j = Some row' →
         FeatureEngineerTraining.base_home_team_id game'
         = FeatureEngineerTraining.base_home_team_id game →
         FeatureEngineerTraining.base_away_team_id game'
         = FeatureEngineerTraining.base_away_team_id game →
         ∀ k, k ∈ feature_keys → row' !! k = row !! k).
Proof.
  intros Hq Hi.
  destruct (prepare_training_data_rows np_std teams db start_date end_date)
    as (df & Hdf & _ & Hrows).
  destruct (Hrows games_df Hq) as (records & Hall & Hr & _).
  assert (Hrow : ∀ j g, games_df !! j = Some g →
            ∃ f, FeatureEngineer.create_game_features np_std db
                   (FeatureEngineerTraining.base_home_team_id g)
                   (FeatureEngineerTraining.base_away_team_id g) = Ok f
                 ∧ rows df !! j
                   = Some (FeatureEngineerTraining.numeric_cells
                             (add_labels g (PFloat <$> f)))).
  { intros j g Hj.
    destruct (Forall2_lookup_l _ _ _ _ _ Hall Hj) as (record & Hrec & Hg).
    destruct (training_record_labels np_std db g) as (f & Hf & _ & Hg').
    rewrite Hg' in Hg. injection Hg as <-.
    exists f. split; [exact Hf|]. by rewrite Hr, list_lookup_fmap, Hrec. }
  destruct (Hrow i game Hi) as (f & Hf & Hri).
  exists df. eexists. exists f. split; [exact Hdf|]. split; [exact Hri|]. split; [exact Hf|].
  split.
  - intros k Hk. by apply add_labels_feature, feature_not_label.
  - intros j game' row' Hj Hrj Hh Ha k Hk.
    destruct (Hrow j game' Hj) as (f' & Hf' & Hrj').
    rewrite Hrj in Hrj'. injection Hrj' as ->.
    rewrite Hh, Ha, Hf in Hf'. injection Hf' as <-.
    rewrite !add_labels_feature by (by apply feature_not_label). done.
Qed.

(** The two meetings of BOS and NYK, on days 1 and 5. *)
Lemma training_rows_use_current_features_witness :
  let game :=
    {| FeatureEngineerTraining.base_id := "g1";
       FeatureEngineerTraining.base_home_team_id := "BOS";
       FeatureEngineerTraining.base_away_team_id := "NYK";
       FeatureEngineerTraining.base_home_score := 100;
       FeatureEngineerTraining.base_away_score := 90;
       FeatureEngineerTraining.base_game_date := 1 |} in
  let rematch :=
    {| FeatureEngineerTraining.base_id := "g4";
       FeatureEngineerTraining.base_home_team_id := "BOS";
       FeatureEngineerTraining.base_away_team_id := "NYK";
       FeatureEngineerTraining.base_home_score := 80;
       FeatureEngineerTraining.base_away_score := 120;
       FeatureEngineerTraining.base_game_date := 5 |} in
  ∃ df row features,
    FeatureEngineerTraining.prepare_training_data sample_std sample_teams
      sample_db_rematch None None = Ok df
    ∧ rows df !! 0%nat = Some row
    ∧ FeatureEngineer.create_game_features sample_std sample_db_rematch "BOS" "NYK"
      = Ok features
    ∧ (∀ k, k ∈ feature_keys → row !! k = features !! k)
    ∧ (∀ j game' row',
         [game; rematch] !! j = Some game' → rows df !! j = Some row' →
         FeatureEngineerTraining.base_home_team_id game' = "BOS" →
         FeatureEngineerTraining.base_away_team_id game' = "NYK" →
         ∀ k, k ∈ feature_keys → row' !! k = row !! k).
Proof.
  intros game rematch.
  apply (training_rows_use_current_features sample_std sample_teams sample_db_rematch
           None None [game; rematch] 0 game).
  - vm_compute. reflexivity.
  - reflexivity.
Defined.

(** In that store the row of the day-1 game, which BOS won, already
    reports the home win fraction 1/2 that includes the day-5 loss. *)
Example training_row_sees_later_game :
  match FeatureEngineerTraining.prepare_training_data sample_std sample_teams
          sample_db_rematch None None with
  | Ok df =>
      (λ row : gmap string Q, (Qred (stat row "game_date"), Qred (stat row "home_win_pct")))
        <$> rows df
  | Raise _ => []
  end
  = [ (1, 1 # 2); (5, 1 # 2) ].
Proof. vm_compute. reflexivity. Qed.

Section TrainingSetSize.
Import FeatureEngineerTraining.
Context (np_std : list Z → Q).

Lemma base_games_select_length (l : list Game) :
  Forall (λ g, completed_with_scores g = true) l →
  length (omap base_games_select l) = length l.
Proof.
  induction 1 as [|g l Hg _ IH]; csimpl; [done|].
  unfold completed_with_scores in Hg. unfold base_games_select at 1.
  destruct (home_score g); [|by rewrite !andb_false_r in Hg].
  destruct (away_score g); [|by rewrite !andb_false_r in Hg].
  csimpl. by rewrite IH.
Qed.

Lemma base_games_query_length (teams : gset string) (db : Database)
    (start_date end_date : option Z) :
  online db = true →
  ∃ games_df,
    base_games_query teams db start_date end_date = Ok games_df
    ∧ length games_df
      = length (filter (λ g, base_games_where teams start_date end_date g) (games db)).
Proof.
  intros Hon. unfold base_games_query, get_connection. rewrite Hon. simpl.
  eexists. split; [done|]. rewrite base_games_select_length.
  - unfold order_by_game_date. by rewrite merge_sort_Permutation.
  - unfold order_by_game_date. rewrite merge_sort_Permutation.
    apply Forall_forall. intros g Hg. apply list_elem_of_filter in Hg as [Hg _].
    apply Is_true_true in Hg. unfold base_games_where in Hg.
    repeat (apply andb_true_iff in Hg as [Hg ?]). done.
Qed.

Lemma elements_nonempty (S : gset string) (k : string) :
  k ∈ S → FeatureEngineer.is_nil (elements S) = false.
Proof.
  intros Hk. apply elem_of_elements in Hk.
  destruct (elements S); [by apply elem_of_nil in Hk | done].
Qed.

Lemma prepare_training_data_size (teams : gset string) (db : Database)
    (start_date end_date : option Z) :
  ∃ df,
    prepare_training_data np_std teams db start_date end_date = Ok df
    ∧ (online db = false → df = DataFrame_new)
    ∧ (online db = true →
       length (rows df)
       = length (filter (λ g, base_games_where teams start_date end_date g) (games db))
       ∧ (rows df ≠ [] →
          ∀ k, k ∈ feature_keys ∪ label_keys → k ∈ columns df))
    ∧ (df_empty df = false ↔
       online db = true
       ∧ filter (λ g, base_games_where teams start_date end_date g) (games db) ≠ []).
Proof.
  destruct (prepare_training_data_rows np_std teams db start_date end_date)
    as (df & Hdf & Hoff & Hrows).
  exists df. split; [exact Hdf|]. split; [exact Hoff|].
  destruct (online db) eqn:Hon.
  - destruct (base_games_query_length teams db start_date end_date Hon)
      as (games_df & Hq & Hlen).
    destruct (Hrows games_df Hq) as (records & Hall & Hr & Hc).
    assert (Hrl : length (rows df) = length games_df).
    { rewrite Hr, length_fmap. symmetry. by eapply Forall2_length. }
    assert (Hcols : rows df ≠ [] → ∀ k, k ∈ feature_keys ∪ label_keys → k ∈ columns df).
    { intros Hne k Hk.
      destruct games_df as [|game rest] eqn:Eg.
      { exfalso. apply Hne. by apply nil_length_inv. }
      rewrite Hc by done. apply elem_of_elements.
      apply Forall2_cons_inv_l in Hall as (record & records' & Hrec & _ & ->).
      csimpl. apply elem_of_union. left.
      destruct (training_record_labels np_std db game) as (f & _ & Hd & Hrec').
      rewrite Hrec' in Hrec. injection Hrec as <-.
      unfold add_labels. rewrite !dom_insert_L, dom_fmap_L, Hd.
      unfold label_keys in Hk. set_solver. }
    split; [intros _; split; [by rewrite Hrl | exact Hcols]|].
    unfold df_empty. split.
    + intros He. split; [done|]. intros Hnil. rewrite Hnil in Hlen. simpl in Hlen.
      rewrite <- Hrl in Hlen. destruct (rows df); [|discriminate].
      by rewrite orb_true_r in He.
    + intros [_ Hne].
      assert (Hrne : rows df ≠ []).
      { intros Hnil. rewrite Hnil in Hrl. simpl in Hrl.
        rewrite <- Hrl in Hlen. destruct (filter _ (games db)); [done | discriminate]. }
      assert (Hk : "home_win" ∈ columns df) by (apply Hcols; [done | compute_done]).
      destruct (rows df); [done|]. destruct (columns df); [|done].
      by apply elem_of_nil in Hk.
  - rewrite (Hoff eq_refl). split; [done|]. split; [discriminate|]. by intros [? _].
Qed.

End TrainingSetSize.

(** X10: [prepare_training_data] never raises.  With a store that can be
    read it returns one row per completed game with both scores and both
    teams known that falls in the date range, and every feature and label
    name is a column; the corpus is empty exactly when the store cannot be
    read or there is no such game. *)
Theorem prepare_training_data_shape (np_std : list Z → Q) (teams : gset string)
    (db : Database) (start_date end_date : option Z) :
  ∃ df,
    FeatureEngineerTraining.prepare_training_data np_std teams db start_date end_date
    = Ok df
    ∧ (online db = false → df = DataFrame_new)
    ∧ (online db = true →
       length (rows df)
       = length (filter (λ g, FeatureEngineerTraining.base_games_where teams
                                start_date end_date g) (games db))
       ∧ (rows df ≠ [] →
          ∀ k, k ∈ feature_keys ∪ label_keys → k ∈ columns df))
    ∧ (df_empty df = false ↔
       online db = true
       ∧ filter (λ g, FeatureEngineerTraining.base_games_where teams
                        start_date end_date g) (games db) ≠ []).
Proof. apply prepare_training_data_size. Qed.


(** ** Training and querying one model *)

Ltac train_returns_false :=
  do 2 eexists; split; [reflexivity|]; split; [discriminate | by intros _].

Lemma outcome_train_state (sk : Sklearn) (data : DataFrame) (self : GameOutcomePredictor.t) :
  ∃ b self',
    GameOutcomePredictor.train sk data self = (Ok b, self')
    ∧ (b = true →
       GameOutcomePredictor.is_trained self' = true
       ∧ (∃ X y fitted, classifier_fit sk (RandomForestClassifier sk) X y = Ok fitted
                        ∧ GameOutcomePredictor.model self' = Some fitted)
       ∧ (∃ X, scaler_fit sk X = Ok (GameOutcomePredictor.scaler self'))
       ∧ df_empty data = false ∧ "home_win" ∈ columns data)
    ∧ (b = false →
       GameOutcomePredictor.is_trained self' = GameOutcomePredictor.is_trained self).
Proof.
  unfold GameOutcomePredictor.train, try_except.
  destruct (df_empty data) eqn:E1; simpl; [train_returns_false|].
  case_bool_decide as E2; simpl; [|train_returns_false].
  unfold bind, GameOutcomePredictor.prepare_features, get, put, ret, lift. simpl.
  destruct (df_empty (select_fillna _ _)) eqn:E3; simpl; [train_returns_false|].
  destruct (train_test_split sk _ _) as [[[[X_train X_test] y_train] y_test]|e];
    simpl; [|train_returns_false].
  destruct (scaler_fit sk X_train) as [sc|e] eqn:Esc; simpl; [|train_returns_false].
  destruct (transform sc X_train) as [Xs|e]; simpl; [|train_returns_false].
  destruct (transform sc X_test) as [Xt|e]; simpl; [|train_returns_false].
  destruct (classifier_fit sk _ Xs y_train) as [fitted|e] eqn:Efit; simpl;
    [|train_returns_false].
  destruct (classifier_score sk fitted Xs y_train) as [a1|e]; simpl; [|train_returns_false].
  destruct (classifier_score sk fitted Xt y_test) as [a2|e]; simpl; [|train_returns_false].
  destruct (cross_val_score sk fitted Xs y_train) as [cv|e]; simpl; [|train_returns_false].
  do 2 eexists. split; [reflexivity|]. split; [|discriminate]. intros _. simpl.
  split; [done|]. split; [by eauto|]. split; [by eauto|]. done.
Qed.

Lemma spread_train_state (sk : Sklearn) (data : DataFrame) (self : SpreadPredictor.t) :
  ∃ b self',
    SpreadPredictor.train sk data self = (Ok b, self')
    ∧ (b = true →
       SpreadPredictor.is_trained self' = true
       ∧ (∃ X y fitted, regressor_fit sk (GradientBoostingRegressor sk) X y = Ok fitted
                        ∧ SpreadPredictor.model self' = Some fitted)
       ∧ (∃ X, scaler_fit sk X = Ok (SpreadPredictor.scaler self'))
       ∧ df_empty data = false ∧ "point_spread" ∈ columns data)
    ∧ (b = false →
       SpreadPredictor.is_trained self' = SpreadPredictor.is_trained self).
Proof.
  unfold SpreadPredictor.train, try_except.
  destruct (df_empty data) eqn:E1; simpl; [train_returns_false|].
  case_bool_decide as E2; simpl; [|train_returns_false].
  unfold bind, SpreadPredictor.prepare_features, get, put, ret, lift. simpl.
  destruct (df_empty (select_fillna _ _)) eqn:E3; simpl; [train_returns_false|].
  destruct (train_test_split sk _ _) as [[[[X_train X_test] y_train] y_test]|e];
    simpl; [|train_returns_false].
  destruct (scaler_fit sk X_train) as [sc|e] eqn:Esc; simpl; [|train_returns_false].
  destruct (transform sc X_train) as [Xs|e]; simpl; [|train_returns_false].
  destruct (transform sc X_test) as [Xt|e]; simpl; [|train_returns_false].
  destruct (regressor_fit sk _ Xs y_train) as [fitted|e] eqn:Efit; simpl;
    [|train_returns_false].
  destruct (predict_values fitted Xs) as [p1|e]; simpl; [|train_returns_false].
  destruct (predict_values fitted Xt) as [p2|e]; simpl; [|train_returns_false].
  destruct (mean_absolute_error sk y_train p1) as [m1|e]; simpl; [|train_returns_false].
  destruct (mean_absolute_error sk y_test p2) as [m2|e]; simpl; [|train_returns_false].
  do 2 eexists. split; [reflexivity|]. split; [|discriminate]. intros _. simpl.
  split; [done|]. split; [by eauto|]. split; [by eauto|]. done.
Qed.

Lemma total_train_state (sk : Sklearn) (data : DataFrame) (self : TotalPointsPredictor.t) :
  ∃ b self',
    TotalPointsPredictor.train sk data self = (Ok b, self')
    ∧ (b = true →
       TotalPointsPredictor.is_trained self' = true
       ∧ (∃ X y fitted, regressor_fit sk (RandomForestRegressor sk) X y = Ok fitted
                        ∧ TotalPointsPredictor.model self' = Some fitted)
       ∧ (∃ X, scaler_fit sk X = Ok (TotalPointsPredictor.scaler self'))
       ∧ df_empty data = false ∧ "total_points" ∈ columns data)
    ∧ (b = false →
       TotalPointsPredictor.is_trained self' = TotalPointsPredictor.is_trained self).
Proof.
  unfold TotalPointsPredictor.train, try_except.
  destruct (df_empty data) eqn:E1; simpl; [train_returns_false|].
  case_bool_decide as E2; simpl; [|train_returns_false].
  unfold bind, TotalPointsPredictor.prepare_features, get, put, ret, lift. simpl.
  destruct (df_empty (select_fillna _ _)) eqn:E3; simpl; [train_returns_false|].
  destruct (train_test_split sk _ _) as [[[[X_train X_test] y_train] y_test]|e];
    simpl; [|train_returns_false].
  destruct (scaler_fit sk X_train) as [sc|e] eqn:Esc; simpl; [|train_returns_false].
  destruct (transform sc X_train) as [Xs|e]; simpl; [|train_returns_false].
  destruct (transform sc X_test) as [Xt|e]; simpl; [|train_returns_false].
  destruct (regressor_fit sk _ Xs y_train) as [fitted|e] eqn:Efit; simpl;
    [|train_returns_false].
  destruct (predict_values fitted Xs) as [p1|e]; simpl; [|train_returns_false].
  destruct (predict_values fitted Xt) as [p2|e]; simpl; [|train_returns_false].
  destruct (mean_absolute_error sk y_train p1) as [m1|e]; simpl; [|train_returns_false].
  destruct (mean_absolute_error sk y_test p2) as [m2|e]; simpl; [|train_returns_false].
  do 2 eexists. split; [reflexivity|]. split; [|discriminate]. intros _. simpl.
  split; [done|]. split; [by eauto|]. split; [by eauto|]. done.
Qed.

(** X11: [train] of each of the three models never raises, and what it
    returns tells the state it leaves.  After True the model is marked
    trained and holds an estimator and a scaler that scikit-learn fitted,
    and the corpus was not empty and had the label column.  After False
    the trained flag is what it was before the call. *)
Theorem train_result_tells_state (sk : Sklearn) (data : DataFrame)
    (outcome : GameOutcomePredictor.t) (spread : SpreadPredictor.t)
    (total : TotalPointsPredictor.t) :
  (∃ b self',
     GameOutcomePredictor.train sk data outcome = (Ok b, self')
     ∧ (b = true →
        GameOutcomePredictor.is_trained self' = true
        ∧ (∃ X y fitted, classifier_fit sk (RandomForestClassifier sk) X y = Ok fitted
                         ∧ GameOutcomePredictor.model self' = Some fitted)
        ∧ (∃ X, scaler_fit sk X = Ok (GameOutcomePredictor.scaler self'))
        ∧ df_empty data = false ∧ "home_win" ∈ columns data)
     ∧ (b = false →
        GameOutcomePredictor.is_trained self' = GameOutcomePredictor.is_trained outcome))
  ∧ (∃ b self',
       SpreadPredictor.train sk data spread = (Ok b, self')
       ∧ (b = true →
          SpreadPredictor.is_trained self' = true
          ∧ (∃ X y fitted, regressor_fit sk (GradientBoostingRegressor sk) X y = Ok fitted
                           ∧ SpreadPredictor.model self' = Some fitted)
          ∧ (∃ X, scaler_fit sk X = Ok (SpreadPredictor.scaler self'))
          ∧ df_empty data = false ∧ "point_spread" ∈ columns data)
       ∧ (b = false →
          SpreadPredictor.is_trained self' = SpreadPredictor.is_trained spread))
  ∧ (∃ b self',
       TotalPointsPredictor.train sk data total = (Ok b, self')
       ∧ (b = true →
          TotalPointsPredictor.is_trained self' = true
          ∧ (∃ X y fitted, regressor_fit sk (RandomForestRegressor sk) X y = Ok fitted
                           ∧ TotalPointsPredictor.model self' = Some fitted)
          ∧ (∃ X, scaler_fit sk X = Ok (TotalPointsPredictor.scaler self'))
          ∧ df_empty data = false ∧ "total_points" ∈ columns data)
       ∧ (b = false →
          TotalPointsPredictor.is_trained self' = TotalPointsPredictor.is_trained total)).
Proof.
  split; [apply outcome_train_state|].
  split; [apply spread_train_state | apply total_train_state].
Qed.

(** X12: [train] is not atomic.  When fitting the classifier raises after
    the split and the scaler succeeded, [train] returns False but the
    model now holds the new scaler and the unfitted estimator, and keeps
    its trained flag: a model that was trained before then predicts
    through an estimator that was never fitted, and answers with the
    fallback. *)
Theorem failed_retraining_replaces_model (sk : Sklearn) (data : DataFrame)
    (self : GameOutcomePredictor.t) (X_train X_test : Matrix)
    (y_train y_test : list (option Q)) (sc : StandardScaler) (Xs Xt : Matrix) (e : exn) :
  let available_cols :=
    filter (λ col, col ∈ columns data) GameOutcomePredictor.feature_cols in
  let X := select_fillna data available_cols in
  df_empty data = false →
  "home_win" ∈ columns data →
  df_empty X = false →
  train_test_split sk (to_numpy X) (column data "home_win")
  = Ok (X_train, X_test, y_train, y_test) →
  scaler_fit sk X_train = Ok sc →
  transform sc X_train = Ok Xs →
  transform sc X_test = Ok Xt →
  classifier_fit sk (RandomForestClassifier sk) Xs y_train = Raise e →
  ∃ self',
    GameOutcomePredictor.train sk data self = (Ok false, self')
    ∧ GameOutcomePredictor.model self' = Some (RandomForestClassifier sk)
    ∧ GameOutcomePredictor.scaler self' = sc
    ∧ GameOutcomePredictor.is_trained self' = GameOutcomePredictor.is_trained self
    ∧ (GameOutcomePredictor.is_trained self = true →
       (∀ M, predict_proba (RandomForestClassifier sk) M = Raise NotFittedError) →
       ∀ features,
         run (GameOutcomePredictor.predict features) self'
         = Ok GameOutcomePredictor.fallback).
Proof.
  intros available_cols X E1 E2 E3 Hsplit Hsc Hxs Hxt Hfit.
  unfold GameOutcomePredictor.train, try_except.
  rewrite E1. rewrite (bool_decide_eq_true_2 _ E2). simpl.
  unfold bind, GameOutcomePredictor.prepare_features, get, put, ret, lift. simpl.
  fold available_cols. fold X. rewrite E3, Hsplit. simpl.
  rewrite Hsc. simpl. rewrite Hxs, Hxt. simpl. rewrite Hfit.
  eexists. split; [reflexivity|]. simpl. split; [done|]. split; [done|]. split; [done|].
  intros Ht Hunfitted features.
  unfold run, GameOutcomePredictor.predict, bind, get. simpl. rewrite Ht. simpl.
  unfold try_except, bind, GameOutcomePredictor.prepare_features, get, put, ret, lift.
  simpl. destruct (transform sc (to_numpy _)) as [M|e']; simpl; [|done].
  by rewrite Hunfitted.
Qed.

(** The trained sample model, retrained on a one-game corpus with a
    scikit-learn whose fit fails. *)
Lemma failed_retraining_replaces_model_witness :
  ∃ self',
    GameOutcomePredictor.train sample_sklearn_fit_fails sample_corpus sample_outcome_model
    = (Ok false, self')
    ∧ GameOutcomePredictor.model self'
      = Some (RandomForestClassifier sample_sklearn_fit_fails)
    ∧ GameOutcomePredictor.scaler self' = sample_scaler
    ∧ GameOutcomePredictor.is_trained self'
      = GameOutcomePredictor.is_trained sample_outcome_model
    ∧ (GameOutcomePredictor.is_trained sample_outcome_model = true →
       (∀ M, predict_proba (RandomForestClassifier sample_sklearn_fit_fails) M
             = Raise NotFittedError) →
       ∀ features,
         run (GameOutcomePredictor.predict features) self'
         = Ok GameOutcomePredictor.fallback).
Proof.
  apply (failed_retraining_replaces_model sample_sklearn_fit_fails sample_corpus
           sample_outcome_model [[110.0]] [] [Some 1] [] sample_scaler [[110.0]] []
           ValueError).
  - reflexivity.
  - compute_done.
  - vm_compute. reflexivity.
  - vm_compute. reflexivity.
  - reflexivity.
  - reflexivity.
  - reflexivity.
  - reflexivity.
Defined.

(** Before the failed retraining the sample model gives the home team
    70%; after it, the fallback 50%. *)
Example failed_retraining_loses_predictions :
  returned (run (GameOutcomePredictor.predict sample_features) sample_outcome_model)
    "home_win_probability" = Some 0.7
  ∧ returned
      (run (GameOutcomePredictor.predict sample_features)
         (exec (GameOutcomePredictor.train sample_sklearn_fit_fails sample_corpus)
            sample_outcome_model))
      "home_win_probability" = Some 0.5.
Proof. split; vm_compute; reflexivity. Qed.

Ltac replay :=
  repeat (simpl; match goal with H : ?x = _ |- context [?x] => rewrite H end);
  simpl; try done.

Lemma outcome_predict_stable (features : DataFrame) (self : GameOutcomePredictor.t) :
  let self' := exec (GameOutcomePredictor.predict features) self in
  GameOutcomePredictor.predict features self'
  = (run (GameOutcomePredictor.predict features) self, self')
  ∧ GameOutcomePredictor.model self' = GameOutcomePredictor.model self
  ∧ GameOutcomePredictor.scaler self' = GameOutcomePredictor.scaler self
  ∧ GameOutcomePredictor.is_trained self' = GameOutcomePredictor.is_trained self.
Proof.
  unfold exec, run, GameOutcomePredictor.predict, bind, get.
  destruct (GameOutcomePredictor.model self) as [m|] eqn:Em; simpl; [|by replay].
  destruct (GameOutcomePredictor.is_trained self) eqn:Et; simpl; [|by replay].
  unfold try_except, bind, GameOutcomePredictor.prepare_features, get, put, ret, lift.
  simpl.
  destruct (transform _ _) as [Xs|e] eqn:Ex; simpl; [|by replay].
  destruct (predict_proba m Xs) as [P|e] eqn:EP; simpl; [|by replay].
  destruct (getindex P 0) as [first|e] eqn:Ef; simpl; [|by replay].
  destruct (bool_decide (1 < length first)%nat) eqn:Hlen; simpl; [|by replay].
  destruct (getindex first 1) as [p|e] eqn:Ep; by replay.
Qed.

Lemma spread_predict_stable (features : DataFrame) (self : SpreadPredictor.t) :
  let self' := exec (SpreadPredictor.predict features) self in
  SpreadPredictor.predict features self'
  = (run (SpreadPredictor.predict features) self, self')
  ∧ SpreadPredictor.model self' = SpreadPredictor.model self
  ∧ SpreadPredictor.scaler self' = SpreadPredictor.scaler self
  ∧ SpreadPredictor.is_trained self' = SpreadPredictor.is_trained self.
Proof.
  unfold exec, run, SpreadPredictor.predict, bind, get.
  destruct (SpreadPredictor.model self) as [m|] eqn:Em; simpl; [|by replay].
  destruct (SpreadPredictor.is_trained self) eqn:Et; simpl; [|by replay].
  unfold try_except, bind, SpreadPredictor.prepare_features, get, put, ret, lift.
  simpl.
  destruct (transform _ _) as [Xs|e] eqn:Ex; simpl; [|by replay].
  destruct (predict_values m Xs) as [P|e] eqn:EP; simpl; [|by replay].
  destruct (getindex P 0) as [v|e] eqn:Ef; by replay.
Qed.

Lemma total_predict_stable (features : DataFrame) (self : TotalPointsPredictor.t) :
  let self' := exec (TotalPointsPredictor.predict features) self in
  TotalPointsPredictor.predict features self'
  = (run (TotalPointsPredictor.predict features) self, self')
  ∧ TotalPointsPredictor.model self' = TotalPointsPredictor.model self
  ∧ TotalPointsPredictor.scaler self' = TotalPointsPredictor.scaler self
  ∧ TotalPointsPredictor.is_trained self' = TotalPointsPredictor.is_trained self.
Proof.
  unfold exec, run, TotalPointsPredictor.predict, bind, get.
  destruct (TotalPointsPredictor.model self) as [m|] eqn:Em; simpl; [|by replay].
  destruct (TotalPointsPredictor.is_trained self) eqn:Et; simpl; [|by replay].
  unfold try_except, bind, TotalPointsPredictor.prepare_features, get, put, ret, lift.
  simpl.
  destruct (transform _ _) as [Xs|e] eqn:Ex; simpl; [|by replay].
  destruct (predict_values m Xs) as [P|e] eqn:EP; simpl; [|by replay].
  destruct (getindex P 0) as [v|e] eqn:Ef; by replay.
Qed.

(** X13: [predict] of each of the three models leaves the estimator, the
    scaler and the trained flag as they are, and asking again for the
    same features gives the same answer and no further change of the
    model. *)
Theorem predict_repeatable (features : DataFrame)
    (outcome : GameOutcomePredictor.t) (spread : SpreadPredictor.t)
    (total : TotalPointsPredictor.t) :
  (let self' := exec (GameOutcomePredictor.predict features) outcome in
   GameOutcomePredictor.predict features self'
   = (run (GameOutcomePredictor.predict features) outcome, self')
   ∧ GameOutcomePredictor.model self' = GameOutcomePredictor.model outcome
   ∧ GameOutcomePredictor.scaler self' = GameOutcomePredictor.scaler outcome
   ∧ GameOutcomePredictor.is_trained self' = GameOutcomePredictor.is_trained outcome)
  ∧ (let self' := exec (SpreadPredictor.predict features) spread in
     SpreadPredictor.predict features self'
     = (run (SpreadPredictor.predict features) spread, self')
     ∧ SpreadPredictor.model self' = SpreadPredictor.model spread
     ∧ SpreadPredictor.scaler self' = SpreadPredictor.scaler spread
     ∧ SpreadPredictor.is_trained self' = SpreadPredictor.is_trained spread)
  ∧ (let self' := exec (TotalPointsPredictor.predict features) total in
     TotalPointsPredictor.predict features self'
     = (run (TotalPointsPredictor.predict features) total, self')
     ∧ TotalPointsPredictor.model self' = TotalPointsPredictor.model total
     ∧ TotalPointsPredictor.scaler self' = TotalPointsPredictor.scaler total
     ∧ TotalPointsPredictor.is_trained self' = TotalPointsPredictor.is_trained total).
Proof.
  split; [apply outcome_predict_stable|].
  split; [apply spread_predict_stable | apply total_predict_stable].
Qed.

(** ** Feature selection *)

Lemma fillna_lookup (r : gmap string Q) (cols : list string) (c : string) :
  (list_to_map ((λ c, (c, default 0 (r !! c))) <$> cols) : gmap string Q) !! c
  = if bool_decide (c ∈ cols) then Some (default 0 (r !! c)) else None.
Proof.
  induction cols as [|c' cols IH]; csimpl; [done|].
  destruct (decide (c = c')) as [->|Hne].
  - rewrite lookup_insert_eq. rewrite bool_decide_eq_true_2; [done | by left].
  - rewrite lookup_insert_ne by done. rewrite IH.
    destruct (decide (c ∈ cols)) as [Hin|Hin].
    + rewrite !bool_decide_eq_true_2; [done | by right | done].
    + rewrite !bool_decide_eq_false_2; [done | | done].
      intros [?|?]%elem_of_cons; done.
Qed.

Lemma select_fillna_selects (df : DataFrame) (cols : list string) :
  selects df cols (select_fillna df (filter (λ col, col ∈ columns df) cols)).
Proof.
  unfold selects, select_fillna. simpl. split; [|split].
  - intros c. by rewrite list_elem_of_filter, (comm and).
  - by rewrite length_fmap.
  - intros i row Hrow. rewrite list_lookup_fmap in Hrow.
    destruct (rows df !! i) as [orig|]; [|done]. injection Hrow as <-.
    exists orig. split; [done|]. intros c. rewrite fillna_lookup.
    split; intros Hc.
    + by rewrite bool_decide_eq_true_2.
    + by rewrite bool_decide_eq_false_2.
Qed.

Lemma outcome_cols_features (c : string) :
  c ∈ GameOutcomePredictor.feature_cols → c ∈ feature_keys ∧ c ∉ label_keys.
Proof.
  intros Hc. assert (Hk : c ∈ feature_keys).
  { revert c Hc. apply Forall_forall. compute_done. }
  split; [done | by apply feature_not_label].
Qed.

Lemma spread_cols_features (c : string) :
  c ∈ SpreadPredictor.feature_cols → c ∈ feature_keys ∧ c ∉ label_keys.
Proof.
  intros Hc. assert (Hk : c ∈ feature_keys).
  { revert c Hc. apply Forall_forall. compute_done. }
  split; [done | by apply feature_not_label].
Qed.

Lemma total_cols_features (c : string) :
  c ∈ TotalPointsPredictor.feature_cols → c ∈ feature_keys ∧ c ∉ label_keys.
Proof.
  intros Hc. assert (Hk : c ∈ feature_keys).
  { revert c Hc. apply Forall_forall. compute_done. }
  split; [done | by apply feature_not_label].
Qed.

(** X14: [prepare_features] of each model returns the frame cut down to
    those of the model's columns that the input has, in as many rows,
    with every cell present (a missing one is 0) and nothing else in a
    row.  Every column it keeps is an engineered feature and none is a
    target variable or the id or date of the game, whatever columns the
    input has.  The method records the kept columns and changes nothing
    else of the model. *)
Theorem prepare_features_keeps_no_label (df : DataFrame)
    (outcome : GameOutcomePredictor.t) (spread : SpreadPredictor.t)
    (total : TotalPointsPredictor.t) :
  (∃ X self',
     GameOutcomePredictor.prepare_features df outcome = (Ok X, self')
     ∧ selects df GameOutcomePredictor.feature_cols X
     ∧ (∀ c, c ∈ columns X → c ∈ feature_keys ∧ c ∉ label_keys)
     ∧ self' = GameOutcomePredictor.set_feature_columns (Some (columns X)) outcome)
  ∧ (∃ X self',
       SpreadPredictor.prepare_features df spread = (Ok X, self')
       ∧ selects df SpreadPredictor.feature_cols X
       ∧ (∀ c, c ∈ columns X → c ∈ feature_keys ∧ c ∉ label_keys)
       ∧ self' = SpreadPredictor.set_feature_columns (Some (columns X)) spread)
  ∧ (∃ X self',
       TotalPointsPredictor.prepare_features df total = (Ok X, self')
       ∧ selects df TotalPointsPredictor.feature_cols X
       ∧ (∀ c, c ∈ columns X → c ∈ feature_keys ∧ c ∉ label_keys)
       ∧ self' = TotalPointsPredictor.set_feature_columns (Some (columns X)) total).
Proof.
  split; [|split]; do 2 eexists; (split; [reflexivity|]);
    (split; [apply select_fillna_selects|]); (split; [|reflexivity]);
    intros c [_ Hc]%list_elem_of_filter.
  - by apply outcome_cols_features.
  - by apply spread_cols_features.
  - by apply total_cols_features.
Qed.

Lemma filter_all {A} (P : A → Prop) `{!∀ x, Decision (P x)} (l : list A) :
  Forall P l → filter P l = l.
Proof.
  induction 1 as [|x l Hx _ IH]; [done|].
  by rewrite filter_cons_True, IH.
Qed.

Lemma columns_of_dict (d : gmap string Q) (c : string) :
  c ∈ columns (DataFrame_of_dict d) ↔ c ∈ dom d.
Proof.
  unfold DataFrame_of_dict. simpl. rewrite elem_of_dom, list_elem_of_fmap. split.
  - intros ([k v] & -> & Hkv). apply elem_of_map_to_list in Hkv. by exists v.
  - intros [v Hv]. exists (c, v). split; [done|]. by apply elem_of_map_to_list.
Qed.

Lemma to_numpy_select_fillna (d : gmap string Q) (cols : list string) :
  to_numpy (select_fillna (DataFrame_of_dict d) cols)
  = [ (λ c, default 0 (d !! c)) <$> cols ].
Proof.
  unfold to_numpy, select_fillna, DataFrame_of_dict. csimpl. f_equal.
  apply Forall_fmap_ext_1, Forall_forall. intros c Hc. rewrite fillna_lookup.
  by rewrite bool_decide_eq_true_2.
Qed.

Lemma engineered_matrix (d : gmap string Q) (cols : list string) :
  dom d = feature_keys → Forall (λ c, c ∈ feature_keys) cols →
  let X := select_fillna (DataFrame_of_dict d)
             (filter (λ col, col ∈ columns (DataFrame_of_dict d)) cols) in
  columns X = cols ∧ to_numpy X = [ (λ c, default 0 (d !! c)) <$> cols ].
Proof.
  intros Hd Hcols X. unfold X. rewrite filter_all.
  - split; [done | apply to_numpy_select_fillna].
  - eapply Forall_impl; [exact Hcols|]. intros c Hc. simpl.
    apply columns_of_dict. by rewrite Hd.
Qed.

(** X15: every column the three models ask for is one
    [create_game_features] produces.  On the one-row frame [predict_game]
    builds from the features of a matchup, [prepare_features] therefore
    keeps each model's full column list, in its order, and the row handed
    to the scaler holds the engineered value of each column: no feature
    is dropped or replaced by the fill value 0. *)
Theorem models_receive_engineered_features (np_std : list Z → Q) (db : Database)
    (home_team_id away_team_id : string)
    (outcome : GameOutcomePredictor.t) (spread : SpreadPredictor.t)
    (total : TotalPointsPredictor.t) :
  ∃ features,
    FeatureEngineer.create_game_features np_std db home_team_id away_team_id
    = Ok features
    ∧ (∀ c, c ∈ GameOutcomePredictor.feature_cols ++ SpreadPredictor.feature_cols
                ++ TotalPointsPredictor.feature_cols → is_Some (features !! c))
    ∧ (∃ X, run (GameOutcomePredictor.prepare_features (DataFrame_of_dict features)) outcome
            = Ok X
            ∧ columns X = GameOutcomePredictor.feature_cols
            ∧ to_numpy X
              = [ (λ c, default 0 (features !! c)) <$> GameOutcomePredictor.feature_cols ])
    ∧ (∃ X, run (SpreadPredictor.prepare_features (DataFrame_of_dict features)) spread
            = Ok X
            ∧ columns X = SpreadPredictor.feature_cols
            ∧ to_numpy X
              = [ (λ c, default 0 (features !! c)) <$> SpreadPredictor.feature_cols ])
    ∧ (∃ X, run (TotalPointsPredictor.prepare_features (DataFrame_of_dict features)) total
            = Ok X
            ∧ columns X = TotalPointsPredictor.feature_cols
            ∧ to_numpy X
              = [ (λ c, default 0 (features !! c)) <$> TotalPointsPredictor.feature_cols ]).
Proof.
  destruct (create_game_features_total np_std db home_team_id away_team_id)
    as (hs & aws & hh & _ & _ & _ & Hf).
  pose proof (features_of_dom hs aws hh) as Hd.
  exists (features_of hs aws hh). split; [exact Hf|].
  assert (Ho : Forall (λ c, c ∈ feature_keys) GameOutcomePredictor.feature_cols).
  { apply Forall_forall. intros c Hc. by apply outcome_cols_features. }
  assert (Hs : Forall (λ c, c ∈ feature_keys) SpreadPredictor.feature_cols).
  { apply Forall_forall. intros c Hc. by apply spread_cols_features. }
  assert (Ht : Forall (λ c, c ∈ feature_keys) TotalPointsPredictor.feature_cols).
  { apply Forall_forall. intros c Hc. by apply total_cols_features. }
  split.
  - intros c Hc. apply elem_of_dom. rewrite Hd.
    apply elem_of_app in Hc as [Hc|Hc]; [by apply outcome_cols_features|].
    apply elem_of_app in Hc as [Hc|Hc];
      [by apply spread_cols_features | by apply total_cols_features].
  - split; [|split]; eexists; (split; [reflexivity|]).
    + by apply engineered_matrix.
    + by apply engineered_matrix.
    + by apply engineered_matrix.
Qed.

(** ** Confidence as a function of the prediction *)

Ltac split_min_max :=
  unfold py_min;
  repeat match goal with
         | |- context [Qltb ?a ?b] =>
             let E := fresh "E" in
             destruct (Qltb a b) eqn:E; [apply Qltb_lt in E | apply Qltb_ge in E]
         end;
  unfold py_max;
  repeat match goal with
         | |- context [Qltb ?a ?b] =>
             let E := fresh "E" in
             destruct (Qltb a b) eqn:E; [apply Qltb_lt in E | apply Qltb_ge in E]
         end.

Lemma spread_confidence_shape (v : Q) :
  (Qabs v <= 16 → py_min 0.8 (Qabs v / 20.0) == Qabs v / 20)
  ∧ (16 <= Qabs v → py_min 0.8 (Qabs v / 20.0) == 0.8).
Proof.
  assert (Hd : Qabs v / 20.0 == Qabs v * (1 # 20)) by (field; discriminate).
  assert (Hd' : Qabs v / 20 == Qabs v * (1 # 20)) by (field; discriminate).
  revert Hd Hd'. generalize (Qabs v / 20.0), (Qabs v / 20), (Qabs v).
  intros q q' a Hd Hd'. split; intros H; split_min_max; lra.
Qed.

Lemma total_confidence_shape (v : Q) :
  let off := Qabs (v - 220) in
  let c := py_max 0.1 (py_min 0.8 (1.0 - off / 100.0)) in
  (off <= 20 → c == 0.8)
  ∧ (20 <= off → off <= 90 → c == 1 - off / 100)
  ∧ (90 <= off → c == 0.1).
Proof.
  cbv zeta.
  assert (Hd : Qabs (v - 220) / 100.0 == Qabs (v - 220) * (1 # 100))
    by (field; discriminate).
  assert (Hd' : Qabs (v - 220) / 100 == Qabs (v - 220) * (1 # 100))
    by (field; discriminate).
  revert Hd Hd'.
  generalize (Qabs (v - 220) / 100.0), (Qabs (v - 220) / 100), (Qabs (v - 220)).
  intros q q' a Hd Hd'.
  split; [|split]; intros; split_min_max; lra.
Qed.

(** X16: how the reported confidence depends on the prediction.  The
    spread confidence is |spread| / 20 up to a spread of 16 points and
    0.8 from there on.  The total confidence of a trained model is 0.8
    while the predicted total is within 20 points of 220, then falls by
    0.01 per point, and is 0.1 from 90 points away; the fallback total of
    220 alone comes with confidence 0. *)
Theorem confidence_saturates (features : DataFrame)
    (spread : SpreadPredictor.t) (total : TotalPointsPredictor.t) :
  (∃ d self' v c,
     SpreadPredictor.predict features spread = (Ok d, self')
     ∧ d !! "predicted_spread" = Some v
     ∧ d !! "confidence" = Some c
     ∧ (Qabs v <= 16 → c == Qabs v / 20)
     ∧ (16 <= Qabs v → c == 0.8))
  ∧ (∃ d self' v c,
       TotalPointsPredictor.predict features total = (Ok d, self')
       ∧ d !! "predicted_total" = Some v
       ∧ d !! "confidence" = Some c
       ∧ (d = TotalPointsPredictor.fallback ∧ v == 220 ∧ c == 0
          ∨ (Qabs (v - 220) <= 20 → c == 0.8)
            ∧ (20 <= Qabs (v - 220) → Qabs (v - 220) <= 90 → c == 1 - Qabs (v - 220) / 100)
            ∧ (90 <= Qabs (v - 220) → c == 0.1))).
Proof.
  split.
  - destruct (spread_predict_cases features spread)
      as (d & self' & Hd & [-> | (v & _ & ->)]).
    + exists SpreadPredictor.fallback, self', 0.0, 0.0.
      split; [done|]. split; [done|]. split; [done|].
      split; [intros _; reflexivity | intros H; exfalso; apply H; reflexivity].
    + eexists. exists self', v, (py_min 0.8 (Qabs v / 20.0)).
      split; [done|]. split; [done|]. split; [done|]. apply spread_confidence_shape.
  - destruct (total_predict_cases features total)
      as (d & self' & Hd & [-> | (v & _ & ->)]).
    + exists TotalPointsPredictor.fallback, self', 220.0, 0.0.
      split; [done|]. split; [done|]. split; [done|]. left.
      split; [done|]. split; reflexivity.
    + eexists. exists self', v, (py_max 0.1 (py_min 0.8 (1.0 - Qabs (v - 220) / 100.0))).
      split; [done|]. split; [done|]. split; [done|]. right.
      apply total_confidence_shape.
Qed.

(** ** Saved models *)

Section SavedModels.
Import MLModelManager.

Lemma string_length_app (s t : string) :
  String.length (s +:+ t) = (String.length s + String.length t)%nat.
Proof. induction s as [|c s IH]; simpl; [done | by rewrite IH]. Qed.

Lemma string_app_inj_r (s1 s2 t : string) : s1 +:+ t = s2 +:+ t → s1 = s2.
Proof.
  revert s2. induction s1 as [|c s1 IH]; intros [|c' s2] H; simpl in H.
  - done.
  - apply (f_equal String.length) in H. simpl in H. rewrite !string_length_app in H.
    simpl in H. lia.
  - apply (f_equal String.length) in H. simpl in H. rewrite !string_length_app in H.
    simpl in H. lia.
  - injection H as -> H. f_equal. by apply IH.
Qed.

Lemma model_path_cases (model_name : string) :
  model_path model_name
  = if String.prefix "/" (model_name +:+ ".joblib") then model_name +:+ ".joblib"
    else "ml_models/saved_models/" +:+ (model_name +:+ ".joblib").
Proof. unfold model_path, os_path_join. by destruct (String.prefix _ _). Qed.

Lemma prefix_slash (s : string) :
  String.prefix "/" s = true → ∃ rest, s = "/" +:+ rest.
Proof.
  destruct s as [|c s]; [done|]. cbn [String.prefix].
  match goal with |- context [Ascii.ascii_dec ?a c] => destruct (Ascii.ascii_dec a c) as [<-|] end;
    [by eauto | done].
Qed.

(** Different model names are saved at different paths. *)
Lemma model_path_inj (name1 name2 : string) :
  model_path name1 = model_path name2 → name1 = name2.
Proof.
  rewrite !model_path_cases.
  destruct (String.prefix "/" (name1 +:+ _)) eqn:E1;
    destruct (String.prefix "/" (name2 +:+ _)) eqn:E2; intros H.
  - by apply string_app_inj_r in H.
  - apply prefix_slash in E1 as [rest E1]. rewrite E1 in H. simpl in H. discriminate.
  - apply prefix_slash in E2 as [rest E2]. rewrite E2 in H. simpl in H. discriminate.
  - apply (inj (String.append _)) in H. by apply string_app_inj_r in H.
Qed.

Lemma save_model_cases (model : Pickled) (model_name : string) (disk : Disk) :
  save_model model model_name disk
  = (Ok tt,
     match write_error disk with
     | Some _ => disk
     | None => {| files := <[model_path model_name := model]> (files disk);
                  write_error := write_error disk;
                  read_error := read_error disk |}
     end).
Proof.
  unfold save_model, try_except, bind, get, put, raise, ret.
  by destruct (write_error disk).
Qed.


End SavedModels.




(** ** Training all models *)

Section TrainAllModels.
Import MLModelManager.
Context (np_std : list Z → Q) (sk : Sklearn).

Lemma success_count_positive (o sp t : bool) :
  bool_decide (0 < Nat.b2n o + Nat.b2n sp + Nat.b2n t)%nat = o || sp || t.
Proof. by destruct o, sp, t. Qed.

(** [train_all_models] step by step. *)
Lemma train_all_models_run (teams : gset string) (db : Database)
    (start_date end_date : option Z) (s : t * Disk) :
  ∃ data,
    FeatureEngineerTraining.prepare_training_data np_std teams db start_date end_date
    = Ok data
    ∧ (df_empty data = true →
       train_all_models np_std sk teams db start_date end_date s = (Ok false, s))
    ∧ (df_empty data = false →
       ∃ o mo sp ms tt mt,
         GameOutcomePredictor.train sk data (outcome_model s.1) = (Ok o, mo)
         ∧ SpreadPredictor.train sk data (spread_model s.1) = (Ok sp, ms)
         ∧ TotalPointsPredictor.train sk data (total_model s.1) = (Ok tt, mt)
         ∧ GameOutcomePredictor.is_trained mo
           = o || GameOutcomePredictor.is_trained (outcome_model s.1)
         ∧ SpreadPredictor.is_trained ms
           = sp || SpreadPredictor.is_trained (spread_model s.1)
         ∧ TotalPointsPredictor.is_trained mt
           = tt || TotalPointsPredictor.is_trained (total_model s.1)
         ∧ train_all_models np_std sk teams db start_date end_date s
           = (Ok (o || sp || tt),
              ({| outcome_model := mo; spread_model := ms; total_model := mt |},
               saved tt (PTotal mt) "total_points_model"
                 (saved sp (PSpread ms) "spread_model"
                    (saved o (POutcome mo) "game_outcome_model" s.2))))).
Proof.
  destruct (prepare_training_data_size np_std teams db start_date end_date)
    as (data & Hdata & _).
  exists data. split; [exact Hdata|].
  unfold train_all_models, bind, lift. rewrite Hdata.
  split; intros He; rewrite He; [done|].
  destruct (outcome_train_state sk data (outcome_model s.1)) as (o & mo & Ho & Ho1 & Ho0).
  destruct (spread_train_state sk data (spread_model s.1)) as (sp & ms & Hs & Hs1 & Hs0).
  destruct (total_train_state sk data (total_model s.1)) as (tt & mt & Ht & Ht1 & Ht0).
  exists o, mo, sp, ms, tt, mt. split; [exact Ho|]. split; [exact Hs|]. split; [exact Ht|].
  split; [destruct o; [by apply Ho1 | by apply Ho0]|].
  split; [destruct sp; [by apply Hs1 | by apply Hs0]|].
  split; [destruct tt; [by apply Ht1 | by apply Ht0]|].
  unfold zoom, get, ret. simpl. rewrite Ho. simpl. rewrite Hs. simpl. rewrite Ht. simpl.
  rewrite success_count_positive. unfold saved, exec.
  destruct s as [m disk]. simpl.
  destruct o, sp, tt; simpl;
    repeat (rewrite save_model_cases; simpl); reflexivity.
Qed.

Lemma saved_failing (b : bool) (m : Pickled) (name : string) (disk : Disk) :
  write_error disk ≠ None → saved b m name disk = disk.
Proof.
  intros Hw. unfold saved, exec. destruct b; [|done]. rewrite save_model_cases. simpl.
  by destruct (write_error disk).
Qed.

Lemma saved_files (b : bool) (m : Pickled) (name : string) (disk : Disk) :
  write_error disk = None →
  files (saved b m name disk)
  = (if b then <[model_path name := m]> (files disk) else files disk)
  ∧ write_error (saved b m name disk) = None.
Proof.
  intros Hw. unfold saved, exec. destruct b; [|done]. rewrite save_model_cases. simpl.
  by rewrite Hw.
Qed.

Lemma train_all_models_result (teams : gset string) (db : Database)
    (start_date end_date : option Z) (s : t * Disk) :
  ∃ b s',
    train_all_models np_std sk teams db start_date end_date s = (Ok b, s')
    ∧ (b = true →
       GameOutcomePredictor.is_trained (outcome_model s'.1) = true
       ∨ SpreadPredictor.is_trained (spread_model s'.1) = true
       ∨ TotalPointsPredictor.is_trained (total_model s'.1) = true)
    ∧ (b = false →
       GameOutcomePredictor.is_trained (outcome_model s'.1)
       = GameOutcomePredictor.is_trained (outcome_model s.1)
       ∧ SpreadPredictor.is_trained (spread_model s'.1)
         = SpreadPredictor.is_trained (spread_model s.1)
       ∧ TotalPointsPredictor.is_trained (total_model s'.1)
         = TotalPointsPredictor.is_trained (total_model s.1)
       ∧ s'.2 = s.2)
    ∧ (online db = false
       ∨ filter (λ g, FeatureEngineerTraining.base_games_where teams start_date end_date g)
           (games db) = [] →
       b = false ∧ s' = s)
    ∧ (write_error s.2 ≠ None → s'.2 = s.2).
Proof.
  destruct (train_all_models_run teams db start_date end_date s)
    as (data & Hdata & Hempty & Hrun).
  destruct (prepare_training_data_size np_std teams db start_date end_date)
    as (data' & Hdata' & _ & _ & Hiff).
  rewrite Hdata in Hdata'. injection Hdata' as <-.
  destruct (df_empty data) eqn:He.
  - exists false, s. split; [by apply Hempty|]. split; [done|]. split; [done|]. done.
  - destruct (Hrun eq_refl) as (o & mo & sp & ms & tt & mt & _ & _ & _ & Eo & Es & Et & Hr).
    do 2 eexists. split; [exact Hr|]. simpl. split; [|split; [|split]].
    + rewrite Eo, Es, Et. destruct o, sp, tt; simpl; auto; discriminate.
    + rewrite Eo, Es, Et. destruct o, sp, tt; try discriminate. by intros _.
    + intros Hno. destruct Hiff as [Hiff _]. destruct (Hiff eq_refl) as [Hon Hne].
      destruct Hno as [Hoff|Hnil]; [by rewrite Hoff in Hon | done].
    + intros Hw. rewrite (saved_failing o) by done. rewrite (saved_failing sp) by done.
      by rewrite (saved_failing tt).
Qed.

Lemma model_path_ne (name1 name2 : string) :
  name1 ≠ name2 → model_path name1 ≠ model_path name2.
Proof. intros Hne Hp. by apply model_path_inj in Hp. Qed.

Lemma train_all_models_files (teams : gset string) (db : Database)
    (start_date end_date : option Z) (s : t * Disk) :
  write_error s.2 = None →
  ∃ b s',
    train_all_models np_std sk teams db start_date end_date s = (Ok b, s')
    ∧ saves_trained_models s s'.
Proof.
  intros Hw.
  destruct (train_all_models_run teams db start_date end_date s)
    as (data & Hdata & Hempty & Hrun).
  destruct (df_empty data) eqn:He.
  - exists false, s. split; [by apply Hempty|].
    split; [by auto|]. split; [|split]; intros H0 H1; by rewrite H0 in H1.
  - destruct (Hrun eq_refl) as (o & mo & sp & ms & tt & mt & _ & _ & _ & Eo & Es & Et & Hr).
    do 2 eexists. split; [exact Hr|]. unfold saves_trained_models. simpl.
    destruct (saved_files o (POutcome mo) "game_outcome_model" s.2 Hw) as [F1 W1].
    destruct (saved_files sp (PSpread ms) "spread_model" _ W1) as [F2 W2].
    destruct (saved_files tt (PTotal mt) "total_points_model" _ W2) as [F3 _].
    rewrite F3, F2, F1.
    assert (Hos : model_path "spread_model" ≠ model_path "game_outcome_model")
      by (by apply model_path_ne).
    assert (Hot : model_path "total_points_model" ≠ model_path "game_outcome_model")
      by (by apply model_path_ne).
    assert (Hst : model_path "total_points_model" ≠ model_path "spread_model")
      by (by apply model_path_ne).
    split; [|split; [|split]].
    + intros path m Hm.
      destruct tt; [apply lookup_insert_Some in Hm as [[<- <-]|[_ Hm]];
                    [right; right; right; by rewrite Et|]|];
        (destruct sp; [apply lookup_insert_Some in Hm as [[<- <-]|[_ Hm]];
                       [right; right; left; by rewrite Es|]|]);
        (destruct o; [apply lookup_insert_Some in Hm as [[<- <-]|[_ Hm]];
                      [right; left; by rewrite Eo|]|]);
        by left.
    + intros H0 H1. rewrite Eo, H0, orb_false_r in H1. subst o.
      destruct tt, sp; rewrite ?lookup_insert_ne by done; by rewrite lookup_insert_eq.
    + intros H0 H1. rewrite Es, H0, orb_false_r in H1. subst sp.
      destruct tt; rewrite ?lookup_insert_ne by done; by rewrite lookup_insert_eq.
    + intros H0 H1. rewrite Et, H0, orb_false_r in H1. subst tt.
      by rewrite lookup_insert_eq.
Qed.

End TrainAllModels.

(** X19: [train_all_models] never raises.  It returns True only if at
    least one model is trained afterwards; when it returns False, no model
    changes its trained flag and nothing is saved.  With a store that
    cannot be read or without a completed game between known teams it
    returns False and changes nothing at all.  A disk that cannot be
    written is left as it was and has no effect on the return value. *)
Theorem train_all_models_outcome (np_std : list Z → Q) (sk : Sklearn) (teams : gset string)
    (db : Database) (start_date end_date : option Z)
    (s : MLModelManager.t * MLModelManager.Disk) :
  ∃ b s',
    MLModelManager.train_all_models np_std sk teams db start_date end_date s = (Ok b, s')
    ∧ (b = true →
       GameOutcomePredictor.is_trained (MLModelManager.outcome_model s'.1) = true
       ∨ SpreadPredictor.is_trained (MLModelManager.spread_model s'.1) = true
       ∨ TotalPointsPredictor.is_trained (MLModelManager.total_model s'.1) = true)
    ∧ (b = false →
       GameOutcomePredictor.is_trained (MLModelManager.outcome_model s'.1)
       = GameOutcomePredictor.is_trained (MLModelManager.outcome_model s.1)
       ∧ SpreadPredictor.is_trained (MLModelManager.spread_model s'.1)
         = SpreadPredictor.is_trained (MLModelManager.spread_model s.1)
       ∧ TotalPointsPredictor.is_trained (MLModelManager.total_model s'.1)
         = TotalPointsPredictor.is_trained (MLModelManager.total_model s.1)
       ∧ s'.2 = s.2)
    ∧ (online db = false
       ∨ filter (λ g, FeatureEngineerTraining.base_games_where teams start_date end_date g)
           (games db) = [] →
       b = false ∧ s' = s)
    ∧ (MLModelManager.write_error s.2 ≠ None → s'.2 = s.2).
Proof. apply train_all_models_result. Qed.

(** X20: on a disk that can be written, every file found after
    [train_all_models] was there before or is the trained model now held
    in memory, saved under its own name; and each model that was
    untrained before the call and is trained after it has been saved. *)
Theorem train_all_models_saves (np_std : list Z → Q) (sk : Sklearn) (teams : gset string)
    (db : Database) (start_date end_date : option Z)
    (s : MLModelManager.t * MLModelManager.Disk) :
  MLModelManager.write_error s.2 = None →
  ∃ b s',
    MLModelManager.train_all_models np_std sk teams db start_date end_date s = (Ok b, s')
    ∧ saves_trained_models s s'.
Proof. apply train_all_models_files. Qed.

(** A new manager trained on the two games of the rematch store, saving
    to an empty disk. *)
Lemma train_all_models_saves_witness :
  ∃ b s',
    MLModelManager.train_all_models sample_std sample_sklearn_fits sample_teams
      sample_db_rematch None None (MLModelManager.__init__, sample_disk) = (Ok b, s')
    ∧ saves_trained_models (MLModelManager.__init__, sample_disk) s'.
Proof.
  apply (train_all_models_saves sample_std sample_sklearn_fits sample_teams
           sample_db_rematch None None (MLModelManager.__init__, sample_disk)).
  reflexivity.
Defined.

(** In that run all three models are trained and saved; with a
    scikit-learn whose fit fails none is, and the call returns False. *)
Example train_all_models_scenario :
  let s' :=
    exec (MLModelManager.train_all_models sample_std sample_sklearn_fits sample_teams
            sample_db_rematch None None) (MLModelManager.__init__, sample_disk) in
  run (MLModelManager.train_all_models sample_std sample_sklearn_fits sample_teams
         sample_db_rematch None None) (MLModelManager.__init__, sample_disk) = Ok true
  ∧ pickled_trained
      <$> (MLModelManager.files s'.2 !! MLModelManager.model_path "game_outcome_model")
    = Some true
  ∧ pickled_trained
      <$> (MLModelManager.files s'.2 !! MLModelManager.model_path "spread_model")
    = Some true
  ∧ pickled_trained
      <$> (MLModelManager.files s'.2 !! MLModelManager.model_path "total_points_model")
    = Some true
  ∧ run (MLModelManager.train_all_models sample_std sample_sklearn_fit_fails sample_teams
           sample_db_rematch None None) (MLModelManager.__init__, sample_disk) = Ok false.
Proof. repeat split; vm_compute; reflexivity. Qed.

(** ** Querying the manager *)

Section PredictGameFacts.
Import MLModelManager.
Context (np_std : list Z → Q).

Lemma predict_game_stable (db : Database) (home_team_id away_team_id now : string)
    (self : t) :
  let self' := exec (predict_game np_std db home_team_id away_team_id now) self in
  predict_game np_std db home_team_id away_team_id now self'
  = (run (predict_game np_std db home_team_id away_team_id now) self, self')
  ∧ GameOutcomePredictor.model (outcome_model self')
    = GameOutcomePredictor.model (outcome_model self)
  ∧ GameOutcomePredictor.scaler (outcome_model self')
    = GameOutcomePredictor.scaler (outcome_model self)
  ∧ GameOutcomePredictor.is_trained (outcome_model self')
    = GameOutcomePredictor.is_trained (outcome_model self)
  ∧ SpreadPredictor.model (spread_model self') = SpreadPredictor.model (spread_model self)
  ∧ SpreadPredictor.scaler (spread_model self') = SpreadPredictor.scaler (spread_model self)
  ∧ SpreadPredictor.is_trained (spread_model self')
    = SpreadPredictor.is_trained (spread_model self)
  ∧ TotalPointsPredictor.model (total_model self')
    = TotalPointsPredictor.model (total_model self)
  ∧ TotalPointsPredictor.scaler (total_model self')
    = TotalPointsPredictor.scaler (total_model self)
  ∧ TotalPointsPredictor.is_trained (total_model self')
    = TotalPointsPredictor.is_trained (total_model self).
Proof.
  unfold exec, run, predict_game, try_except, predict_game_try, bind, lift, zoom, ret.
  destruct (FeatureEngineer.create_game_features np_std db home_team_id away_team_id)
    as [f|e] eqn:Ef; simpl; [|done].
  pose proof (outcome_predict_stable (DataFrame_of_dict f) (outcome_model self))
    as (Ho & Ho1 & Ho2 & Ho3).
  pose proof (spread_predict_stable (DataFrame_of_dict f) (spread_model self))
    as (Hs & Hs1 & Hs2 & Hs3).
  pose proof (total_predict_stable (DataFrame_of_dict f) (total_model self))
    as (Ht & Ht1 & Ht2 & Ht3).
  unfold exec, run in *.
  destruct (GameOutcomePredictor.predict _ (outcome_model self)) as [[od|eo] mo];
    simpl in *;
    destruct (SpreadPredictor.predict _ (spread_model self)) as [[sd|es] ms];
    simpl in *;
    destruct (TotalPointsPredictor.predict _ (total_model self)) as [[td|et] mt];
    simpl in *;
    repeat match goal with
           | |- context [getitem ?d ?k] => destruct (getitem d k) eqn:?; simpl
           end;
    rewrite ?Ho; simpl; rewrite ?Hs; simpl; rewrite ?Ht; simpl;
    repeat match goal with
           | H : ?x = _ |- context [?x] => rewrite H; simpl
           end;
    done.
Qed.

End PredictGameFacts.

Lemma full_bundle_holds (now : string) (p v tot co cs ct : Q) :
  bundle_holds (full_bundle now p v tot co cs ct) "Project Apex ML" p v tot co cs ct.
Proof.
  unfold bundle_holds, full_bundle.
  split; [reflexivity|]. split; [reflexivity|]. split; [reflexivity|].
  split; [reflexivity|]. eexists. split; [reflexivity|]. by repeat split.
Qed.

(** X21: [predict_game] leaves the estimator, the scaler and the trained
    flag of all three models as they are, and asking again for the same
    matchup on the same store gives the same bundle and no further change
    of the manager. *)
Theorem predict_game_repeatable (np_std : list Z → Q) (db : Database)
    (home_team_id away_team_id now : string) (self : MLModelManager.t) :
  let self' :=
    exec (MLModelManager.predict_game np_std db home_team_id away_team_id now) self in
  MLModelManager.predict_game np_std db home_team_id away_team_id now self'
  = (run (MLModelManager.predict_game np_std db home_team_id away_team_id now) self, self')
  ∧ GameOutcomePredictor.model (MLModelManager.outcome_model self')
    = GameOutcomePredictor.model (MLModelManager.outcome_model self)
  ∧ GameOutcomePredictor.scaler (MLModelManager.outcome_model self')
    = GameOutcomePredictor.scaler (MLModelManager.outcome_model self)
  ∧ GameOutcomePredictor.is_trained (MLModelManager.outcome_model self')
    = GameOutcomePredictor.is_trained (MLModelManager.outcome_model self)
  ∧ SpreadPredictor.model (MLModelManager.spread_model self')
    = SpreadPredictor.model (MLModelManager.spread_model self)
  ∧ SpreadPredictor.scaler (MLModelManager.spread_model self')
    = SpreadPredictor.scaler (MLModelManager.spread_model self)
  ∧ SpreadPredictor.is_trained (MLModelManager.spread_model self')
    = SpreadPredictor.is_trained (MLModelManager.spread_model self)
  ∧ TotalPointsPredictor.model (MLModelManager.total_model self')
    = TotalPointsPredictor.model (MLModelManager.total_model self)
  ∧ TotalPointsPredictor.scaler (MLModelManager.total_model self')
    = TotalPointsPredictor.scaler (MLModelManager.total_model self)
  ∧ TotalPointsPredictor.is_trained (MLModelManager.total_model self')
    = TotalPointsPredictor.is_trained (MLModelManager.total_model self).
Proof. apply predict_game_stable. Qed.

Section PredictGameShape.
Import MLModelManager.
Context (np_std : list Z → Q).

(** The two bundles [predict_game] can return. *)
Lemma predict_game_cases (db : Database) (home_team_id away_team_id now : string)
    (self : t) :
  ∃ bundle self',
    predict_game np_std db home_team_id away_team_id now self = (Ok bundle, self')
    ∧ (bundle = neutral_bundle
       ∨ ∃ p v tot cs ct,
           GameOutcomePredictor.is_trained (outcome_model self) = true
           ∧ bundle = full_bundle now p v tot (Qabs (p - 0.5) * 2) cs ct).
Proof.
  unfold predict_game, try_except, predict_game_try, bind, lift.
  destruct (FeatureEngineer.create_game_features _ _ _ _) as [features|e];
    [|by eauto].
  destruct (outcome_predict_cases (DataFrame_of_dict features) (outcome_model self))
    as (d & o' & Hd & Hcase).
  unfold zoom at 1. rewrite Hd. simpl.
  destruct (spread_predict_cases (DataFrame_of_dict features) (spread_model self))
    as (ds & s' & Hs & Hds).
  unfold zoom at 1. simpl. rewrite Hs. simpl.
  destruct (total_predict_cases (DataFrame_of_dict features) (total_model self))
    as (dt & t' & Ht & Hdt).
  unfold zoom at 1. simpl. rewrite Ht. simpl.
  destruct Hcase as [-> | (m & p & _ & Htrained & _ & ->)].
  - do 2 eexists. split; [reflexivity|]. by left.
  - destruct Hds as [-> | (v & _ & ->)], Hdt as [-> | (tot & _ & ->)];
      (do 2 eexists; split; [reflexivity|]; right; do 5 eexists;
       split; [exact Htrained | reflexivity]).
Qed.

End PredictGameShape.

(** X22: [predict_game] returns one of two bundles.  Either the neutral
    one, which has no model name and no prediction time, or a complete
    one: the seven keys, the model name "Project Apex ML", the time of the
    call, an away probability of one minus the home probability and an
    outcome confidence of twice the distance of the home probability from
    one half.  The complete bundle is returned only when the outcome
    model is trained. *)
Theorem predict_game_bundle_shape (np_std : list Z → Q) (db : Database)
    (home_team_id away_team_id now : string) (self : MLModelManager.t) :
  ∃ bundle self',
    MLModelManager.predict_game np_std db home_team_id away_team_id now self
    = (Ok bundle, self')
    ∧ (bundle = MLModelManager.neutral_bundle
       ∧ bundle !! "model_name" = None ∧ bundle !! "prediction_time" = None
       ∨ ∃ p v tot cs ct,
           GameOutcomePredictor.is_trained (MLModelManager.outcome_model self) = true
           ∧ bundle = full_bundle now p v tot (Qabs (p - 0.5) * 2) cs ct
           ∧ bundle_holds bundle "Project Apex ML" p v tot (Qabs (p - 0.5) * 2) cs ct).
Proof.
  destruct (predict_game_cases np_std db home_team_id away_team_id now self)
    as (bundle & self' & Hrun & [-> | (p & v & tot & cs & ct & Ht & ->)]).
  - exists MLModelManager.neutral_bundle, self'. split; [exact Hrun|]. by left.
  - eexists. exists self'. split; [exact Hrun|]. right.
    exists p, v, tot, cs, ct. split; [exact Ht|]. split; [reflexivity|].
    apply full_bundle_holds.
Qed.


(** ** Storing a bundle *)

Section StoreFacts.
Import PredictionGenerator.

Lemma store_one_cases (game_id : string) (b : gmap string pyval)
    (kind value_key conf_key : string) (now : Z) (db : Database) :
  (∃ model_name value conf scores,
     b !! "model_name" = Some (PStr model_name)
     ∧ b !! value_key = Some (PFloat value)
     ∧ b !! "confidence_scores" = Some (PDict scores)
     ∧ scores !! conf_key = Some conf
     ∧ store_one game_id b kind value_key conf_key now db
       = (Ok tt,
          {| online := online db; games := games db;
             predictions :=
               upsert (insert_row game_id model_name kind value conf now)
                 (predictions db) |}))
  ∨ ((∀ model_name value conf scores,
        b !! "model_name" = Some (PStr model_name) →
        b !! value_key = Some (PFloat value) →
        b !! "confidence_scores" = Some (PDict scores) →
        scores !! conf_key = Some conf → False)
     ∧ ∃ e, store_one game_id b kind value_key conf_key now db = (Raise e, db)).
Proof.
  unfold store_one, bind, lift, execute, get, put, getitem.
  destruct (b !! "model_name") as [[x|model_name|d]|] eqn:Hm; simpl;
    try (right; split; [intros ????; congruence | by eauto]).
  destruct (b !! value_key) as [[value|x|d]|] eqn:Hv; simpl;
    try (right; split; [intros ????; congruence | by eauto]).
  destruct (b !! "confidence_scores") as [[x|x|scores]|] eqn:Hc; simpl;
    try (right; split; [intros ????; congruence | by eauto]).
  unfold getitem.
  destruct (scores !! conf_key) as [conf|] eqn:Hs; simpl.
  - left. by exists model_name, value, conf, scores.
  - right. split; [intros ???? _ _ [= <-]; congruence | by eauto].
Qed.

Lemma store_predictions_offline (db : Database) (game_id : string)
    (b : gmap string pyval) (now : Z) :
  online db = false → store_predictions game_id b now db = (Ok tt, db).
Proof.
  intros Hoff. unfold store_predictions, try_except, transaction, get_connection.
  by rewrite Hoff.
Qed.

(** [store_predictions] writes the three rows or nothing. *)
Lemma store_predictions_cases (db : Database) (game_id : string)
    (b : gmap string pyval) (now : Z) :
  (∃ model_name w s t co cs ct,
     online db = true
     ∧ bundle_holds b model_name w s t co cs ct
     ∧ store_predictions game_id b now db
       = (Ok tt,
          {| online := true; games := games db;
             predictions := stored game_id model_name w s t co cs ct now (predictions db) |}))
  ∨ ((online db = false
      ∨ ∀ model_name w s t co cs ct, ¬ bundle_holds b model_name w s t co cs ct)
     ∧ store_predictions game_id b now db = (Ok tt, db)).
Proof.
  destruct (online db) eqn:Hon;
    [|right; split; [by left | by apply store_predictions_offline]].
  destruct (store_one_cases game_id b "winner" "home_win_probability" "outcome" now db)
    as [(m1 & w & co & sc1 & Hm1 & Hw & Hc1 & Hco & H1) | (Hno & e & H1)].
  2: { right. split.
       - right. intros m w s t co cs ct (Hm & Hw & _ & _ & sc & Hc & Hco & _).
         by eapply Hno.
       - unfold store_predictions, try_except, transaction, get_connection, bind.
         by rewrite Hon, H1. }
  set (db1 := {| online := online db; games := games db;
                 predictions := upsert (insert_row game_id m1 "winner" w co now)
                                  (predictions db) |}) in *.
  destruct (store_one_cases game_id b "spread" "predicted_spread" "spread" now db1)
    as [(m2 & s & cs & sc2 & Hm2 & Hs & Hc2 & Hcs & H2) | (Hno & e & H2)].
  2: { right. split.
       - right. intros m w' s t co' cs ct (Hm & _ & Hs & _ & sc & Hc & _ & Hcs & _).
         by eapply Hno.
       - unfold store_predictions, try_except, transaction, get_connection, bind.
         by rewrite Hon, H1, H2. }
  set (db2 := {| online := online db1; games := games db1;
                 predictions := upsert (insert_row game_id m2 "spread" s cs now)
                                  (predictions db1) |}) in *.
  destruct (store_one_cases game_id b "total" "predicted_total" "total" now db2)
    as [(m3 & t & ct & sc3 & Hm3 & Ht & Hc3 & Hct & H3) | (Hno & e & H3)].
  2: { right. split.
       - right. intros m w' s' t co' cs' ct (Hm & _ & _ & Ht & sc & Hc & _ & _ & Hct).
         by eapply Hno.
       - unfold store_predictions, try_except, transaction, get_connection, bind.
         by rewrite Hon, H1, H2, H3. }
  left. exists m1, w, s, t, co, cs, ct. split; [done|].
  assert (Hb : bundle_holds b m1 w s t co cs ct).
  { split; [done|]. split; [done|]. split; [done|]. split; [done|].
    exists sc1. rewrite Hc1 in Hc2, Hc3. injection Hc2 as <-. injection Hc3 as <-. done. }
  split; [exact Hb|].
  by apply store_predictions_online.
Qed.

Lemma upsert_lookup (new : Prediction) (table : list Prediction) (i : nat)
    (r : Prediction) :
  table !! i = Some r →
  ∃ r', upsert new table !! i = Some r'
    ∧ (r' = r ∨ key r = key new ∧ r' = refreshed r new)
    ∧ (key r ≠ key new → r' = r).
Proof.
  revert i. induction table as [|row rest IH]; intros i Hi; [done|]. simpl.
  case_bool_decide as Hk.
  - destruct i as [|i]; simpl in *.
    + injection Hi as ->. eexists. split; [done|]. split; [by right | done].
    + exists r. split; [done|]. split; [by left | done].
  - destruct i as [|i]; simpl in *.
    + injection Hi as ->. exists r. split; [done|]. split; [by left | done].
    + by apply IH.
Qed.

Lemma upsert_lookup_same (new : Prediction) (table : list Prediction) (i : nat)
    (r : Prediction) :
  NoDup (key <$> table) → table !! i = Some r → key r = key new →
  upsert new table !! i = Some (refreshed r new).
Proof.
  revert i. induction table as [|row rest IH]; intros i Hnd Hi Hk; [done|]. simpl.
  csimpl in Hnd. apply NoDup_cons in Hnd as [Hrow Hnd].
  destruct i as [|i]; simpl in *.
  - injection Hi as ->. by rewrite bool_decide_eq_true_2.
  - rewrite bool_decide_eq_false_2; [by apply IH|].
    intros Hrk. apply Hrow. rewrite Hrk, <- Hk.
    apply list_elem_of_fmap_2. by eapply list_elem_of_lookup_2.
Qed.

Lemma upsert_elem_of (new : Prediction) (table : list Prediction) (r' : Prediction) :
  r' ∈ upsert new table →
  r' ∈ table ∨ (key r' = key new ∧ created_at r' = created_at new
                ∧ predicted_value r' = predicted_value new
                ∧ confidence r' = confidence new).
Proof.
  induction table as [|row rest IH]; simpl.
  - intros ->%list_elem_of_singleton. by right.
  - case_bool_decide as Hk.
    + intros [->|Hin]%elem_of_cons; [by right | left; by right].
    + intros [->|Hin]%elem_of_cons; [left; by left|].
      destruct (IH Hin) as [?|?]; [left; by right | by right].
Qed.

Lemma upsert_length (new : Prediction) (table : list Prediction) :
  (length table ≤ length (upsert new table) ≤ S (length table))%nat.
Proof.
  induction table as [|row rest IH]; simpl; [lia|].
  case_bool_decide; simpl; lia.
Qed.

Lemma keeps_rows_refl (touched : string → Prop) (table : list Prediction) :
  keeps_rows touched table table.
Proof. intros i r Hi. by exists r. Qed.

Lemma keeps_rows_trans (touched : string → Prop) (t1 t2 t3 : list Prediction) :
  keeps_rows touched t1 t2 → keeps_rows touched t2 t3 → keeps_rows touched t1 t3.
Proof.
  intros H12 H23 i r Hi.
  destruct (H12 i r Hi) as (r2 & Hi2 & K2 & A2 & C2 & U2).
  destruct (H23 i r2 Hi2) as (r3 & Hi3 & K3 & A3 & C3 & U3).
  exists r3. split; [done|]. split; [congruence|]. split; [congruence|].
  split; [congruence|]. intros Hu. rewrite U3, U2; [done..|].
  rewrite (U2 Hu). done.
Qed.

Lemma keeps_rows_mono (touched touched' : string → Prop) (t1 t2 : list Prediction) :
  (∀ id, touched id → touched' id) → keeps_rows touched t1 t2 → keeps_rows touched' t1 t2.
Proof.
  intros Hsub H i r Hi. destruct (H i r Hi) as (r' & ? & ? & ? & ? & Hu).
  exists r'. repeat split; try done. intros Hn. apply Hu. intros Ht. by apply Hn, Hsub.
Qed.

Lemma upsert_keeps_rows (new : Prediction) (table : list Prediction) :
  keeps_rows (λ id, id = p_game_id new) table (upsert new table).
Proof.
  intros i r Hi. destruct (upsert_lookup new table i r Hi) as (r' & Hr' & Hcase & Hne).
  exists r'. split; [done|].
  destruct Hcase as [->|[Hk ->]]; [done|].
  split; [done|]. split; [done|]. split; [done|].
  intros Hid. exfalso. apply Hid. by injection Hk.
Qed.

Lemma stored_keeps_rows game_id model_name w s t co cs ct now (table : list Prediction) :
  keeps_rows (λ id, id = game_id) table (stored game_id model_name w s t co cs ct now table).
Proof.
  unfold stored.
  eapply keeps_rows_trans; [|apply (upsert_keeps_rows (insert_row game_id _ "total" _ _ _))].
  eapply keeps_rows_trans; [|apply (upsert_keeps_rows (insert_row game_id _ "spread" _ _ _))].
  apply (upsert_keeps_rows (insert_row game_id _ "winner" _ _ _)).
Qed.

Lemma stored_adds_only game_id model_name w s t co cs ct now (table : list Prediction) :
  ∀ r', r' ∈ stored game_id model_name w s t co cs ct now table →
    r' ∈ table
    ∨ (p_game_id r' = game_id ∧ p_model_name r' = model_name ∧ created_at r' = now).
Proof.
  intros r' Hin. unfold stored in Hin.
  apply upsert_elem_of in Hin as [Hin|(Hk & Hc & _)];
    [|right; by injection Hk as -> -> _].
  apply upsert_elem_of in Hin as [Hin|(Hk & Hc & _)];
    [|right; by injection Hk as -> -> _].
  apply upsert_elem_of in Hin as [Hin|(Hk & Hc & _)];
    [by left | right; by injection Hk as -> -> _].
Qed.

Lemma stored_length game_id model_name w s t co cs ct now (table : list Prediction) :
  (length table ≤ length (stored game_id model_name w s t co cs ct now table)
   ≤ length table + 3)%nat.
Proof.
  unfold stored.
  pose proof (upsert_length (insert_row game_id model_name "winner" w co now) table).
  pose proof (upsert_length (insert_row game_id model_name "spread" s cs now)
                (upsert (insert_row game_id model_name "winner" w co now) table)).
  pose proof (upsert_length (insert_row game_id model_name "total" t ct now)
                (upsert (insert_row game_id model_name "spread" s cs now)
                   (upsert (insert_row game_id model_name "winner" w co now) table))).
  lia.
Qed.

Lemma store_predictions_frame (db : Database) (game_id : string)
    (b : gmap string pyval) (now : Z) :
  let db' := exec (store_predictions game_id b now) db in
  games db' = games db
  ∧ online db' = online db
  ∧ keeps_rows (λ id, id = game_id) (predictions db) (predictions db')
  ∧ (length (predictions db) ≤ length (predictions db') ≤ length (predictions db) + 3)%nat
  ∧ (∀ r', r' ∈ predictions db' →
       r' ∈ predictions db
       ∨ (p_game_id r' = game_id ∧ created_at r' = now
          ∧ b !! "model_name" = Some (PStr (p_model_name r')))).
Proof.
  unfold exec.
  destruct (store_predictions_cases db game_id b now)
    as [(m & w & s & t & co & cs & ct & Hon & Hb & ->) | [_ ->]]; simpl.
  - split; [done|]. split; [done|]. split; [apply stored_keeps_rows|].
    split; [apply stored_length|].
    intros r' Hin. apply stored_adds_only in Hin as [?|(? & Hm & ?)]; [by left|].
    right. split; [done|]. split; [done|]. rewrite Hm. by destruct Hb.
  - split; [done|]. split; [done|]. split; [apply keeps_rows_refl|].
    split; [lia|]. by left.
Qed.

End StoreFacts.

(** X23: [store_predictions] never raises and writes all three rows or
    nothing.  The three upserts are made exactly when the store can be
    reached and the bundle holds a model name, the three predicted values
    and the three confidences; in every other case, whichever of the
    three statements fails, the store is left as it was. *)
Theorem store_predictions_all_or_nothing (db : Database) (game_id : string)
    (b : gmap string pyval) (now : Z) :
  (∃ model_name w s t co cs ct,
     online db = true
     ∧ bundle_holds b model_name w s t co cs ct
     ∧ PredictionGenerator.store_predictions game_id b now db
       = (Ok tt,
          {| online := true; games := games db;
             predictions := stored game_id model_name w s t co cs ct now (predictions db) |}))
  ∨ ((online db = false
      ∨ ∀ model_name w s t co cs ct, ¬ bundle_holds b model_name w s t co cs ct)
     ∧ PredictionGenerator.store_predictions game_id b now db = (Ok tt, db)).
Proof. apply store_predictions_cases. Qed.

(** X24: what [store_predictions] leaves alone.  The games are not
    touched.  Every row of the table stays at its position with its key,
    its [actual_value] and its [is_correct], and rows of other games are
    not changed at all.  The table gains at most three rows, and every
    row that is new or changed belongs to the game, carries the model
    name of the bundle and the time of the call. *)
Theorem store_predictions_keeps_rows (db : Database) (game_id : string)
    (b : gmap string pyval) (now : Z) :
  let db' := exec (PredictionGenerator.store_predictions game_id b now) db in
  games db' = games db
  ∧ online db' = online db
  ∧ keeps_rows (λ id, id = game_id) (predictions db) (predictions db')
  ∧ (length (predictions db) ≤ length (predictions db') ≤ length (predictions db) + 3)%nat
  ∧ (∀ r', r' ∈ predictions db' →
       r' ∈ predictions db
       ∨ (p_game_id r' = game_id ∧ created_at r' = now
          ∧ b !! "model_name" = Some (PStr (p_model_name r')))).
Proof. apply store_predictions_frame. Qed.

(** ** A new prediction for a reconciled game *)

Section StaleFlags.
Import PredictionGenerator.

Ltac diff_kind :=
  unfold key; simpl;
  match goal with H : prediction_type _ = _ |- _ => rewrite H end;
  intros [=].

Lemma stored_lookup_kind game_id model_name w s t co cs ct now (table : list Prediction)
    (i : nat) (r : Prediction) (kind : string) (v c : Q) :
  NoDup (key <$> table) →
  table !! i = Some r →
  key r = (game_id, model_name, kind) →
  (kind, v, c) ∈ [("winner", w, co); ("spread", s, cs); ("total", t, ct)] →
  stored game_id model_name w s t co cs ct now table !! i
  = Some (refreshed r (insert_row game_id model_name kind v c now)).
Proof.
  intros Hnd Hi Hk Hkind. unfold stored.
  assert (Ht : prediction_type r = kind) by (by injection Hk).
  set (nw := insert_row game_id model_name "winner" w co now).
  set (ns := insert_row game_id model_name "spread" s cs now).
  set (nt := insert_row game_id model_name "total" t ct now).
  apply elem_of_cons in Hkind as [[= -> -> ->]|Hkind];
    [|apply elem_of_cons in Hkind as [[= -> -> ->]|Hkind];
      [|apply list_elem_of_singleton in Hkind as [= -> -> ->]]].
  - pose proof (upsert_lookup_same nw table i r Hnd Hi Hk) as H1.
    destruct (upsert_lookup ns _ i _ H1) as (r2 & H2 & _ & E2).
    rewrite E2 in H2 by diff_kind.
    destruct (upsert_lookup nt _ i _ H2) as (r3 & H3 & _ & E3).
    rewrite E3 in H3 by diff_kind. exact H3.
  - destruct (upsert_lookup nw table i r Hi) as (r1 & H1 & _ & E1).
    rewrite E1 in H1 by diff_kind.
    pose proof (upsert_lookup_same ns _ i r (upsert_NoDup nw _ Hnd) H1 Hk) as H2.
    destruct (upsert_lookup nt _ i _ H2) as (r3 & H3 & _ & E3).
    rewrite E3 in H3 by diff_kind. exact H3.
  - destruct (upsert_lookup nw table i r Hi) as (r1 & H1 & _ & E1).
    rewrite E1 in H1 by diff_kind.
    destruct (upsert_lookup ns _ i _ H1) as (r2 & H2 & _ & E2).
    rewrite E2 in H2 by diff_kind.
    apply upsert_lookup_same; [|done..].
    by do 2 apply upsert_NoDup.
Qed.

End StaleFlags.

(** X25: [is_correct] is never recomputed.  When a new bundle is stored
    for a game whose prediction has already been reconciled, the row
    takes the new predicted value and confidence but keeps its
    [actual_value] and its [is_correct], and a later
    [update_prediction_accuracy] leaves it so: the flag then still judges
    the value that was replaced. *)
Theorem reconciled_flag_survives_new_prediction (db : Database) (game_id model_name : string)
    (b : gmap string pyval) (now : Z) (w s t co cs ct : Q)
    (i : nat) (r : Prediction) (kind : string) (v c : Q) :
  online db = true →
  NoDup (PredictionGenerator.key <$> predictions db) →
  bundle_holds b model_name w s t co cs ct →
  predictions db !! i = Some r →
  PredictionGenerator.key r = (game_id, model_name, kind) →
  (kind, v, c) ∈ [("winner", w, co); ("spread", s, cs); ("total", t, ct)] →
  is_null (actual_value r) = false →
  let db' :=
    exec PredictionGenerator.update_prediction_accuracy
      (exec (PredictionGenerator.store_predictions game_id b now) db) in
  ∃ r', predictions db' !! i = Some r'
    ∧ predicted_value r' = v
    ∧ confidence r' = c
    ∧ actual_value r' = actual_value r
    ∧ is_correct r' = is_correct r.
Proof.
  intros Hon Hnd Hb Hi Hk Hkind Hnull db'. unfold db', exec.
  rewrite (store_predictions_online db game_id b now _ _ _ _ _ _ _ Hon Hb). cbn [snd].
  rewrite update_prediction_accuracy_online by done. cbn [snd predictions games].
  fold (stored game_id model_name w s t co cs ct now (predictions db)).
  rewrite list_lookup_fmap.
  rewrite (stored_lookup_kind _ _ _ _ _ _ _ _ _ _ i r kind v c Hnd Hi Hk Hkind).
  simpl. rewrite reconcile_populated by done.
  eexists. split; [reflexivity|]. done.
Qed.

(** The reconciled sample store: the winner prediction of 70% for the home
    team is replaced by one of 30%. *)
Lemma reconciled_flag_survives_new_prediction_witness :
  let db' :=
    exec PredictionGenerator.update_prediction_accuracy
      (exec (PredictionGenerator.store_predictions "g1" (sample_bundle 3) 7)
         sample_reconciled_db) in
  ∃ r', predictions db' !! 2%nat = Some r'
    ∧ predicted_value r' = 3 / 10
    ∧ confidence r' = 3 / 10
    ∧ actual_value r' = Some 1
    ∧ is_correct r' = Some true.
Proof.
  apply (reconciled_flag_survives_new_prediction sample_reconciled_db "g1"
           "Project Apex ML" (sample_bundle 3) 7
           (3 / 10) 3 (200 + 3) (3 / 10) (3 / 100) (3 / 1000) 2
           {| p_game_id := "g1"; p_model_name := "Project Apex ML";
              prediction_type := "winner"; predicted_value := 0.7; confidence := 0.5;
              actual_value := Some 1; is_correct := Some true; created_at := 0 |}
           "winner" (3 / 10) (3 / 10)).
  - reflexivity.
  - compute_done.
  - apply sample_bundle_holds.
  - reflexivity.
  - reflexivity.
  - by left.
  - reflexivity.
Defined.

(** ** Reconciliation leaves the rest of a row *)

Section ReconciliationFrame.
Import PredictionGenerator.

Lemma update_row_frame kind actual correct games (p : Prediction) :
  let p' := update_row kind actual correct games p in
  key p' = key p ∧ predicted_value p' = predicted_value p
  ∧ confidence p' = confidence p ∧ created_at p' = created_at p
  ∧ (joined_game games (p_game_id p) = None → p' = p)
  ∧ (prediction_type p ≠ kind → p' = p).
Proof.
  unfold update_row. case_bool_decide as Hk; simpl; [|done].
  destruct (is_null (actual_value p)); [|done].
  destruct (joined_game games (p_game_id p)) as [g|]; [|done].
  destruct (home_score g), (away_score g); done.
Qed.

Lemma reconcile_frame games (p : Prediction) :
  let p' := reconcile games p in
  key p' = key p ∧ predicted_value p' = predicted_value p
  ∧ confidence p' = confidence p ∧ created_at p' = created_at p
  ∧ (joined_game games (p_game_id p) = None → p' = p)
  ∧ (prediction_type p ∉ ["winner"; "spread"; "total"] → p' = p).
Proof.
  unfold reconcile.
  set (p1 := update_row "winner" winner_actual winner_correct games p).
  set (p2 := update_row "spread" spread_actual spread_correct games p1).
  destruct (update_row_frame "winner" winner_actual winner_correct games p)
    as (K1 & V1 & C1 & T1 & J1 & N1).
  destruct (update_row_frame "spread" spread_actual spread_correct games p1)
    as (K2 & V2 & C2 & T2 & J2 & N2).
  destruct (update_row_frame "total" total_actual total_correct games p2)
    as (K3 & V3 & C3 & T3 & J3 & N3).
  fold p1 in K1, V1, C1, T1, J1, N1. fold p2 in K2, V2, C2, T2, J2, N2.
  cbv zeta. split; [congruence|]. split; [congruence|]. split; [congruence|].
  split; [congruence|]. split.
  - intros Hj. assert (E1 : p1 = p) by (by apply J1).
    assert (E2 : p2 = p) by (etrans; [apply J2; by rewrite E1 | exact E1]).
    etrans; [apply J3; by rewrite E2 | exact E2].
  - intros Hkind.
    assert (E1 : p1 = p) by (apply N1; intros E; apply Hkind; rewrite E; by left).
    assert (E2 : p2 = p).
    { etrans; [apply N2 | exact E1]. rewrite E1. intros E. apply Hkind. rewrite E.
      right. by left. }
    etrans; [apply N3 | exact E2]. rewrite E2. intros E. apply Hkind. rewrite E.
    right. right. by left.
Qed.

End ReconciliationFrame.

(** X26: what [update_prediction_accuracy] leaves alone.  It never
    raises, does not touch the games and neither adds nor removes nor
    reorders predictions.  Every row keeps its key, its predicted value,
    its confidence and its creation time; a row whose game has no
    completed entry with both scores, and a row of a kind other than
    winner, spread or total, is not changed at all. *)
Theorem update_prediction_accuracy_frame (db : Database) :
  ∃ db',
    PredictionGenerator.update_prediction_accuracy db = (Ok tt, db')
    ∧ games db' = games db
    ∧ online db' = online db
    ∧ length (predictions db') = length (predictions db)
    ∧ ∀ i p, predictions db !! i = Some p →
        ∃ p', predictions db' !! i = Some p'
          ∧ PredictionGenerator.key p' = PredictionGenerator.key p
          ∧ predicted_value p' = predicted_value p
          ∧ confidence p' = confidence p
          ∧ created_at p' = created_at p
          ∧ (PredictionGenerator.joined_game (games db) (p_game_id p) = None → p' = p)
          ∧ (prediction_type p ∉ ["winner"; "spread"; "total"] → p' = p).
Proof.
  destruct (online db) eqn:Hon.
  - eexists. split; [by apply update_prediction_accuracy_online|]. simpl.
    split; [done|]. split; [done|]. split; [by rewrite length_fmap|].
    intros i p Hi. exists (reconcile (games db) p).
    split; [by rewrite list_lookup_fmap, Hi|]. apply reconcile_frame.
  - exists db. split; [by apply update_prediction_accuracy_offline|].
    split; [done|]. split; [done|]. split; [done|].
    intros i p Hi. exists p. by repeat split.
Qed.

(** After the replacement the flag is still True, although a home-win
    probability of 30% is wrong for a game the home team won 100 to 90. *)
Example stale_flag_scenario :
  (λ r, (Qred (predicted_value r), is_correct r))
    <$> (predictions
           (exec PredictionGenerator.update_prediction_accuracy
              (exec (PredictionGenerator.store_predictions "g1" (sample_bundle 3) 7)
                 sample_reconciled_db)) !! 2%nat)
  = Some (3 # 10, Some true)
  ∧ PredictionGenerator.winner_correct (3 # 10) 100 90 = false.
Proof. split; vm_compute; reflexivity. Qed.

(** ** Generating predictions for upcoming games *)

Lemma for_each_invariant {S A B} (I : S → Prop) (f : A → M S B) (l : list A) (s : S) :
  I s →
  (∀ a s, a ∈ l → I s → ∃ b s', f a s = (Ok b, s') ∧ I s') →
  ∃ bs s', for_each f l s = (Ok bs, s') ∧ I s'.
Proof.
  revert s. induction l as [|a l IH]; intros s Hs Hf; simpl.
  - by exists [], s.
  - destruct (Hf a s) as (b & s1 & Hfa & Hs1); [by left | done |].
    destruct (IH s1) as (bs & s2 & Hrest & Hs2); [done | |].
    { intros a' s' Ha'. apply Hf. by right. }
    exists (b :: bs), s2. unfold bind, ret. by rewrite Hfa, Hrest.
Qed.

Lemma same_fit_refl (m : MLModelManager.t) : same_fit m m.
Proof. by repeat split. Qed.

Lemma same_fit_trans (m1 m2 m3 : MLModelManager.t) :
  same_fit m1 m2 → same_fit m2 m3 → same_fit m1 m3.
Proof.
  intros (A1 & A2 & A3 & A4 & A5 & A6 & A7 & A8 & A9)
         (B1 & B2 & B3 & B4 & B5 & B6 & B7 & B8 & B9).
  repeat split; congruence.
Qed.

Lemma adds_only_refl (touched : string → Prop) (model_name : string)
    (table : list Prediction) :
  adds_only touched model_name table table.
Proof. intros r' Hr. by left. Qed.

Lemma adds_only_trans (touched : string → Prop) (model_name : string)
    (t1 t2 t3 : list Prediction) :
  adds_only touched model_name t1 t2 → adds_only touched model_name t2 t3 →
  adds_only touched model_name t1 t3.
Proof.
  intros H12 H23 r' Hr. destruct (H23 r' Hr) as [Hr2|?]; [by apply H12 | by right].
Qed.

Section GenerateFacts.
Import PredictionGenerator.
Context (np_std : list Z → Q).

(** One turn of the loop. *)
Lemma generate_one_frame (now_of : Game → string) (clock_of : Game → Z) (game : Game)
    (self : t) :
  ∃ self',
    generate_one np_std now_of clock_of game self = (Ok tt, self')
    ∧ games (db self') = games (db self)
    ∧ online (db self') = online (db self)
    ∧ same_fit (model_manager self) (model_manager self')
    ∧ keeps_rows (λ id, id = g_id game) (predictions (db self)) (predictions (db self'))
    ∧ adds_only (λ id, id = g_id game) "Project Apex ML"
        (predictions (db self)) (predictions (db self'))
    ∧ (GameOutcomePredictor.is_trained (MLModelManager.outcome_model (model_manager self))
       = false → db self' = db self).
Proof.
  unfold generate_one, try_except, bind, get, zoom.
  pose proof (predict_game_stable np_std (db self) (home_team_id game) (away_team_id game)
                (now_of game) (model_manager self)) as [_ Hfit].
  destruct (predict_game_cases np_std (db self) (home_team_id game) (away_team_id game)
              (now_of game) (model_manager self)) as (bundle & mm' & Hrun & Hshape).
  unfold exec in Hfit. rewrite Hrun in Hfit |- *. simpl in Hfit |- *.
  pose proof (store_predictions_frame (db self) (g_id game) bundle (clock_of game))
    as (Hg & Ho & Hk & _ & Ha).
  pose proof (store_predictions_cases (db self) (g_id game) bundle (clock_of game))
    as Hcases.
  unfold exec in Hg, Ho, Hk, Ha.
  destruct (store_predictions (g_id game) bundle (clock_of game) (db self))
    as [[[]|e] db'] eqn:Hstore;
    [|by destruct Hcases as [(? & ? & ? & ? & ? & ? & ? & _ & _ & [=])|[_ [=]]]].
  simpl in *. eexists. split; [reflexivity|]. simpl.
  split; [done|]. split; [done|]. split; [exact Hfit|]. split; [done|]. split.
  - intros r' Hr'. destruct (Ha r' Hr') as [?|(Hid & _ & Hm)]; [by left|].
    right. split; [done|].
    destruct Hshape as [-> | (p & v & tot & cs & ct & _ & ->)]; [done|].
    by injection Hm.
  - intros Hu.
    destruct Hshape as [-> | (p & v & tot & cs & ct & Ht & _)]; [|congruence].
    destruct Hcases as [(m & w & s & t & co & cs & ct & _ & (Hm & _) & _)|[_ [= <-]]];
      [done | done].
Qed.

Lemma upcoming_query_elem (teams : gset string) (store : Database)
    (start_date end_date : Z) (games_df : list Game) (g : Game) :
  upcoming_query teams store start_date end_date = Ok games_df → g ∈ games_df →
  g ∈ games store ∧ upcoming_where teams start_date end_date g = true.
Proof.
  unfold upcoming_query. destruct (get_connection store); simpl; [|done].
  intros [= <-] Hg. unfold order_by_game_date in Hg.
  rewrite merge_sort_Permutation in Hg.
  apply list_elem_of_filter in Hg as [Hw Hg]. split; [done|]. by apply Is_true_true.
Qed.

Lemma generate_frame (teams : gset string) (today : Z) (now_of : Game → string)
    (clock_of : Game → Z) (days_ahead : Z) (self : t) :
  ∃ self',
    generate_predictions_for_upcoming_games np_std teams today now_of clock_of days_ahead
      self = (Ok tt, self')
    ∧ games (db self') = games (db self)
    ∧ online (db self') = online (db self)
    ∧ same_fit (model_manager self) (model_manager self')
    ∧ keeps_rows (upcoming teams (db self) today days_ahead)
        (predictions (db self)) (predictions (db self'))
    ∧ adds_only (upcoming teams (db self) today days_ahead) "Project Apex ML"
        (predictions (db self)) (predictions (db self'))
    ∧ (GameOutcomePredictor.is_trained (MLModelManager.outcome_model (model_manager self))
       = false → db self' = db self).
Proof.
  set (T := upcoming teams (db self) today days_ahead).
  set (I := λ s : t,
         games (db s) = games (db self)
         ∧ online (db s) = online (db self)
         ∧ same_fit (model_manager self) (model_manager s)
         ∧ keeps_rows T (predictions (db self)) (predictions (db s))
         ∧ adds_only T "Project Apex ML" (predictions (db self)) (predictions (db s))
         ∧ (GameOutcomePredictor.is_trained
              (MLModelManager.outcome_model (model_manager self)) = false →
            db s = db self)).
  assert (HI : I self).
  { split; [done|]. split; [done|]. split; [apply same_fit_refl|].
    split; [apply keeps_rows_refl|]. split; [apply adds_only_refl | done]. }
  unfold generate_predictions_for_upcoming_games, try_except, bind, get, lift.
  destruct (upcoming_query teams (db self) today (today + days_ahead))
    as [games_df|e] eqn:Hq; [|by exists self].
  destruct (FeatureEngineer.is_nil games_df); [by exists self|].
  destruct (for_each_invariant I (generate_one np_std now_of clock_of) games_df self HI)
    as (bs & s' & Hloop & Hs').
  { intros game s Hgame (Ig & Io & If & Ik & Ia & Iu).
    destruct (generate_one_frame now_of clock_of game s)
      as (s1 & Hone & Hg & Ho & Hf & Hk & Ha & Hu).
    exists tt, s1. split; [exact Hone|].
    assert (Hsub : ∀ id, id = g_id game → T id).
    { intros id ->. exists game.
      destruct (upcoming_query_elem _ _ _ _ _ game Hq Hgame). done. }
    split; [congruence|]. split; [congruence|].
    split; [by eapply same_fit_trans|].
    split.
    { eapply keeps_rows_trans; [exact Ik|].
      apply (keeps_rows_mono (λ id, id = g_id game)); [exact Hsub | exact Hk]. }
    split.
    - eapply adds_only_trans; [exact Ia|]. intros r' Hr'.
      destruct (Ha r' Hr') as [?|[? ?]]; [by left | right; split; [by apply Hsub | done]].
    - intros Hun. rewrite Hu, Iu; [done..|].
      destruct If as (_ & _ & -> & _). done. }
  rewrite Hloop. exists s'. split; [done|]. exact Hs'.
Qed.

End GenerateFacts.

(** X27: a generator whose outcome model is not trained stores nothing.
    This is the state of every [PredictionGenerator()], which builds a new
    [MLModelManager] and never loads a saved model: for each upcoming game
    [predict_game] returns the neutral bundle, which has no model name,
    and [store_predictions] gives up before writing. *)
Theorem untrained_generator_stores_nothing (np_std : list Z → Q) (teams : gset string)
    (today : Z) (now_of : Game → string) (clock_of : Game → Z) (days_ahead : Z)
    (self : PredictionGenerator.t) :
  GameOutcomePredictor.is_trained
    (MLModelManager.outcome_model (PredictionGenerator.model_manager self)) = false →
  ∃ self',
    PredictionGenerator.generate_predictions_for_upcoming_games np_std teams today
      now_of clock_of days_ahead self = (Ok tt, self')
    ∧ PredictionGenerator.db self' = PredictionGenerator.db self.
Proof.
  intros Hu.
  destruct (generate_frame np_std teams today now_of clock_of days_ahead self)
    as (self' & Hrun & _ & _ & _ & _ & _ & Hdb).
  exists self'. split; [exact Hrun | by apply Hdb].
Qed.

(** A new generator on the sample store, which has a game scheduled for
    day 3. *)
Lemma untrained_generator_stores_nothing_witness :
  ∃ self',
    PredictionGenerator.generate_predictions_for_upcoming_games sample_std sample_teams 0
      (λ _, "2024-01-01T00:00:00") (λ _, 0%Z) 7 (PredictionGenerator.__init__ sample_db)
    = (Ok tt, self')
    ∧ PredictionGenerator.db self'
      = PredictionGenerator.db (PredictionGenerator.__init__ sample_db).
Proof.
  apply (untrained_generator_stores_nothing sample_std sample_teams 0
           (λ _, "2024-01-01T00:00:00") (λ _, 0%Z) 7
           (PredictionGenerator.__init__ sample_db)).
  reflexivity.
Defined.

(** X28: [generate_predictions_for_upcoming_games] never raises, does not
    touch the games and does not refit any model.  It writes predictions
    of upcoming games only: every row of the table stays at its position
    with its key, [actual_value] and [is_correct], rows of games that are
    not upcoming are unchanged, and every row that is new or changed is a
    "Project Apex ML" prediction of an upcoming game. *)
Theorem generate_predictions_frame (np_std : list Z → Q) (teams : gset string)
    (today : Z) (now_of : Game → string) (clock_of : Game → Z) (days_ahead : Z)
    (self : PredictionGenerator.t) :
  ∃ self',
    PredictionGenerator.generate_predictions_for_upcoming_games np_std teams today
      now_of clock_of days_ahead self = (Ok tt, self')
    ∧ games (PredictionGenerator.db self') = games (PredictionGenerator.db self)
    ∧ online (PredictionGenerator.db self') = online (PredictionGenerator.db self)
    ∧ same_fit (PredictionGenerator.model_manager self)
        (PredictionGenerator.model_manager self')
    ∧ keeps_rows (upcoming teams (PredictionGenerator.db self) today days_ahead)
        (predictions (PredictionGenerator.db self))
        (predictions (PredictionGenerator.db self'))
    ∧ adds_only (upcoming teams (PredictionGenerator.db self) today days_ahead)
        "Project Apex ML"
        (predictions (PredictionGenerator.db self))
        (predictions (PredictionGenerator.db self')).
Proof.
  destruct (generate_frame np_std teams today now_of clock_of days_ahead self)
    as (self' & Hrun & Hg & Ho & Hf & Hk & Ha & _).
  by exists self'.
Qed.

(** With trained models the scheduled game of the sample store gets its
    three predictions, and the two completed games get none. *)
Example generate_predictions_scenario :
  (λ r, (p_game_id r, prediction_type r, Qred (predicted_value r)))
    <$> predictions
          (PredictionGenerator.db
             (exec (PredictionGenerator.generate_predictions_for_upcoming_games
                      sample_std sample_teams 0 (λ _, "2024-01-01T00:00:00") (λ _, 0%Z) 7)
                {| PredictionGenerator.model_manager := sample_manager_trained;
                   PredictionGenerator.db := sample_db |}))
  = [ ("g3", "winner", 7 # 10); ("g3", "spread", 5); ("g3", "total", 210) ].
Proof. vm_compute. reflexivity. Qed.


(** ** The window of recent games *)

Section WindowFacts.
Import FeatureEngineer.

Lemma sql_limit_non_positive {A} (n : Z) (l : list A) :
  (n ≤ 0)%Z → sql_limit n l = Raise DatabaseError ∨ sql_limit n l = Ok [].
Proof.
  intros Hn. unfold sql_limit. case_bool_decide; [by left|]. right.
  replace (Z.to_nat n) with 0%nat by lia. done.
Qed.

Lemma get_team_stats_no_window (np_std : list Z → Q) (db : Database) (team_id : string)
    (games_back : Z) :
  (games_back ≤ 0)%Z → get_team_stats np_std db team_id games_back = Ok _get_default_stats.
Proof.
  intros Hn.
  unfold get_team_stats, get_team_stats_try, team_games_query, team_games_selected.
  destruct (get_connection db); [|done]. simpl.
  by destruct (sql_limit_non_positive games_back
                 (order_by_game_date_desc
                    (filter (λ g, team_games_where team_id g) (games db))) Hn) as [-> | ->].
Qed.

Lemma get_head_to_head_stats_no_window (db : Database) (team1_id team2_id : string)
    (games_back : Z) :
  (games_back ≤ 0)%Z →
  get_head_to_head_stats db team1_id team2_id games_back = Ok h2h_default.
Proof.
  intros Hn. unfold get_head_to_head_stats, get_head_to_head_stats_try, h2h_query.
  destruct (get_connection db); [|done]. simpl.
  by destruct (sql_limit_non_positive games_back
                 (order_by_game_date_desc
                    (filter (λ g, h2h_where team1_id team2_id g) (games db))) Hn)
    as [-> | ->].
Qed.

Lemma scoring_consistency_bounded (np_std : list Z → Q) (db : Database) (team_id : string)
    (games_back : Z) :
  (∀ scores, 0 <= np_std scores) →
  ∃ stats c,
    get_team_stats np_std db team_id games_back = Ok stats
    ∧ stats !! "scoring_consistency" = Some c
    ∧ 0 < c <= 1
    ∧ (stats = _get_default_stats ∧ c = 0.5
       ∨ ∃ scores, scores ≠ [] ∧ c = 1 / (np_std scores + 1)).
Proof.
  intros Hstd.
  assert (Hdefault :
    ∃ stats c,
      Ok _get_default_stats = Ok stats
      ∧ stats !! "scoring_consistency" = Some c
      ∧ 0 < c <= 1
      ∧ (stats = _get_default_stats ∧ c = 0.5
         ∨ ∃ scores, scores ≠ [] ∧ c = 1 / (np_std scores + 1))).
  { exists _get_default_stats, 0.5. split; [done|]. split; [done|].
    split; [split; [reflexivity | discriminate]|]. by left. }
  destruct (team_games_query db team_id games_back) as [df|e] eqn:E.
  - destruct df as [|row rest] eqn:Edf.
    + unfold get_team_stats, get_team_stats_try. rewrite E. exact Hdefault.
    + destruct (get_team_stats_try_bounded np_std db team_id games_back _ E)
        as (wp & hp & ap & rf & Hs & _); [done|].
      unfold get_team_stats. rewrite Hs. simpl.
      do 2 eexists. split; [reflexivity|]. split; [apply lookup_insert_eq|].
      match goal with |- context [np_std ?l] => pose proof (Hstd l) as H0 end.
      split.
      * split.
        -- apply Qlt_shift_div_l; lra.
        -- apply Qle_shift_div_r; lra.
      * right. eexists. split; [|reflexivity]. done.
  - unfold get_team_stats, get_team_stats_try. rewrite E. exact Hdefault.
Qed.

End WindowFacts.

(** X29: with a window of zero or fewer games the statistics are the
    defaults, whatever the history: [LIMIT 0] selects no game, and a
    negative [LIMIT] is an error of the store that the handler turns into
    the defaults.  This holds for [get_team_stats] and for
    [get_head_to_head_stats]. *)
Theorem non_positive_window_gives_defaults (np_std : list Z → Q) (db : Database)
    (team1_id team2_id : string) (games_back : Z) :
  (games_back ≤ 0)%Z →
  FeatureEngineer.get_team_stats np_std db team1_id games_back
  = Ok FeatureEngineer._get_default_stats
  ∧ FeatureEngineer.get_head_to_head_stats db team1_id team2_id games_back
    = Ok FeatureEngineer.h2h_default.
Proof.
  intros Hn. split.
  - by apply get_team_stats_no_window.
  - by apply get_head_to_head_stats_no_window.
Qed.

(** BOS and NYK have met twice in the sample store. *)
Lemma non_positive_window_gives_defaults_witness :
  FeatureEngineer.get_team_stats sample_std sample_db "BOS" (-1)
  = Ok FeatureEngineer._get_default_stats
  ∧ FeatureEngineer.get_head_to_head_stats sample_db "BOS" "NYK" (-1)
    = Ok FeatureEngineer.h2h_default.
Proof.
  apply (non_positive_window_gives_defaults sample_std sample_db "BOS" "NYK" (-1)).
  lia.
Defined.

(** X30: when [np.std] is non-negative, as a standard deviation is, the
    [scoring_consistency] that [get_team_stats] returns lies in (0, 1]: it
    is 1 / (std + 1) of the selected scores, or 0.5 in the default
    profile. *)
Theorem scoring_consistency_range (np_std : list Z → Q) (db : Database) (team_id : string)
    (games_back : Z) :
  (∀ scores, 0 <= np_std scores) →
  ∃ stats c,
    FeatureEngineer.get_team_stats np_std db team_id games_back = Ok stats
    ∧ stats !! "scoring_consistency" = Some c
    ∧ 0 < c <= 1
    ∧ (stats = FeatureEngineer._get_default_stats ∧ c = 0.5
       ∨ ∃ scores, scores ≠ [] ∧ c = 1 / (np_std scores + 1)).
Proof. apply scoring_consistency_bounded. Qed.

(** The sample deviation is 0 throughout, which gives a consistency
    of 1. *)
Lemma scoring_consistency_range_witness :
  ∃ stats c,
    FeatureEngineer.get_team_stats sample_std sample_db "BOS" 10 = Ok stats
    ∧ stats !! "scoring_consistency" = Some c
    ∧ 0 < c <= 1
    ∧ (stats = FeatureEngineer._get_default_stats ∧ c = 0.5
       ∨ ∃ scores, scores ≠ [] ∧ c = 1 / (sample_std scores + 1)).
Proof.
  apply (scoring_consistency_range sample_std sample_db "BOS" 10).
  intros scores. unfold sample_std. lra.
Defined.
